(** * Registration server (server.py): a shallow embedding and its properties

    The development follows the layers of [server.py]:

    - Python text ([str]) as sequences of code points, with [str.strip],
      [html.escape] and the formatting helpers the handlers use;
    - JSON values as [json.loads] builds them and [json.dump] prints them;
    - the data file on disk, [read_registrations] and [save_registrations];
    - [sanitize], [make_xlsx] and the request handlers [do_GET] / [do_POST];
    - the request loop of [http.server.HTTPServer].

    Library calls are modelled by what they return (and by the exception
    they raise); every function of [server.py] is transcribed statement by
    statement.

    What lies outside the model: the limits of the interpreter (recursion
    depth, the bound on the digits of an integer literal, memory), the
    bytes of the HTTP exchange (a request is taken after its
    [Content-Length] was read and its body decoded as UTF-8; a response is
    the status, the content type and the body handed to [wfile]), and the
    serialisation of a workbook to bytes (a report is the worksheet that
    [make_xlsx] fills). *)

From Stdlib Require Import String Ascii.
From Stdlib Require Import List ZArith NArith PArith Lia Bool.
From Stdlib Require DecimalN DecimalPos DecimalFacts.
From Stdlib Require Import SpecFloat.
Import ListNotations.

Local Open Scope N_scope.

(** ** Python text *)

(** A Python [str] is a sequence of Unicode code points. *)
Definition pystr := list N.

Module Str.

(** Code points of a UTF-8 encoded sequence of bytes.  It is only used to
    write the literals of [server.py] in readable form. *)
Fixpoint utf8_decode (bs : list N) : pystr :=
  match bs with
  | [] => []
  | b :: r =>
      if b <? 0x80 then b :: utf8_decode r
      else if b <? 0xE0 then
        match r with
        | c1 :: r1 => ((b mod 0x20) * 0x40 + c1 mod 0x40) :: utf8_decode r1
        | _ => []
        end
      else if b <? 0xF0 then
        match r with
        | c1 :: c2 :: r2 =>
            ((b mod 0x10) * 0x1000 + (c1 mod 0x40) * 0x40 + c2 mod 0x40)
              :: utf8_decode r2
        | _ => []
        end
      else
        match r with
        | c1 :: c2 :: c3 :: r3 =>
            ((b mod 0x08) * 0x40000 + (c1 mod 0x40) * 0x1000
             + (c2 mod 0x40) * 0x40 + c3 mod 0x40) :: utf8_decode r3
        | _ => []
        end
  end.

Definition lit (s : string) : pystr :=
  utf8_decode (map N_of_ascii (list_ascii_of_string s)).

Fixpoint eqb (s t : pystr) : bool :=
  match s, t with
  | [], [] => true
  | a :: s', b :: t' => (a =? b) && eqb s' t'
  | _, _ => false
  end.

Lemma eqb_spec s t : reflect (s = t) (eqb s t).
Proof.
  revert t; induction s as [|a s IH]; intros [|b t]; simpl;
    try (constructor; congruence).
  destruct (N.eqb_spec a b) as [->|Hab]; simpl.
  - destruct (IH t) as [->|Hst]; constructor; congruence.
  - constructor; congruence.
Qed.

Lemma eqb_eq s t : eqb s t = true <-> s = t.
Proof. destruct (eqb_spec s t); split; congruence. Qed.

Lemma eqb_refl s : eqb s s = true.
Proof. apply eqb_eq; reflexivity. Qed.

(** [x in collection] for a collection of strings. *)
Definition mem (s : pystr) (l : list pystr) : bool := existsb (eqb s) l.

Lemma mem_In s l : mem s l = true <-> In s l.
Proof.
  unfold mem; rewrite existsb_exists; split.
  - intros (x & Hx & E); apply eqb_eq in E; subst; exact Hx.
  - intros H; exists s; split; [exact H | apply eqb_refl].
Qed.

(** [str.isspace] on one code point: the characters [str.strip()] removes. *)
Definition isspace (c : N) : bool :=
  ((0x09 <=? c) && (c <=? 0x0D)) || ((0x1C <=? c) && (c <=? 0x20))
  || (c =? 0x85) || (c =? 0xA0) || (c =? 0x1680)
  || ((0x2000 <=? c) && (c <=? 0x200A))
  || (c =? 0x2028) || (c =? 0x2029) || (c =? 0x202F) || (c =? 0x205F)
  || (c =? 0x3000).

Fixpoint lstrip (s : pystr) : pystr :=
  match s with
  | c :: s' => if isspace c then lstrip s' else s
  | [] => []
  end.

Definition rstrip (s : pystr) : pystr := rev (lstrip (rev s)).

(** [s.strip()] *)
Definition strip (s : pystr) : pystr := rstrip (lstrip s).

(** Truth value of a string: [not s] holds for the empty string only. *)
Definition is_empty (s : pystr) : bool :=
  match s with [] => true | _ => false end.

(** [s.replace(c, r)] for a one-character pattern [c]. *)
Definition replace1 (c : N) (r : pystr) (s : pystr) : pystr :=
  flat_map (fun x => if x =? c then r else [x]) s.

(** [sep.join(parts)] *)
Fixpoint join (sep : pystr) (parts : list pystr) : pystr :=
  match parts with
  | [] => []
  | [p] => p
  | p :: rest => p ++ sep ++ join sep rest
  end.

(** [s * n] *)
Fixpoint repeat_str (s : pystr) (n : nat) : pystr :=
  match n with
  | O => []
  | S n' => s ++ repeat_str s n'
  end.

(** Decimal digits. *)
Fixpoint of_uint (d : Decimal.uint) : pystr :=
  match d with
  | Decimal.Nil => []
  | Decimal.D0 d => 48 :: of_uint d
  | Decimal.D1 d => 49 :: of_uint d
  | Decimal.D2 d => 50 :: of_uint d
  | Decimal.D3 d => 51 :: of_uint d
  | Decimal.D4 d => 52 :: of_uint d
  | Decimal.D5 d => 53 :: of_uint d
  | Decimal.D6 d => 54 :: of_uint d
  | Decimal.D7 d => 55 :: of_uint d
  | Decimal.D8 d => 56 :: of_uint d
  | Decimal.D9 d => 57 :: of_uint d
  end.

(** [str(n)] for a natural number. *)
Definition of_N (n : N) : pystr := of_uint (N.to_uint n).

(** [str(z)] for an [int]. *)
Definition of_Z (z : Z) : pystr :=
  match z with
  | Zneg p => 45 :: of_N (Npos p)
  | _ => of_N (Z.to_N z)
  end.

(** Decimal text padded with zeros on the left to [width] characters
    ([%02d], [%04d]). *)
Definition zfill (width : nat) (s : pystr) : pystr :=
  repeat 48 (width - length s) ++ s.

Definition hex_digit (d : N) : N := if d <? 10 then 48 + d else 87 + d.

(** The [width] low hexadecimal digits of [n], lower case, most
    significant first ([%0{width}x] when [n] fits). *)
Fixpoint hex_fixed (width : nat) (n : N) : pystr :=
  match width with
  | O => []
  | S w => hex_fixed w (n / 16) ++ [hex_digit (n mod 16)]
  end.

End Str.

(** Literals of [server.py] are written [py "..."]. *)
Definition py (s : string) : pystr := Str.lit s.
Arguments py s%_string.

(** ** Python floats

    A [float] is an IEEE 754 binary64 value ([spec_float] with 53 bits of
    precision).  [of_decimal] is [float("<m>e<e>")], the binary64 value
    nearest to a decimal literal; [repr] is [float.__repr__], the shortest
    decimal text that reads back as the same value. *)
Module Float.
Local Open Scope Z_scope.

Definition prec : Z := 53.
Definition emax : Z := 1024.

Definition of_decimal (neg : bool) (m : Z) (e : Z) : spec_float :=
  match m with
  | Zpos p =>
      if 0 <=? e then binary_round prec emax neg (Z.to_pos (m * 10 ^ e)) 0
      else SFdiv prec emax (S754_finite neg p 0)
             (S754_finite false (Z.to_pos (10 ^ (- e))) 0)
  | _ => S754_zero neg
  end.

Definition same (x y : spec_float) : bool :=
  match x, y with
  | S754_zero a, S754_zero b => Bool.eqb a b
  | S754_infinity a, S754_infinity b => Bool.eqb a b
  | S754_nan, S754_nan => true
  | S754_finite a m e, S754_finite b m' e' =>
      Bool.eqb a b && (m =? m')%positive && (e =? e')
  | _, _ => false
  end.

(** The positive value [m * 2^e] as a fraction. *)
Definition ratio (m : positive) (e : Z) : Z * Z :=
  if 0 <=? e then (Zpos m * 2 ^ e, 1) else (Zpos m, 2 ^ (- e)).

Definition pow10_le (k : Z) (x : Z * Z) : bool :=
  let (n, d) := x in
  if 0 <=? k then 10 ^ k * d <=? n else d <=? n * 10 ^ (- k).

Fixpoint adjust (fuel : nat) (k : Z) (x : Z * Z) : Z :=
  match fuel with
  | O => k
  | S f => if pow10_le (k + 1) x then adjust f (k + 1) x else k
  end.

(** The largest [k] with [10^k <= x]. *)
Definition log10_floor (x : Z * Z) : Z :=
  let (n, d) := x in
  adjust 8 ((Z.log2 n - Z.log2 d - 1) * 30103 / 100000 - 1) x.

(** The [n]-digit decimal nearest to [x] among those that read back as
    the float [f], if there is one: digits and decimal exponent. *)
Definition candidate (f : spec_float) (x : Z * Z) (k : Z) (n : Z)
  : option (Z * Z) :=
  let (num, den) := x in
  let q := k - n + 1 in
  let (sn, sd) := if 0 <=? q then (num, den * 10 ^ q)
                  else (num * 10 ^ (- q), den) in
  let lo := sn / sd in
  let r := sn mod sd in
  let hi := lo + 1 in
  let ok d := same (of_decimal false d q) f in
  if r =? 0 then Some (lo, q)
  else
    match ok lo, ok hi with
    | true, true =>
        match 2 * r ?= sd with
        | Lt => Some (lo, q)
        | Gt => Some (hi, q)
        | Eq => Some (if Z.even lo then lo else hi, q)
        end
    | true, false => Some (lo, q)
    | false, true => Some (hi, q)
    | false, false => None
    end.

Fixpoint shortest (fuel : nat) (f : spec_float) (x : Z * Z) (k n : Z)
  : Z * Z :=
  match fuel with
  | O => (0, 0)
  | S fuel' =>
      match candidate f x k n with
      | Some c => c
      | None => shortest fuel' f x k (n + 1)
      end
  end.

Fixpoint drop_zeros (fuel : nat) (c : Z * Z) : Z * Z :=
  match fuel with
  | O => c
  | S fuel' =>
      let (d, q) := c in
      if (d mod 10 =? 0) && negb (d =? 0) then drop_zeros fuel' (d / 10, q + 1)
      else c
  end.

(** Layout of the ['r'] format: digits [ds] with the decimal point after
    [decpt] of them; exponent notation when [decpt <= -4] or
    [decpt > 16]. *)
Definition layout (ds : pystr) (decpt : Z) : pystr :=
  let nd := Z.of_nat (length ds) in
  if (decpt <=? -4) || (16 <? decpt) then
    let e := decpt - 1 in
    let mant := match ds with
                | d :: [] => [d]
                | d :: rest => d :: 46%N :: rest
                | [] => []
                end in
    mant ++ [101%N; if e <? 0 then 45%N else 43%N]
         ++ Str.zfill 2 (Str.of_Z (Z.abs e))
  else if decpt <=? 0 then
    [48%N; 46%N] ++ repeat 48%N (Z.to_nat (- decpt)) ++ ds
  else if decpt <? nd then
    firstn (Z.to_nat decpt) ds ++ [46%N] ++ skipn (Z.to_nat decpt) ds
  else
    ds ++ repeat 48%N (Z.to_nat (decpt - nd)) ++ [46%N; 48%N].

Definition repr_finite (m : positive) (e : Z) : pystr :=
  let x := ratio m e in
  let k := log10_floor x in
  let (d, q) := drop_zeros 20 (shortest 17 (S754_finite false m e) x k 1) in
  let ds := Str.of_Z d in
  layout ds (Z.of_nat (length ds) + q).

Definition sign (neg : bool) : pystr := if neg then [45%N] else [].

(** [repr(x)], which is also [str(x)]. *)
Definition repr (x : spec_float) : pystr :=
  match x with
  | S754_zero neg => sign neg ++ py "0.0"
  | S754_infinity neg => sign neg ++ py "inf"
  | S754_nan => py "nan"
  | S754_finite neg m e => sign neg ++ repr_finite m e
  end.

(** The text [json.dump] writes for a float ([allow_nan] is on). *)
Definition json_text (x : spec_float) : pystr :=
  match x with
  | S754_infinity neg => sign neg ++ py "Infinity"
  | S754_nan => py "NaN"
  | _ => repr x
  end.

End Float.

(** ** JSON values

    The Python objects [json.loads] returns: [None], [bool], [int],
    [float], [str], [list] and [dict].  A [dict] keeps its keys in insertion
    order, so it is an association list; [json.loads] never builds one with
    a repeated key. *)
Unset Elimination Schemes.
Inductive json : Type :=
| JNull
| JBool (b : bool)
| JInt (z : Z)
| JFloat (f : spec_float)
| JStr (s : pystr)
| JList (l : list json)
| JDict (d : list (pystr * json)).
Set Elimination Schemes.

Module Dict.

(** [d.get(k)]: [None] stands for an absent key. *)
Fixpoint get (d : list (pystr * json)) (k : pystr) : option json :=
  match d with
  | [] => None
  | (k', v) :: d' => if Str.eqb k k' then Some v else get d' k
  end.

(** [d[k] = v]: a present key keeps its place, a new key goes last. *)
Fixpoint set (d : list (pystr * json)) (k : pystr) (v : json)
  : list (pystr * json) :=
  match d with
  | [] => [(k, v)]
  | (k', v') :: d' =>
      if Str.eqb k k' then (k', v) :: d' else (k', v') :: set d' k v
  end.

End Dict.

(** ** [repr] and [str] of JSON values *)
Module Repr.

(** [repr] of one character of a string quoted with [q].  Beyond ASCII,
    Python escapes the characters its Unicode database calls
    non-printable: [isprintable] is that table. *)
Definition repr_char (isprintable : N -> bool) (q c : N) : pystr :=
  if (c =? q) || (c =? 92) then [92; c]
  else if c =? 9 then py "\t"
  else if c =? 10 then py "\n"
  else if c =? 13 then py "\r"
  else if (c <? 32) || (c =? 127) then py "\x" ++ Str.hex_fixed 2 c
  else if c <? 127 then [c]
  else if isprintable c then [c]
  else if c <=? 0xff then py "\x" ++ Str.hex_fixed 2 c
  else if c <=? 0xffff then py "\u" ++ Str.hex_fixed 4 c
  else py "\U" ++ Str.hex_fixed 8 c.

Definition repr_str (isprintable : N -> bool) (s : pystr) : pystr :=
  let q := if existsb (N.eqb 39) s && negb (existsb (N.eqb 34) s)
           then 34 else 39 in
  q :: flat_map (repr_char isprintable q) s ++ [q].

Fixpoint repr (isprintable : N -> bool) (v : json) : pystr :=
  match v with
  | JNull => py "None"
  | JBool true => py "True"
  | JBool false => py "False"
  | JInt z => Str.of_Z z
  | JFloat f => Float.repr f
  | JStr s => repr_str isprintable s
  | JList l => py "[" ++ Str.join (py ", ") (map (repr isprintable) l) ++ py "]"
  | JDict d =>
      py "{"
      ++ Str.join (py ", ")
           (map (fun kv => repr_str isprintable (fst kv) ++ py ": "
                           ++ repr isprintable (snd kv)) d)
      ++ py "}"
  end.

(** [str(v)] *)
Definition str (isprintable : N -> bool) (v : json) : pystr :=
  match v with
  | JStr s => s
  | _ => repr isprintable v
  end.

End Repr.

(** ** [json.loads] *)
Module Decoder.

Definition is_ws (c : N) : bool :=
  (c =? 32) || (c =? 9) || (c =? 10) || (c =? 13).

Fixpoint skip_ws (s : pystr) : pystr :=
  match s with
  | c :: r => if is_ws c then skip_ws r else s
  | [] => []
  end.

Fixpoint starts_with (p s : pystr) : bool :=
  match p, s with
  | [], _ => true
  | a :: p', b :: s' => (a =? b) && starts_with p' s'
  | _ :: _, [] => false
  end.

Definition is_digit (c : N) : bool := (48 <=? c) && (c <=? 57).

Definition hex_val (c : N) : option N :=
  if is_digit c then Some (c - 48)
  else if (97 <=? c) && (c <=? 102) then Some (c - 87)
  else if (65 <=? c) && (c <=? 70) then Some (c - 55)
  else None.

Definition hex4 (a b c d : N) : option N :=
  match hex_val a, hex_val b, hex_val c, hex_val d with
  | Some x, Some y, Some z, Some w => Some (((x * 16 + y) * 16 + z) * 16 + w)
  | _, _, _, _ => None
  end.

Definition is_high (c : N) : bool := (0xD800 <=? c) && (c <=? 0xDBFF).
Definition is_low (c : N) : bool := (0xDC00 <=? c) && (c <=? 0xDFFF).
Definition join_surrogates (hi lo : N) : N :=
  0x10000 + (hi - 0xD800) * 0x400 + (lo - 0xDC00).

(** The character an escape letter stands for: quote, backslash, slash,
    [b], [f], [n], [r], [t]. *)
Definition simple_escape (e : N) : option N :=
  if e =? 34 then Some 34
  else if e =? 92 then Some 92
  else if e =? 47 then Some 47
  else if e =? 98 then Some 8
  else if e =? 102 then Some 12
  else if e =? 110 then Some 10
  else if e =? 114 then Some 13
  else if e =? 116 then Some 9
  else None.

Definition push (c : N) (r : option (pystr * pystr)) : option (pystr * pystr) :=
  match r with
  | Some (s, rest) => Some (c :: s, rest)
  | None => None
  end.

(** [scanstring] in strict mode, from the character after the opening
    quote: the decoded string and the text after the closing quote. *)
Fixpoint scanstring (s : pystr) : option (pystr * pystr) :=
  match s with
  | [] => None
  | c :: r =>
      if c =? 34 then Some ([], r)
      else if c =? 92 then
        match r with
        | [] => None
        | e :: r1 =>
            if e =? 117 then
              match r1 with
              | h1 :: h2 :: h3 :: h4 :: r2 =>
                  match hex4 h1 h2 h3 h4 with
                  | None => None
                  | Some c1 =>
                      match r2 with
                      | b :: e' :: g1 :: g2 :: g3 :: g4 :: r3 =>
                          if is_high c1 && (b =? 92) && (e' =? 117) then
                            match hex4 g1 g2 g3 g4 with
                            | None => None
                            | Some c2 =>
                                if is_low c2
                                then push (join_surrogates c1 c2) (scanstring r3)
                                else push c1 (scanstring r2)
                            end
                          else push c1 (scanstring r2)
                      | _ => push c1 (scanstring r2)
                      end
                  end
              | _ => None
              end
            else
              match simple_escape e with
              | Some x => push x (scanstring r1)
              | None => None
              end
        end
      else if c <=? 0x1F then None
      else push c (scanstring r)
  end.

Fixpoint span_digits (s : pystr) : pystr * pystr :=
  match s with
  | c :: r =>
      if is_digit c then let (ds, rest) := span_digits r in (c :: ds, rest)
      else ([], s)
  | [] => ([], [])
  end.

Fixpoint to_uint (ds : pystr) : Decimal.uint :=
  match ds with
  | [] => Decimal.Nil
  | c :: r =>
      let t := to_uint r in
      if c =? 48 then Decimal.D0 t else if c =? 49 then Decimal.D1 t
      else if c =? 50 then Decimal.D2 t else if c =? 51 then Decimal.D3 t
      else if c =? 52 then Decimal.D4 t else if c =? 53 then Decimal.D5 t
      else if c =? 54 then Decimal.D6 t else if c =? 55 then Decimal.D7 t
      else if c =? 56 then Decimal.D8 t else Decimal.D9 t
  end.

Definition digits_value (ds : pystr) : Z := Z.of_N (N.of_uint (to_uint ds)).

(** The integer part of a number: [0], or a run of digits that does not
    start with [0]; and the text after it. *)
Definition integer_part (s : pystr) : pystr * pystr :=
  match s with
  | c :: r => if c =? 48 then ([c], r) else span_digits s
  | [] => ([], s)
  end.

(** The digits of the fraction, if a dot and at least one digit follow. *)
Definition fraction_part (s : pystr) : pystr * pystr :=
  match s with
  | c :: r =>
      if c =? 46 then
        match span_digits r with
        | ([], _) => ([], s)
        | (fs, rest) => (fs, rest)
        end
      else ([], s)
  | [] => ([], s)
  end.

(** The exponent, if [e] or [E], an optional sign and at least one digit
    follow. *)
Definition exponent_part (s : pystr) : option Z * pystr :=
  match s with
  | c :: r =>
      if (c =? 101) || (c =? 69) then
        let (eneg, r1) := match r with
                          | c' :: r' =>
                              if c' =? 45 then (true, r')
                              else if c' =? 43 then (false, r')
                              else (false, r)
                          | [] => (false, r)
                          end in
        match span_digits r1 with
        | ([], _) => (None, s)
        | (es, rest) =>
            (Some (if eneg then (- digits_value es)%Z else digits_value es),
             rest)
        end
      else (None, s)
  | [] => (None, s)
  end.

(** The optional minus sign of a number. *)
Definition sign_part (s : pystr) : bool * pystr :=
  match s with
  | c :: r => if c =? 45 then (true, r) else (false, s)
  | [] => (false, s)
  end.

(** The number after its sign: the integer part, then optionally a
    fraction and an exponent.  A fraction or an exponent makes the
    number a [float], otherwise it is an [int]. *)
Definition number_after_sign (neg : bool) (s : pystr)
  : option (json * pystr) :=
  let (ip, s2) := integer_part s in
  match ip with
  | [] => None
  | _ :: _ =>
      let (frac, s3) := fraction_part s2 in
      let (ex, s4) := exponent_part s3 in
      match frac, ex with
      | [], None =>
          Some (JInt (if neg then (- digits_value ip)%Z else digits_value ip), s4)
      | _, _ =>
          let e := match ex with Some e => e | None => 0%Z end in
          Some (JFloat (Float.of_decimal neg (digits_value (ip ++ frac))
                          (e - Z.of_nat (length frac))), s4)
      end
  end.

(** The number at the head of [s]. *)
Definition match_number (s : pystr) : option (json * pystr) :=
  let (neg, s1) := sign_part s in number_after_sign neg s1.

Definition constant (s : pystr) : option (json * pystr) :=
  if starts_with (py "null") s then Some (JNull, skipn 4 s)
  else if starts_with (py "true") s then Some (JBool true, skipn 4 s)
  else if starts_with (py "false") s then Some (JBool false, skipn 5 s)
  else if starts_with (py "NaN") s then Some (JFloat S754_nan, skipn 3 s)
  else if starts_with (py "Infinity") s
  then Some (JFloat (S754_infinity false), skipn 8 s)
  else if starts_with (py "-Infinity") s
  then Some (JFloat (S754_infinity true), skipn 9 s)
  else match_number s.

(** [scan_once]: the value at the head of [s] and the text after it.
    [fuel] bounds the number of nested calls. *)
Fixpoint scan_once (fuel : nat) (s : pystr) : option (json * pystr) :=
  match fuel with
  | O => None
  | S fuel' =>
      match s with
      | [] => None
      | c :: r =>
          if c =? 34 then
            match scanstring r with
            | Some (str, rest) => Some (JStr str, rest)
            | None => None
            end
          else if c =? 123 then
            match skip_ws r with
            | c' :: r' =>
                if c' =? 125 then Some (JDict [], r')
                else parse_object fuel' (c' :: r') []
            | [] => None
            end
          else if c =? 91 then
            match skip_ws r with
            | c' :: r' =>
                if c' =? 93 then Some (JList [], r')
                else parse_array fuel' (c' :: r') []
            | [] => None
            end
          else constant s
      end
  end

(** The items of an array, from the first character of an item. *)
with parse_array (fuel : nat) (s : pystr) (acc : list json)
  : option (json * pystr) :=
  match fuel with
  | O => None
  | S fuel' =>
      match scan_once fuel' s with
      | None => None
      | Some (v, r) =>
          match skip_ws r with
          | c :: r' =>
              if c =? 93 then Some (JList (rev (v :: acc)), r')
              else if c =? 44 then parse_array fuel' (skip_ws r') (v :: acc)
              else None
          | [] => None
          end
      end
  end

(** The members of an object, from the opening quote of a key. *)
with parse_object (fuel : nat) (s : pystr) (acc : list (pystr * json))
  : option (json * pystr) :=
  match fuel with
  | O => None
  | S fuel' =>
      match s with
      | c :: r =>
          if c =? 34 then
            match scanstring r with
            | None => None
            | Some (k, r1) =>
                match skip_ws r1 with
                | c1 :: r2 =>
                    if c1 =? 58 then
                      match scan_once fuel' (skip_ws r2) with
                      | None => None
                      | Some (v, r3) =>
                          match skip_ws r3 with
                          | c3 :: r4 =>
                              if c3 =? 125
                              then Some (JDict (Dict.set acc k v), r4)
                              else if c3 =? 44
                              then parse_object fuel' (skip_ws r4)
                                     (Dict.set acc k v)
                              else None
                          | [] => None
                          end
                      end
                    else None
                | [] => None
                end
            end
          else None
      | [] => None
      end
  end.

(** [json.loads(s)]; [None] stands for [JSONDecodeError].  The decoder
    is the one of an interpreter without limits: a text nested deeper
    than the interpreter's stack allows ([RecursionError]) and an integer
    literal longer than its digit limit ([ValueError]) are decoded here
    like any other text. *)
Definition loads (s : pystr) : option json :=
  if starts_with [0xFEFF] s then None
  else
    match scan_once (S (2 * length s)) (skip_ws s) with
    | Some (v, r) => match skip_ws r with [] => Some v | _ :: _ => None end
    | None => None
    end.

End Decoder.

(** ** [json.dump] / [json.dumps] with [ensure_ascii=False, indent=2] *)
Module Encoder.

Definition escape_char (c : N) : pystr :=
  if c =? 34 then [92; 34]
  else if c =? 92 then [92; 92]
  else if c =? 10 then py "\n"
  else if c =? 13 then py "\r"
  else if c =? 9 then py "\t"
  else if c =? 8 then py "\b"
  else if c =? 12 then py "\f"
  else if c <? 32 then py "\u" ++ Str.hex_fixed 4 c
  else [c].

Definition encode_basestring (s : pystr) : pystr :=
  34 :: flat_map escape_char s ++ [34].

(** The text of a value that is written in one piece. *)
Definition scalar (v : json) : option pystr :=
  match v with
  | JNull => Some (py "null")
  | JBool true => Some (py "true")
  | JBool false => Some (py "false")
  | JInt z => Some (Str.of_Z z)
  | JFloat f => Some (Float.json_text f)
  | JStr s => Some (encode_basestring s)
  | JList _ | JDict _ => None
  end.

Definition newline_indent (level : nat) : pystr :=
  10 :: Str.repeat_str (py "  ") level.

(** The chunks of the items of a list whose items are indented to
    [level]: the first item follows the opening bracket, the others a
    comma; a scalar comes in one chunk with what precedes it.  [enc]
    yields the chunks of a nested container. *)
Fixpoint list_items (enc : json -> list pystr) (level : nat) (first : bool)
  (l : list json) : list pystr :=
  match l with
  | [] => []
  | x :: l' =>
      let buf := (if first then 91 else 44) :: newline_indent level in
      match scalar x with
      | Some t => [buf ++ t]
      | None => buf :: enc x
      end ++ list_items enc level false l'
  end.

(** The chunks of the members of a dictionary. *)
Fixpoint dict_items (enc : json -> list pystr) (level : nat) (first : bool)
  (d : list (pystr * json)) : list pystr :=
  match d with
  | [] => []
  | (k, x) :: d' =>
      (if first then [] else [44 :: newline_indent level])
      ++ [encode_basestring k; py ": "]
      ++ match scalar x with
         | Some t => [t]
         | None => enc x
         end
      ++ dict_items enc level false d'
  end.

(** The chunks [_iterencode_list] and [_iterencode_dict] yield for a
    container at nesting depth [level]. *)
Fixpoint iterencode_container (level : nat) (v : json) : list pystr :=
  match v with
  | JList [] => [py "[]"]
  | JList l =>
      list_items (iterencode_container (S level)) (S level) true l
      ++ [newline_indent level; py "]"]
  | JDict [] => [py "{}"]
  | JDict d =>
      [py "{"; newline_indent (S level)]
      ++ dict_items (iterencode_container (S level)) (S level) true d
      ++ [newline_indent level; py "}"]
  | _ => []
  end.

(** [JSONEncoder(indent=2, ensure_ascii=False).iterencode(v)] *)
Definition iterencode (v : json) : list pystr :=
  match scalar v with
  | Some t => [t]
  | None => iterencode_container 0 v
  end.

(** [json.dumps(v, ensure_ascii=False, indent=2)] *)
Definition dumps (v : json) : pystr := concat (iterencode v).

End Encoder.

(** ** [html.escape] *)
Module Html.

(** [html.escape(s)] with [quote=True]: five successive [str.replace]
    calls, the ampersand first. *)
Definition escape (s : pystr) : pystr :=
  let s := Str.replace1 38 (py "&amp;") s in
  let s := Str.replace1 60 (py "&lt;") s in
  let s := Str.replace1 62 (py "&gt;") s in
  let s := Str.replace1 34 (py "&quot;") s in
  Str.replace1 39 (py "&#x27;") s.

End Html.

(** ** Exceptions *)

Inductive exn : Type :=
| AttributeError
| TypeError
| KeyError
| ValueError
| JSONDecodeError
| UnicodeEncodeError
| OSError
| IllegalCharacterError.

(** The result of a computation that may raise. *)
Inductive result (A : Type) : Type :=
| Ok (a : A)
| Raise (e : exn).
Arguments Ok {A} a.
Arguments Raise {A} e.

Definition bind {A B : Type} (m : result A) (k : A -> result B) : result B :=
  match m with
  | Ok a => k a
  | Raise e => Raise e
  end.

Notation "m >>= k" := (bind m k) (at level 50, left associativity).

Notation "x <- m ;; k" := (bind m (fun x => k))
  (at level 61, m at next level, right associativity).

(** ** Duck-typed operations on JSON values *)
Module Py.

(** [obj.get(key, default)]: only a [dict] has the method. *)
Definition get (obj : json) (key : pystr) (default : json) : result json :=
  match obj with
  | JDict d =>
      Ok (match Dict.get d key with Some v => v | None => default end)
  | _ => Raise AttributeError
  end.

(** [obj[key]] for a string key. *)
Definition getitem (obj : json) (key : pystr) : result json :=
  match obj with
  | JDict d =>
      match Dict.get d key with Some v => Ok v | None => Raise KeyError end
  | _ => Raise TypeError
  end.

(** [obj.strip()]: only a [str] has the method. *)
Definition strip (obj : json) : result pystr :=
  match obj with
  | JStr s => Ok (Str.strip s)
  | _ => Raise AttributeError
  end.

(** [obj in s] for a set [s] of strings: the element is hashed first,
    which a [list] or a [dict] refuses. *)
Definition in_set (obj : json) (s : list pystr) : result bool :=
  match obj with
  | JStr x => Ok (Str.mem x s)
  | JList _ | JDict _ => Raise TypeError
  | _ => Ok false
  end.

(** The items [for x in obj] visits: the elements of a [list], the
    characters of a [str], the keys of a [dict]. *)
Definition iter (obj : json) : result (list json) :=
  match obj with
  | JList l => Ok l
  | JStr s => Ok (map (fun c => JStr [c]) s)
  | JDict d => Ok (map (fun kv => JStr (fst kv)) d)
  | _ => Raise TypeError
  end.

(** The strings of a list of values; [sep.join] refuses anything else. *)
Fixpoint strings (l : list json) : result (list pystr) :=
  match l with
  | [] => Ok []
  | JStr s :: l' => rest <- strings l' ;; Ok (s :: rest)
  | _ :: _ => Raise TypeError
  end.

(** [sep.join(obj)] *)
Definition join (sep : pystr) (obj : json) : result pystr :=
  items <- iter obj ;;
  parts <- strings items ;;
  Ok (Str.join sep parts).

(** Characters UTF-8 cannot encode: the surrogates. *)
Definition is_surrogate (c : N) : bool := (0xD800 <=? c) && (c <=? 0xDFFF).

Definition encodable (s : pystr) : bool :=
  forallb (fun c => negb (is_surrogate c)) s.

(** [len(s.encode("utf-8"))] *)
Definition utf8_length (s : pystr) : N :=
  fold_right (fun c n =>
                (if c <? 0x80 then 1 else if c <? 0x800 then 2
                 else if c <? 0x10000 then 3 else 4) + n) 0 s.

(** [enumerate(l, start)] *)
Fixpoint enumerate {A : Type} (start : N) (l : list A) : list (N * A) :=
  match l with
  | [] => []
  | x :: l' => (start, x) :: enumerate (N.succ start) l'
  end.

End Py.

(** ** The process and its surroundings *)

(** What the process is started with: the admin token read from the
    environment, and the interpreter's table of printable characters. *)
Record runtime : Type := {
  ADMIN_TOKEN : pystr;
  isprintable : N -> bool
}.

Record datetime : Type := {
  year : N; month : N; day : N; hour : N; minute : N; second : N
}.

(** What one request draws from its surroundings: the integer of
    [uuid.uuid4()], the clock, and the storage faults it meets.
    [disk_room], when set, is the number of characters the disk still
    takes. *)
Record oracle : Type := {
  uuid4 : N;
  now : datetime;
  open_read_fails : bool;
  makedirs_fails : bool;
  open_write_fails : bool;
  disk_room : option nat
}.

(** The regular files: the text of each path that exists.  Paths are
    relative to the directory of [server.py]. *)
Definition filesystem := pystr -> option pystr.

Definition write_file (fs : filesystem) (p : pystr) (text : pystr)
  : filesystem :=
  fun q => if Str.eqb q p then Some text else fs q.

Definition path_join (a b : pystr) : pystr := a ++ py "/" ++ b.

Definition DATA_DIR : pystr := py "data".
Definition DATA_FILE : pystr := path_join DATA_DIR (py "registrations.json").

Definition VALID_GENDERS : list pystr := [py "М"; py "Ж"].
Definition VALID_BOATS : list pystr :=
  [py "К-1"; py "К-2"; py "К-4"; py "С-1"; py "С-2"; py "С-4"].
Definition VALID_DISTANCES : list pystr :=
  [py "200 м"; py "500 м"; py "1000 м"; py "5000 м"; py "Эстафета 4×200"].

(** ** The registration store *)

Definition read_registrations (o : oracle) (fs : filesystem)
  : result (list json) :=
  match fs DATA_FILE with
  | None => Ok []
  | Some content =>
      if open_read_fails o then Raise OSError
      else if Str.is_empty (Str.strip content) then Ok []
      else
        match Decoder.loads content with
        | None => Raise JSONDecodeError
        | Some (JList data) => Ok data
        | Some _ => Ok []
        end
  end.

(** [f.write(chunk)] for each chunk in turn, until one cannot be
    encoded: the text accepted so far, and whether all of it was. *)
Fixpoint write_chunks (chunks : list pystr) : pystr * bool :=
  match chunks with
  | [] => ([], true)
  | c :: rest =>
      if Py.encodable c then
        let (text, ok) := write_chunks rest in (c ++ text, ok)
      else ([], false)
  end.

(** [open(DATA_FILE, "w")] empties the file at once; [json.dump] then
    writes the document chunk by chunk, and leaving the [with] block
    flushes what was written to the disk. *)
Definition save_registrations (o : oracle) (data : list json)
  (fs : filesystem) : result unit * filesystem :=
  if makedirs_fails o then (Raise OSError, fs)
  else if open_write_fails o then (Raise OSError, fs)
  else
    let (text, complete) := write_chunks (Encoder.iterencode (JList data)) in
    let kept := match disk_room o with
                | Some room => firstn room text
                | None => text
                end in
    (if (length kept <? length text)%nat then Raise OSError
     else if complete then Ok tt
     else Raise UnicodeEncodeError,
     write_file fs DATA_FILE kept).

Definition sanitize (rt : runtime) (value : json) : pystr :=
  Html.escape (Str.strip (Repr.str (isprintable rt) value)).

(** ** The spreadsheet

    A worksheet is what [make_xlsx] puts into it: the cells with their
    values and styles, the column widths, the frozen pane and the filter
    range.  [wb.save] turns it into the bytes of the file. *)
Module Xlsx.

Record Font : Type := {
  font_name : pystr; bold : bool; size : N; color : option pystr
}.

Record PatternFill : Type := {
  start_color : pystr; end_color : pystr; fill_type : pystr
}.

Record Alignment : Type := {
  horizontal : option pystr; vertical : option pystr;
  wrap_text : option bool
}.

Record Side : Type := { style : pystr; side_color : pystr }.

Record Border : Type := { left : Side; right : Side; top : Side; bottom : Side }.

Record cell : Type := {
  value : json;
  font : Font;
  fill : option PatternFill;
  alignment : Alignment;
  border : Border
}.

Record worksheet : Type := {
  title : pystr;
  cells : N -> N -> option cell;
  max_row : N;
  max_column : N;
  column_width : list (pystr * N);
  freeze_panes : option pystr;
  auto_filter_ref : option pystr
}.

(** The sheet of a fresh [Workbook()]. *)
Definition empty : worksheet := {|
  title := py "Sheet";
  cells := fun _ _ => None;
  max_row := 1;
  max_column := 1;
  column_width := [];
  freeze_panes := None;
  auto_filter_ref := None
|}.

(** Characters a cell refuses: U+0000 to U+0008, U+000B, U+000C and
    U+000E to U+001F. *)
Definition illegal (c : N) : bool :=
  (c <=? 8) || (c =? 11) || (c =? 12) || ((14 <=? c) && (c <=? 31)).

(** The longest text a cell holds. *)
Definition cell_limit : nat := N.to_nat 32767.

(** The value a cell keeps when [v] is assigned to it: text is cut to
    32767 characters and refused with [IllegalCharacterError] when it
    holds an illegal character; a [list] or a [dict] is refused with
    [ValueError]. *)
Definition bind_value (v : json) : result json :=
  match v with
  | JStr s =>
      let s' := firstn cell_limit s in
      if existsb illegal s' then Raise IllegalCharacterError
      else Ok (JStr s')
  | JList _ | JDict _ => Raise ValueError
  | _ => Ok v
  end.

(** [cell = ws.cell(row=.., column=.., value=..)] followed by the
    assignments of the cell's styles. *)
Definition put (ws : worksheet) (row col : N) (v : json) (f : Font)
  (fl : option PatternFill) (a : Alignment) (b : Border)
  : result worksheet :=
  stored <- bind_value v ;;
  let c := {| value := stored; font := f; fill := fl; alignment := a;
              border := b |} in
  Ok {| title := title ws;
        cells := fun r k => if (r =? row) && (k =? col) then Some c
                            else cells ws r k;
        max_row := N.max (max_row ws) row;
        max_column := N.max (max_column ws) col;
        column_width := column_width ws;
        freeze_panes := freeze_panes ws;
        auto_filter_ref := auto_filter_ref ws |}.

Definition set_title (ws : worksheet) (t : pystr) : worksheet :=
  {| title := t; cells := cells ws; max_row := max_row ws;
     max_column := max_column ws; column_width := column_width ws;
     freeze_panes := freeze_panes ws; auto_filter_ref := auto_filter_ref ws |}.

Definition set_width (ws : worksheet) (letter : pystr) (w : N) : worksheet :=
  {| title := title ws; cells := cells ws; max_row := max_row ws;
     max_column := max_column ws;
     column_width := column_width ws ++ [(letter, w)];
     freeze_panes := freeze_panes ws; auto_filter_ref := auto_filter_ref ws |}.

Definition set_freeze_panes (ws : worksheet) (ref : pystr) : worksheet :=
  {| title := title ws; cells := cells ws; max_row := max_row ws;
     max_column := max_column ws; column_width := column_width ws;
     freeze_panes := Some ref; auto_filter_ref := auto_filter_ref ws |}.

Definition set_auto_filter (ws : worksheet) (ref : pystr) : worksheet :=
  {| title := title ws; cells := cells ws; max_row := max_row ws;
     max_column := max_column ws; column_width := column_width ws;
     freeze_panes := freeze_panes ws; auto_filter_ref := Some ref |}.

Fixpoint letters (fuel : nat) (i : N) : pystr :=
  match fuel with
  | O => []
  | S fuel' =>
      if i =? 0 then []
      else letters fuel' ((i - 1) / 26) ++ [65 + (i - 1) mod 26]
  end.

(** [get_column_letter(i)] for the columns a sheet can have. *)
Definition get_column_letter (i : N) : pystr := letters 3 i.

End Xlsx.

(** [for x in l: ws = step(ws, x)], stopping at the first exception. *)
Fixpoint for_each {A S : Type} (l : list A) (step : S -> A -> result S)
  (s : S) : result S :=
  match l with
  | [] => Ok s
  | x :: l' => s' <- step s x ;; for_each l' step s'
  end.

(** [[f(x) for x in l]], stopping at the first exception. *)
Fixpoint map_each {A B : Type} (f : A -> result B) (l : list A)
  : result (list B) :=
  match l with
  | [] => Ok []
  | x :: l' => y <- f x ;; ys <- map_each f l' ;; Ok (y :: ys)
  end.

Definition headers : list pystr :=
  [py "№"; py "Дата заявки"; py "Фамилия"; py "Имя"; py "Отчество";
   py "Дата рождения"; py "Пол"; py "Страна"; py "Город";
   py "Звание"; py "Команда"; py "Класс лодки"; py "Телефон";
   py "Дистанции"].

Definition col_widths : list N :=
  [5; 14; 18; 14; 16; 14; 7; 14; 16; 12; 20; 13; 20; 30].

Definition header_font : Xlsx.Font :=
  {| Xlsx.font_name := py "Arial"; Xlsx.bold := true; Xlsx.size := 11;
     Xlsx.color := Some (py "FFFFFF") |}.
Definition header_fill : Xlsx.PatternFill :=
  {| Xlsx.start_color := py "0A2463"; Xlsx.end_color := py "0A2463";
     Xlsx.fill_type := py "solid" |}.
Definition header_align : Xlsx.Alignment :=
  {| Xlsx.horizontal := Some (py "center");
     Xlsx.vertical := Some (py "center"); Xlsx.wrap_text := Some true |}.
Definition thin_side : Xlsx.Side :=
  {| Xlsx.style := py "thin"; Xlsx.side_color := py "D8DFE9" |}.
Definition thin_border : Xlsx.Border :=
  {| Xlsx.left := thin_side; Xlsx.right := thin_side;
     Xlsx.top := thin_side; Xlsx.bottom := thin_side |}.
Definition data_font : Xlsx.Font :=
  {| Xlsx.font_name := py "Arial"; Xlsx.bold := false; Xlsx.size := 10;
     Xlsx.color := None |}.
Definition data_align : Xlsx.Alignment :=
  {| Xlsx.horizontal := None; Xlsx.vertical := Some (py "center");
     Xlsx.wrap_text := Some false |}.
Definition center_align : Xlsx.Alignment :=
  {| Xlsx.horizontal := Some (py "center");
     Xlsx.vertical := Some (py "center"); Xlsx.wrap_text := None |}.
Definition even_fill : Xlsx.PatternFill :=
  {| Xlsx.start_color := py "E8F1FB"; Xlsx.end_color := py "E8F1FB";
     Xlsx.fill_type := py "solid" |}.

Definition center_cols : list N := [1; 7].

(** The keys of the columns between the number and the distances. *)
Definition text_columns : list pystr :=
  [py "timestamp"; py "surname"; py "firstname"; py "patronymic";
   py "birthdate"; py "gender"; py "country"; py "city"; py "rank";
   py "team"; py "boat_class"; py "phone"].

(** The list [row_data] of the [i]-th registration. *)
Definition row_data (i : N) (reg : json) : result (list json) :=
  fields <- map_each (fun k => Py.get reg k (JStr [])) text_columns ;;
  ds <- Py.get reg (py "distances") (JList []) ;;
  joined <- Py.join (py ", ") ds ;;
  Ok (JInt (Z.of_N i) :: fields ++ [JStr joined]).

Definition write_header (ws : Xlsx.worksheet) (x : N * (pystr * N))
  : result Xlsx.worksheet :=
  let '(col_idx, (title, width)) := x in
  ws <- Xlsx.put ws 1 col_idx (JStr title) header_font (Some header_fill)
          header_align thin_border ;;
  Ok (Xlsx.set_width ws (Xlsx.get_column_letter col_idx) width).

Definition write_cell (i row_num : N) (ws : Xlsx.worksheet) (x : N * json)
  : result Xlsx.worksheet :=
  let '(col_idx, value) := x in
  Xlsx.put ws row_num col_idx value data_font
    (if i mod 2 =? 0 then Some even_fill else None)
    (if existsb (N.eqb col_idx) center_cols then center_align else data_align)
    thin_border.

Definition write_row (ws : Xlsx.worksheet) (x : N * json)
  : result Xlsx.worksheet :=
  let '(i, reg) := x in
  let row_num := i + 1 in
  data <- row_data i reg ;;
  for_each (Py.enumerate 1 data) (write_cell i row_num) ws.

Definition make_xlsx (registrations : list json) : result Xlsx.worksheet :=
  let ws := Xlsx.set_title Xlsx.empty (py "Заявки") in
  ws <- for_each (Py.enumerate 1 (combine headers col_widths)) write_header ws ;;
  let ws := Xlsx.set_freeze_panes ws (py "A2") in
  ws <- for_each (Py.enumerate 1 registrations) write_row ws ;;
  let last_col := Xlsx.get_column_letter (N.of_nat (length headers)) in
  let last_row := N.max (N.of_nat (length registrations) + 1) 1 in
  Ok (Xlsx.set_auto_filter ws (py "A1:" ++ last_col ++ Str.of_N last_row)).

(** ** The request handlers *)

Inductive content : Type :=
| Text (s : pystr)
| Workbook (ws : Xlsx.worksheet).

Record response : Type := {
  status : N;
  content_type : pystr;
  body : content
}.

(** A request as the handlers see it: the path component of the URL
    ([urlparse(self.path).path]), the [X-Admin-Token] header if there is
    one, and [raw], the body once [do_POST] has read [Content-Length]
    bytes and decoded them (the empty text when there is no body). *)
Record request : Type := {
  path : pystr;
  admin_token : option pystr;
  raw : pystr
}.

(** How a handler ends: a response was sent, an exception left the
    handler, or the request was passed on to the static file server. *)
Inductive outcome : Type :=
| Sent (r : response)
| Crashed (e : exn)
| Static.

Definition send_json (data : json) (status : N) : outcome :=
  let text := Encoder.dumps data in
  if Py.encodable text then
    Sent {| status := status;
            content_type := py "application/json; charset=utf-8";
            body := Text text |}
  else Crashed UnicodeEncodeError.

Definition _check_admin_token (rt : runtime) (req : request) : bool :=
  let token := match admin_token req with Some t => t | None => [] end in
  Str.eqb token (ADMIN_TOKEN rt).

Definition token_error : json :=
  JDict [(py "success", JBool false); (py "error", JStr (py "Неверный токен"))].

Definition do_GET (rt : runtime) (o : oracle) (req : request)
  (fs : filesystem) : outcome * filesystem :=
  if Str.eqb (path req) (py "/api") then
    if negb (_check_admin_token rt req) then (send_json token_error 401, fs)
    else
      match read_registrations o fs with
      | Raise e => (Crashed e, fs)
      | Ok registrations =>
          (send_json
             (JDict [(py "success", JBool true);
                     (py "count", JInt (Z.of_nat (length registrations)));
                     (py "data", JList registrations)]) 200, fs)
      end
  else (Static, fs).

Definition required : list pystr :=
  [py "surname"; py "firstname"; py "birthdate"; py "gender"; py "country";
   py "city"; py "team"; py "boat_class"; py "phone"].

(** The loop over [required]: the first field that is missing or blank,
    if there is one. *)
Fixpoint first_blank (body : json) (fields : list pystr)
  : result (option pystr) :=
  match fields with
  | [] => Ok None
  | field :: rest =>
      v <- Py.get body field (JStr []) ;;
      s <- Py.strip v ;;
      if Str.is_empty s then Ok (Some field) else first_blank body rest
  end.

(** The loop over [body.get("distances", [])]. *)
Fixpoint known_distances (candidates : list json) : result (list json) :=
  match candidates with
  | [] => Ok []
  | d :: rest =>
      keep <- Py.in_set d VALID_DISTANCES ;;
      tail <- known_distances rest ;;
      Ok (if keep then d :: tail else tail)
  end.

(** [t.strftime("%Y-%m-%d %H:%M:%S")] as the C library of Linux writes
    it: the year as it is, without padding, every other number padded
    to two digits. *)
Definition strftime (t : datetime) : pystr :=
  Str.of_N (year t) ++ py "-"
  ++ Str.zfill 2 (Str.of_N (month t)) ++ py "-"
  ++ Str.zfill 2 (Str.of_N (day t)) ++ py " "
  ++ Str.zfill 2 (Str.of_N (hour t)) ++ py ":"
  ++ Str.zfill 2 (Str.of_N (minute t)) ++ py ":"
  ++ Str.zfill 2 (Str.of_N (second t)).

(** [f"reg_{uuid.uuid4().hex[:12]}"] *)
Definition new_id (o : oracle) : pystr :=
  py "reg_" ++ firstn 12 (Str.hex_fixed 32 (uuid4 o)).

(** The dictionary [entry] of [do_POST]. *)
Definition make_entry (rt : runtime) (o : oracle) (body : json)
  (distances : list json) : result json :=
  surname <- Py.getitem body (py "surname") ;;
  firstname <- Py.getitem body (py "firstname") ;;
  patronymic <- Py.get body (py "patronymic") (JStr []) ;;
  birthdate <- Py.getitem body (py "birthdate") ;;
  gender <- Py.getitem body (py "gender") ;;
  country <- Py.getitem body (py "country") ;;
  city <- Py.getitem body (py "city") ;;
  rank <- Py.get body (py "rank") (JStr []) ;;
  team <- Py.getitem body (py "team") ;;
  boat_class <- Py.getitem body (py "boat_class") ;;
  phone <- Py.getitem body (py "phone") ;;
  Ok (JDict
        [(py "id", JStr (new_id o));
         (py "timestamp", JStr (strftime (now o)));
         (py "surname", JStr (sanitize rt surname));
         (py "firstname", JStr (sanitize rt firstname));
         (py "patronymic", JStr (sanitize rt patronymic));
         (py "birthdate", JStr (sanitize rt birthdate));
         (py "gender", gender);
         (py "country", JStr (sanitize rt country));
         (py "city", JStr (sanitize rt city));
         (py "rank", JStr (sanitize rt rank));
         (py "team", JStr (sanitize rt team));
         (py "boat_class", boat_class);
         (py "phone", JStr (sanitize rt phone));
         (py "distances", JList distances)]).

Definition error_response (message : pystr) (status : N) : outcome :=
  send_json (JDict [(py "success", JBool false); (py "error", JStr message)])
    status.

(** What the validation part of [do_POST] decides: the request is
    answered at once, or the entry goes on to the store. *)
Inductive verdict : Type :=
| Reject (answer : outcome)
| Accept (entry : json).

(** The three checks of [do_POST]: the answer of the first one that
    fails, if one does. *)
Definition checks (body : json) : result (option outcome) :=
  blank <- first_blank body required ;;
  match blank with
  | Some field =>
      Ok (Some (error_response
                  (py "Поле '" ++ field ++ py "' обязательно") 400))
  | None =>
      gender <- Py.getitem body (py "gender") ;;
      known <- Py.in_set gender VALID_GENDERS ;;
      if negb known
      then Ok (Some (error_response (py "Некорректный пол") 400))
      else
        boat_class <- Py.getitem body (py "boat_class") ;;
        known <- Py.in_set boat_class VALID_BOATS ;;
        if negb known
        then Ok (Some (error_response (py "Некорректный класс лодки") 400))
        else Ok None
  end.

(** [do_POST] from [json.loads] to the construction of [entry]. *)
Definition validate (rt : runtime) (o : oracle) (raw : pystr)
  : result verdict :=
  match Decoder.loads raw with
  | None => Ok (Reject (error_response (py "Некорректные данные") 400))
  | Some body =>
      rejected <- checks body ;;
      match rejected with
      | Some answer => Ok (Reject answer)
      | None =>
          given <- Py.get body (py "distances") (JList []) ;;
          candidates <- Py.iter given ;;
          distances <- known_distances candidates ;;
          entry <- make_entry rt o body distances ;;
          Ok (Accept entry)
      end
  end.

Definition xlsx_type : pystr :=
  py "application/vnd.openxmlformats-officedocument.spreadsheetml.sheet".

Definition do_POST (rt : runtime) (o : oracle) (req : request)
  (fs : filesystem) : outcome * filesystem :=
  if Str.eqb (path req) (py "/api/export") then
    if negb (_check_admin_token rt req) then (send_json token_error 401, fs)
    else
      match read_registrations o fs with
      | Raise e => (Crashed e, fs)
      | Ok registrations =>
          match make_xlsx registrations with
          | Raise e => (Crashed e, fs)
          | Ok xlsx_data =>
              (Sent {| status := 200; content_type := xlsx_type;
                       body := Workbook xlsx_data |}, fs)
          end
      end
  else if negb (Str.eqb (path req) (py "/api")) then
    (error_response (py "Not found") 404, fs)
  else
    match validate rt o (raw req) with
    | Raise e => (Crashed e, fs)
    | Ok (Reject answer) => (answer, fs)
    | Ok (Accept entry) =>
        match read_registrations o fs with
        | Raise e => (Crashed e, fs)
        | Ok registrations =>
            match save_registrations o (registrations ++ [entry]) fs with
            | (Raise e, fs') => (Crashed e, fs')
            | (Ok _, fs') =>
                 match Py.getitem entry (py "id") with
                 | Raise e => (Crashed e, fs')
                 | Ok id =>
                     (send_json (JDict [(py "success", JBool true);
                                        (py "id", id)]) 200, fs')
                 end
            end
        end
    end.

(** ** The server loop

    [http.server.HTTPServer] handles one request at a time: a handler
    runs to its end before the next request is accepted, and an
    exception that leaves a handler closes that connection only. *)
Inductive command : Type := GET | POST.

Definition handle (rt : runtime) (c : command) : oracle -> request ->
  filesystem -> outcome * filesystem :=
  match c with
  | GET => do_GET rt
  | POST => do_POST rt
  end.

Fixpoint serve (rt : runtime) (reqs : list (command * oracle * request))
  (fs : filesystem) : list outcome * filesystem :=
  match reqs with
  | [] => ([], fs)
  | (c, o, req) :: rest =>
      let (out, fs') := handle rt c o req fs in
      let (outs, fs'') := serve rt rest fs' in
      (out :: outs, fs'')
  end.

(** ** Start-up: the [.env] file and the admin token

    Lines 22 to 36 of [server.py], on a POSIX system.  The text of the
    file is what [open(_env_path)] decodes, line ends translated to the
    line feed; decoded text holds no surrogate.  [PORT], which only the
    listening socket uses, is left out. *)

(** [os.environ]: the value of each variable that is set. *)
Definition environ := pystr -> option pystr.

(** [s.startswith(prefix)] *)
Fixpoint startswith (s prefix : pystr) : bool :=
  match prefix, s with
  | [], _ => true
  | p :: prefix', c :: s' => (c =? p) && startswith s' prefix'
  | _ :: _, [] => false
  end.

(** [s.split(sep, 1)] for a one-character [sep] that occurs in [s]: the
    text before its first occurrence and the text after it. *)
Fixpoint split_once (sep : N) (s : pystr) : pystr * pystr :=
  match s with
  | [] => ([], [])
  | c :: s' =>
      if c =? sep then ([], s')
      else let (before, after) := split_once sep s' in (c :: before, after)
  end.

(** The lines [for _line in _f] visits: each with its line feed, the
    last one possibly without. *)
Fixpoint file_lines (content : pystr) : list pystr :=
  match content with
  | [] => []
  | c :: rest =>
      if c =? 10 then [c] :: file_lines rest
      else
        match file_lines rest with
        | [] => [[c]]
        | line :: lines => (c :: line) :: lines
        end
  end.

(** Text the environment can hold: no surrogate other than the escapes
    U+DC80 to U+DCFF of undecodable bytes. *)
Definition fs_encodable (s : pystr) : bool :=
  forallb (fun c => negb (Py.is_surrogate c)
                    || ((0xDC80 <=? c) && (c <=? 0xDCFF))) s.

(** [os.environ.setdefault(key, value)]: the key is encoded and looked
    up; only when it is not set is the value encoded and handed to
    [putenv], which refuses a NUL character or an [=] in the name
    ([ValueError]) and the empty name ([OSError]). *)
Definition setdefault (env : environ) (key value : pystr) : result environ :=
  if negb (fs_encodable key) then Raise UnicodeEncodeError
  else
    match env key with
    | Some _ => Ok env
    | None =>
        if negb (fs_encodable value) then Raise UnicodeEncodeError
        else if existsb (N.eqb 0) key || existsb (N.eqb 0) value
                || existsb (N.eqb 61) key
        then Raise ValueError
        else if Str.is_empty key then Raise OSError
        else Ok (fun k => if Str.eqb k key then Some value else env k)
    end.

(** The body of the loop over the lines of [.env]. *)
Definition load_line (env : environ) (_line : pystr) : result environ :=
  let _line := Str.strip _line in
  if negb (Str.is_empty _line) && negb (startswith _line (py "#"))
     && existsb (N.eqb 61) _line
  then
    let (_k, _v) := split_once 61 _line in
    setdefault env (Str.strip _k) (Str.strip _v)
  else Ok env.

(** Lines 23 to 30: the variables of [.env] are added to the
    environment, if the file exists. *)
Definition load_env (o : oracle) (fs : filesystem) (env : environ)
  : result environ :=
  match fs (py ".env") with
  | None => Ok env
  | Some content =>
      if open_read_fails o then Raise OSError
      else for_each (file_lines content) load_line env
  end.

(** Line 36: [os.environ.get("ADMIN_TOKEN", "changeme")]. *)
Definition configured_token (env : environ) : pystr :=
  match env (py "ADMIN_TOKEN") with
  | Some token => token
  | None => py "changeme"
  end.

(** * Properties *)

(** ** Preliminaries *)

Lemma bind_Ok {A B : Type} (m : result A) (k : A -> result B) (b : B) :
  bind m k = Ok b -> exists a, m = Ok a /\ k a = Ok b.
Proof. destruct m as [a|e]; simpl; [eauto | discriminate]. Qed.

Ltac bind_inv H :=
  let a := fresh "a" in
  let E := fresh "E" in
  apply bind_Ok in H; destruct H as (a & E & H).

Lemma is_empty_true (s : pystr) : Str.is_empty s = true <-> s = [].
Proof. destruct s; simpl; split; congruence. Qed.

Lemma is_empty_false (s : pystr) : Str.is_empty s = false <-> s <> [].
Proof. destruct s; simpl; split; congruence. Qed.

(** Concrete surroundings for the examples below. *)
Module Sample.

(** JSON text is written with apostrophes in place of quotation marks. *)
Definition text (s : string) : pystr :=
  map (fun c => if c =? 39 then 34 else c) (py s).
Arguments text s%_string.

Definition rt : runtime :=
  {| ADMIN_TOKEN := py "changeme";
     isprintable := fun c => negb (Str.isspace c) |}.

Definition noon : datetime :=
  {| year := 2026; month := 3; day := 7; hour := 12; minute := 0;
     second := 5 |}.

(** A request that meets no storage fault. *)
Definition quiet (uuid : N) : oracle :=
  {| uuid4 := uuid; now := noon; open_read_fails := false;
     makedirs_fails := false; open_write_fails := false;
     disk_room := None |}.

Definition no_files : filesystem := fun _ => None.

Definition stored (content : pystr) : filesystem :=
  write_file no_files DATA_FILE content.

Definition submit (payload : pystr) : request :=
  {| path := py "/api"; admin_token := None; raw := payload |}.

Definition ivanov : pystr :=
  text "{'surname': ' <b>Иванов</b> ', 'firstname': 'Иван',
         'birthdate': '1980-01-01', 'gender': 'М', 'country': 'Россия',
         'city': 'Рязань', 'team': 'Ока', 'boat_class': 'К-1',
         'phone': '+7 900 000-00-00', 'distances': ['200 м', 'bogus']}".

End Sample.

(** ** Loading the store *)

Lemma read_registrations_absent o fs :
  fs DATA_FILE = None -> read_registrations o fs = Ok [].
Proof. unfold read_registrations; intros ->; reflexivity. Qed.

(** C9, as stated, fails: a document that exists and holds no list of
    registrations (an object, a bare scalar, blanks only) is loaded as the
    empty sequence, without any error. *)
Lemma read_registrations_tolerates_damage :
  read_registrations (Sample.quiet 0) (Sample.stored (py "{}")) = Ok []
  /\ read_registrations (Sample.quiet 0) (Sample.stored (py "null")) = Ok []
  /\ read_registrations (Sample.quiet 0) (Sample.stored (py "  ")) = Ok [].
Proof. repeat split; vm_compute; reflexivity. Qed.

(** C9, amended: [load] yields the empty sequence when the document is
    absent, and also when it is blank or holds JSON that is not a list;
    it yields the elements of a stored list; it raises only when the file
    cannot be opened ([OSError]) or when its non-blank content is not
    JSON ([JSONDecodeError]). *)
Theorem read_registrations_cases (o : oracle) (fs : filesystem) :
  (fs DATA_FILE = None -> read_registrations o fs = Ok [])
  /\ (forall content,
        fs DATA_FILE = Some content ->
        (open_read_fails o = true -> read_registrations o fs = Raise OSError)
        /\ (open_read_fails o = false ->
            (Str.strip content = [] -> read_registrations o fs = Ok [])
            /\ (Str.strip content <> [] ->
                match Decoder.loads content with
                | None => read_registrations o fs = Raise JSONDecodeError
                | Some (JList data) => read_registrations o fs = Ok data
                | Some _ => read_registrations o fs = Ok []
                end))).
Proof.
  split; [apply read_registrations_absent|].
  intros content Hc; unfold read_registrations; rewrite Hc.
  split; intros ->; [reflexivity|].
  split; intros Hs.
  - rewrite Hs; reflexivity.
  - apply is_empty_false in Hs; rewrite Hs.
    destruct (Decoder.loads content) as [[]|]; reflexivity.
Qed.

(** ** Authorization *)

(** The credential a request supplies: the header, or the empty string. *)
Definition supplied_token (req : request) : pystr :=
  match admin_token req with Some t => t | None => [] end.

Lemma check_admin_token_spec rt req :
  _check_admin_token rt req = true <-> supplied_token req = ADMIN_TOKEN rt.
Proof. unfold _check_admin_token, supplied_token; apply Str.eqb_eq. Qed.

(** The answer to a wrong credential. *)
Definition unauthorized : outcome :=
  Sent {| status := 401;
          content_type := py "application/json; charset=utf-8";
          body := Text (Encoder.dumps token_error) |}.

Lemma send_token_error : send_json token_error 401 = unauthorized.
Proof. vm_compute; reflexivity. Qed.

(** C7: with a credential other than the secret, listing and export
    answer with the same authorization failure whatever the store holds,
    and the store is not read; with the secret, listing answers with the
    loaded sequence and its length. *)
Theorem listing_and_export_authorization
  (rt : runtime) (req : request) (o1 o2 : oracle) (fs1 fs2 : filesystem) :
  (supplied_token req <> ADMIN_TOKEN rt ->
   (path req = py "/api" ->
    fst (do_GET rt o1 req fs1) = unauthorized
    /\ fst (do_GET rt o2 req fs2) = unauthorized)
   /\ (path req = py "/api/export" ->
       fst (do_POST rt o1 req fs1) = unauthorized
       /\ fst (do_POST rt o2 req fs2) = unauthorized))
  /\ (supplied_token req = ADMIN_TOKEN rt ->
      path req = py "/api" ->
      forall registrations,
        read_registrations o1 fs1 = Ok registrations ->
        fst (do_GET rt o1 req fs1)
        = send_json
            (JDict [(py "success", JBool true);
                    (py "count", JInt (Z.of_nat (length registrations)));
                    (py "data", JList registrations)]) 200).
Proof.
  split.
  - intros Hne.
    assert (Hc : _check_admin_token rt req = false).
    { destruct (_check_admin_token rt req) eqn:E; [|reflexivity].
      apply check_admin_token_spec in E; contradiction. }
    split; intros Hp; unfold do_GET, do_POST; rewrite Hp, Hc; simpl;
      rewrite send_token_error; split; reflexivity.
  - intros Heq Hp regs Hr.
    apply check_admin_token_spec in Heq.
    unfold do_GET; rewrite Hp, Heq, Hr; reflexivity.
Qed.

(** ** Validation *)

(** A payload is an object whose required fields, where present, hold
    strings. *)
Definition strings_where_required (d : list (pystr * json)) : Prop :=
  forall f v, In f required -> Dict.get d f = Some v -> exists s, v = JStr s.

(** The claim's words: a field is blank when it is missing or empty
    after trimming. *)
Definition blank (d : list (pystr * json)) (f : pystr) : bool :=
  match Dict.get d f with
  | None => true
  | Some (JStr s) => Str.is_empty (Str.strip s)
  | Some _ => false
  end.

Definition text_of (d : list (pystr * json)) (f : pystr) : pystr :=
  match Dict.get d f with
  | Some (JStr s) => s
  | _ => []
  end.

Definition field_message (f : pystr) : pystr :=
  py "Поле '" ++ f ++ py "' обязательно".

(** The rejection the claim prescribes for an object, if any. *)
Definition rejection_of (d : list (pystr * json)) : option outcome :=
  match find (blank d) required with
  | Some f => Some (error_response (field_message f) 400)
  | None =>
      if negb (Str.mem (text_of d (py "gender")) VALID_GENDERS)
      then Some (error_response (py "Некорректный пол") 400)
      else if negb (Str.mem (text_of d (py "boat_class")) VALID_BOATS)
      then Some (error_response (py "Некорректный класс лодки") 400)
      else None
  end.

Lemma first_blank_find d fields :
  (forall f v, In f fields -> Dict.get d f = Some v -> exists s, v = JStr s) ->
  first_blank (JDict d) fields = Ok (find (blank d) fields).
Proof.
  induction fields as [|f fields IH]; intros Hs; [reflexivity|].
  simpl. unfold blank at 1.
  destruct (Dict.get d f) as [v|] eqn:E.
  - destruct (Hs f v (or_introl eq_refl) E) as (s & ->); simpl.
    destruct (Str.is_empty (Str.strip s)); [reflexivity|].
    apply IH; intros g w Hg; apply Hs; right; exact Hg.
  - reflexivity.
Qed.

Lemma find_blank_none d fields :
  find (blank d) fields = None ->
  forall f, In f fields ->
    exists s, Dict.get d f = Some (JStr s) /\ Str.strip s <> []
    \/ exists v, Dict.get d f = Some v /\ forall s, v <> JStr s.
Proof.
  intros H f Hf.
  pose proof (find_none _ _ H f Hf) as Hb; unfold blank in Hb.
  destruct (Dict.get d f) as [v|]; [|discriminate].
  destruct v; try (exists []; right; eexists; split; [reflexivity|congruence]).
  exists s; left; split; [reflexivity | apply is_empty_false; exact Hb].
Qed.

Lemma required_present d f :
  strings_where_required d -> find (blank d) required = None ->
  In f required ->
  exists s, Dict.get d f = Some (JStr s) /\ Str.strip s <> [].
Proof.
  intros Hs Hn Hf.
  destruct (find_blank_none d required Hn f Hf) as (s & [H | (v & Hv & Hns)]).
  - exists s; exact H.
  - destruct (Hs f v Hf Hv) as (s' & ->); exfalso; exact (Hns s' eq_refl).
Qed.

Lemma checks_refine d :
  strings_where_required d -> checks (JDict d) = Ok (rejection_of d).
Proof.
  intros Hs; unfold checks, rejection_of.
  rewrite (first_blank_find d required Hs); cbn [bind].
  destruct (find (blank d) required) as [f|] eqn:Ef; [reflexivity|].
  destruct (required_present d (py "gender") Hs Ef) as (g & Hg & _).
  { vm_compute; tauto. }
  destruct (required_present d (py "boat_class") Hs Ef) as (b & Hb & _).
  { vm_compute; tauto. }
  unfold text_of, Py.getitem; rewrite Hg, Hb; cbn [bind Py.in_set].
  destruct (Str.mem g VALID_GENDERS); cbn [negb bind]; [|reflexivity].
  destruct (Str.mem b VALID_BOATS); reflexivity.
Qed.

(** The values a set membership test can hash. *)
Definition hashable (v : json) : Prop :=
  match v with JList _ | JDict _ => False | _ => True end.

Definition in_catalogue (v : json) : bool :=
  match v with
  | JStr s => Str.mem s VALID_DISTANCES
  | _ => false
  end.

Lemma known_distances_filter candidates :
  Forall hashable candidates ->
  known_distances candidates = Ok (filter in_catalogue candidates).
Proof.
  induction 1 as [|v l Hv _ IH]; [reflexivity|].
  simpl; rewrite IH.
  destruct v; simpl in *; try reflexivity; try contradiction.
Qed.

Lemma known_distances_inv candidates distances :
  known_distances candidates = Ok distances ->
  distances = filter in_catalogue candidates.
Proof.
  revert distances; induction candidates as [|v l IH]; simpl; intros ds H.
  - congruence.
  - bind_inv H. bind_inv H. apply IH in E0; subst.
    destruct v; simpl in *; inversion E; subst; inversion H; reflexivity.
Qed.

(** What an accepted payload went through. *)
Lemma validate_accept rt o raw entry :
  validate rt o raw = Ok (Accept entry) ->
  exists body given candidates,
    Decoder.loads raw = Some body
    /\ checks body = Ok None
    /\ Py.get body (py "distances") (JList []) = Ok given
    /\ Py.iter given = Ok candidates
    /\ make_entry rt o body (filter in_catalogue candidates) = Ok entry.
Proof.
  unfold validate; intros H.
  destruct (Decoder.loads raw) as [body|]; [|discriminate].
  bind_inv H. destruct a as [answer|]; [discriminate|].
  bind_inv H. bind_inv H. bind_inv H. bind_inv H.
  inversion H; subst.
  apply known_distances_inv in E2; subst.
  exists body, a, a0; auto.
Qed.

Lemma get_is_dict body k default v :
  Py.get body k default = Ok v -> exists d, body = JDict d.
Proof. destruct body; simpl; try discriminate; eauto. Qed.

(** The required fields of a payload that passed the checks. *)
Lemma checks_passed d :
  checks (JDict d) = Ok None ->
  (forall f, In f required ->
     exists s, Dict.get d f = Some (JStr s) /\ Str.strip s <> [])
  /\ Str.mem (text_of d (py "gender")) VALID_GENDERS = true
  /\ Str.mem (text_of d (py "boat_class")) VALID_BOATS = true.
Proof.
  intros H.
  assert (Hreq : forall fields, first_blank (JDict d) fields = Ok None ->
            forall f, In f fields ->
              exists s, Dict.get d f = Some (JStr s) /\ Str.strip s <> []).
  { induction fields as [|g fields IH]; intros Hf f Hin; [destruct Hin|].
    cbn [first_blank] in Hf. bind_inv Hf. bind_inv Hf.
    unfold Py.get in E. inversion E; subst; clear E.
    destruct (Dict.get d g) as [v|] eqn:Eg.
    - destruct v; simpl in E0; try discriminate. inversion E0; subst.
      destruct (Str.is_empty (Str.strip s)) eqn:Es; [discriminate|].
      destruct Hin as [<-|Hin]; [|apply IH; assumption].
      exists s; split; [exact Eg | apply is_empty_false; exact Es].
    - simpl in E0; inversion E0; subst; discriminate. }
  unfold checks in H. bind_inv H.
  destruct a as [f|]; [discriminate H|].
  pose proof (Hreq required E) as Hall.
  destruct (Hall (py "gender")) as (g & Hg & _); [vm_compute; tauto|].
  destruct (Hall (py "boat_class")) as (b & Hb & _); [vm_compute; tauto|].
  unfold text_of; rewrite Hg, Hb.
  unfold Py.getitem in H; rewrite Hg, Hb in H; cbn [bind Py.in_set] in H.
  destruct (Str.mem g VALID_GENDERS); cbn [bind negb] in H; [|discriminate H].
  destruct (Str.mem b VALID_BOATS); cbn [bind negb] in H; [|discriminate H].
  auto.
Qed.

Lemma do_POST_submit rt o req fs :
  path req = py "/api" ->
  do_POST rt o req fs
  = match validate rt o (raw req) with
    | Raise e => (Crashed e, fs)
    | Ok (Reject answer) => (answer, fs)
    | Ok (Accept entry) =>
        match read_registrations o fs with
        | Raise e => (Crashed e, fs)
        | Ok registrations =>
            match save_registrations o (registrations ++ [entry]) fs with
            | (Raise e, fs') => (Crashed e, fs')
            | (Ok _, fs') =>
                match Py.getitem entry (py "id") with
                | Raise e => (Crashed e, fs')
                | Ok id =>
                    (send_json (JDict [(py "success", JBool true);
                                       (py "id", id)]) 200, fs')
                end
            end
        end
    end.
Proof. intros Hp; unfold do_POST; rewrite Hp; reflexivity. Qed.

Lemma do_POST_raises rt o req fs e :
  path req = py "/api" -> validate rt o (raw req) = Raise e ->
  do_POST rt o req fs = (Crashed e, fs).
Proof. intros Hp Hv; rewrite do_POST_submit, Hv by exact Hp; reflexivity. Qed.

(** C10: a payload that is valid JSON but not an object, and an object
    whose required field holds a number, each make the submit handler
    raise [AttributeError] with no response sent; for an object whose
    required fields hold strings wherever they are present, the three
    checks never raise. *)
Theorem ill_typed_payload_crashes :
  (exists raw body,
      Decoder.loads raw = Some body
      /\ (forall d, body <> JDict d)
      /\ forall rt o fs,
           do_POST rt o (Sample.submit raw) fs = (Crashed AttributeError, fs))
  /\ (exists raw d z,
         Decoder.loads raw = Some (JDict d)
         /\ Dict.get d (py "surname") = Some (JInt z)
         /\ forall rt o fs,
              do_POST rt o (Sample.submit raw) fs = (Crashed AttributeError, fs))
  /\ (forall d, strings_where_required d ->
        exists answer, checks (JDict d) = Ok answer).
Proof.
  split; [|split].
  - exists (py "[]"), (JList []).
    split; [vm_compute; reflexivity|].
    split; [discriminate|].
    intros rt o fs; apply do_POST_raises; vm_compute; reflexivity.
  - exists (Sample.text "{'surname': 5}"), [(py "surname", JInt 5)], 5%Z.
    split; [vm_compute; reflexivity|].
    split; [vm_compute; reflexivity|].
    intros rt o fs; apply do_POST_raises; vm_compute; reflexivity.
  - intros d Hs; exists (rejection_of d); apply checks_refine; exact Hs.
Qed.

(** C2, as stated, fails: the payload below has every required field
    filled with a valid string, so no rejection condition holds; yet it is
    not accepted, because its [distances] is a number and iterating over
    it raises [TypeError]. *)
Lemma valid_fields_yet_not_accepted :
  let raw := Sample.text
      "{'surname': 'A', 'firstname': 'B', 'birthdate': 'C', 'gender': 'М',
        'country': 'D', 'city': 'E', 'team': 'F', 'boat_class': 'К-1',
        'phone': 'G', 'distances': 5}" in
  (exists d, Decoder.loads raw = Some (JDict d)
             /\ rejection_of d = None
             /\ forallb (fun f => negb (blank d f)) required = true)
  /\ validate Sample.rt (Sample.quiet 0) raw = Raise TypeError
  /\ do_POST Sample.rt (Sample.quiet 0) (Sample.submit raw) Sample.no_files
     = (Crashed TypeError, Sample.no_files).
Proof.
  cbv zeta. split; [|split].
  - eexists; split; [vm_compute; reflexivity|].
    split; vm_compute; reflexivity.
  - vm_compute; reflexivity.
  - apply do_POST_raises; vm_compute; reflexivity.
Qed.

(** C2, amended: for a payload that parses to an object whose required
    fields hold strings wherever they are present and whose [distances],
    if present, can be iterated and holds hashable values, the validator
    rejects exactly when a required field is missing or blank after
    trimming (naming the first such field), or [gender] as submitted is
    not one of the two values, or [boat_class] as submitted is not one of
    the boat classes; otherwise the payload is accepted. *)
Theorem validator_rejects_iff
  (rt : runtime) (o : oracle) (raw : pystr) (d : list (pystr * json))
  (given : json) (candidates : list json) :
  Decoder.loads raw = Some (JDict d) ->
  strings_where_required d ->
  Py.get (JDict d) (py "distances") (JList []) = Ok given ->
  Py.iter given = Ok candidates ->
  Forall hashable candidates ->
  (rejection_of d <> None <->
     (exists f, In f required /\ blank d f = true)
     \/ ~ In (text_of d (py "gender")) VALID_GENDERS
     \/ ~ In (text_of d (py "boat_class")) VALID_BOATS)
  /\ (forall f, find (blank d) required = Some f ->
        validate rt o raw
        = Ok (Reject (error_response (field_message f) 400)))
  /\ match rejection_of d with
     | Some answer => validate rt o raw = Ok (Reject answer)
     | None => exists entry, validate rt o raw = Ok (Accept entry)
     end.
Proof.
  intros Hl Hs Hg Hi Hh.
  assert (Hv : validate rt o raw
               = match rejection_of d with
                 | Some answer => Ok (Reject answer)
                 | None =>
                     entry <- make_entry rt o (JDict d)
                                (filter in_catalogue candidates) ;;
                     Ok (Accept entry)
                 end).
  { unfold validate; rewrite Hl, (checks_refine d Hs); cbn [bind].
    destruct (rejection_of d); [reflexivity|].
    rewrite Hg; cbn [bind]; rewrite Hi; cbn [bind].
    rewrite (known_distances_filter _ Hh); reflexivity. }
  split; [|split].
  - unfold rejection_of.
    destruct (find (blank d) required) as [f|] eqn:Ef.
    + split; [intros _; left | discriminate].
      apply find_some in Ef; exists f; exact Ef.
    + assert (Hnb : forall f, In f required -> blank d f = false)
        by (intros f Hf; exact (find_none _ _ Ef f Hf)).
      rewrite <- !Str.mem_In.
      destruct (Str.mem (text_of d (py "gender")) VALID_GENDERS); cbn [negb].
      * destruct (Str.mem (text_of d (py "boat_class")) VALID_BOATS);
          cbn [negb]; split; try discriminate; try congruence; auto.
        intros [(f & Hf & Hb) | [H | H]]; try congruence.
        rewrite (Hnb f Hf) in Hb; discriminate.
      * split; [auto | discriminate].
  - intros f Hf; rewrite Hv; unfold rejection_of; rewrite Hf; reflexivity.
  - rewrite Hv. destruct (rejection_of d) as [answer|] eqn:Er; [reflexivity|].
    assert (Hc : checks (JDict d) = Ok None)
      by (rewrite (checks_refine d Hs), Er; reflexivity).
    destruct (checks_passed d Hc) as (Hreq & _ & _).
    assert (Hget : forall f, In f required ->
               exists v, Py.getitem (JDict d) f = Ok v).
    { intros f Hf; destruct (Hreq f Hf) as (s & Hd & _).
      unfold Py.getitem; rewrite Hd; eauto. }
    unfold make_entry.
    repeat match goal with
      | |- context [Py.getitem (JDict d) ?f] =>
          let v := fresh "v" in
          let E := fresh "E" in
          destruct (Hget f) as (v & E); [vm_compute; tauto|];
          rewrite E; cbn [bind]
      end.
    cbn [Py.get bind]. eexists; reflexivity.
Qed.

(** ** The entry of an accepted payload *)

(** [body.get(f, "")] on an object. *)
Definition field (d : list (pystr * json)) (f : pystr) : json :=
  match Dict.get d f with Some v => v | None => JStr [] end.

(** The entry [do_POST] builds from the object [d]. *)
Definition entry_of (rt : runtime) (o : oracle) (d : list (pystr * json))
  (distances : list json) : list (pystr * json) :=
  [(py "id", JStr (new_id o));
   (py "timestamp", JStr (strftime (now o)));
   (py "surname", JStr (sanitize rt (field d (py "surname"))));
   (py "firstname", JStr (sanitize rt (field d (py "firstname"))));
   (py "patronymic", JStr (sanitize rt (field d (py "patronymic"))));
   (py "birthdate", JStr (sanitize rt (field d (py "birthdate"))));
   (py "gender", field d (py "gender"));
   (py "country", JStr (sanitize rt (field d (py "country"))));
   (py "city", JStr (sanitize rt (field d (py "city"))));
   (py "rank", JStr (sanitize rt (field d (py "rank"))));
   (py "team", JStr (sanitize rt (field d (py "team"))));
   (py "boat_class", field d (py "boat_class"));
   (py "phone", JStr (sanitize rt (field d (py "phone"))));
   (py "distances", JList distances)].

Lemma getitem_field d f v :
  Py.getitem (JDict d) f = Ok v -> field d f = v.
Proof.
  unfold Py.getitem, field; destruct (Dict.get d f); congruence.
Qed.

Lemma make_entry_entry_of rt o d distances entry :
  make_entry rt o (JDict d) distances = Ok entry ->
  entry = JDict (entry_of rt o d distances).
Proof.
  unfold make_entry; intros H.
  repeat (let a := fresh "v" in
          let E := fresh "E" in
          apply bind_Ok in H; destruct H as (a & E & H);
          first [apply getitem_field in E
                | unfold Py.get in E; injection E as E;
                  match type of E with
                  | context [Dict.get d ?f] => fold (field d f) in E
                  end]).
  subst; injection H as <-; reflexivity.
Qed.

(** An accepted payload is an object, and its entry is [entry_of]. *)
Lemma validate_accept_entry rt o raw entry :
  validate rt o raw = Ok (Accept entry) ->
  exists d given candidates,
    Decoder.loads raw = Some (JDict d)
    /\ checks (JDict d) = Ok None
    /\ Py.get (JDict d) (py "distances") (JList []) = Ok given
    /\ Py.iter given = Ok candidates
    /\ entry = JDict (entry_of rt o d (filter in_catalogue candidates)).
Proof.
  intros H.
  destruct (validate_accept rt o raw entry H)
    as (body & given & cands & Hl & Hc & Hg & Hi & He).
  destruct (get_is_dict _ _ _ _ Hg) as (d & ->).
  apply make_entry_entry_of in He.
  exists d, given, cands; auto.
Qed.

(** C5, as stated, fails: the persisted [distances] is a list that keeps
    every catalogue value as often as the payload names it. *)
Lemma persisted_distances_repeat :
  let raw := Sample.text
      "{'surname': 'A', 'firstname': 'B', 'birthdate': 'C', 'gender': 'М',
        'country': 'D', 'city': 'E', 'team': 'F', 'boat_class': 'К-1',
        'phone': 'G', 'distances': ['200 м', '200 м']}" in
  exists d,
    validate Sample.rt (Sample.quiet 0) raw = Ok (Accept (JDict d))
    /\ Dict.get d (py "distances")
       = Some (JList [JStr (py "200 м"); JStr (py "200 м")])
    /\ ~ NoDup [JStr (py "200 м"); JStr (py "200 м")].
Proof.
  cbv zeta. eexists. split; [vm_compute; reflexivity|].
  split; [vm_compute; reflexivity|].
  intros H; inversion H as [|x l Hin _]; subst; apply Hin; left; reflexivity.
Qed.

(** C5, amended: for every accepted payload the persisted [distances] is
    the list of the payload's candidate values that belong to the
    catalogue, in the payload's order and with its repetitions; unknown
    values are dropped without rejection. *)
Theorem persisted_distances_filtered
  (rt : runtime) (o : oracle) (raw : pystr) (entry : json) :
  validate rt o raw = Ok (Accept entry) ->
  exists d given candidates,
    Decoder.loads raw = Some (JDict d)
    /\ Py.get (JDict d) (py "distances") (JList []) = Ok given
    /\ Py.iter given = Ok candidates
    /\ Py.getitem entry (py "distances")
       = Ok (JList (filter in_catalogue candidates))
    /\ (forall v, In v (filter in_catalogue candidates) <->
                  In v candidates
                  /\ exists s, v = JStr s /\ In s VALID_DISTANCES).
Proof.
  intros H.
  destruct (validate_accept_entry rt o raw entry H)
    as (d & given & cands & Hl & _ & Hg & Hi & ->).
  exists d, given, cands.
  repeat (split; [assumption|]).
  split; [vm_compute; reflexivity|].
  intros v; rewrite filter_In; unfold in_catalogue.
  split; intros [Hin Hc]; (split; [exact Hin|]).
  - destruct v; try discriminate.
    exists s; split; [reflexivity | apply Str.mem_In; exact Hc].
  - destruct Hc as (s & -> & Hs); apply Str.mem_In; exact Hs.
Qed.

(** What [html.escape] writes for one character. *)
Definition entity (c : N) : pystr :=
  if c =? 38 then py "&amp;"
  else if c =? 60 then py "&lt;"
  else if c =? 62 then py "&gt;"
  else if c =? 34 then py "&quot;"
  else if c =? 39 then py "&#x27;"
  else [c].

Lemma replace1_flat_map c r (f : N -> pystr) s :
  Str.replace1 c r (flat_map f s)
  = flat_map (fun x => Str.replace1 c r (f x)) s.
Proof.
  unfold Str.replace1. induction s as [|x s IH]; [reflexivity|].
  cbn [flat_map]. rewrite flat_map_app, IH. reflexivity.
Qed.

Lemma replace1_one c r x :
  Str.replace1 c r [x] = if x =? c then r else [x].
Proof.
  unfold Str.replace1; cbn [flat_map].
  destruct (x =? c); [apply app_nil_r | reflexivity].
Qed.

(** The five replacements of [html.escape] amount to one pass that
    writes an entity for each of the five characters. *)
Lemma escape_entities s : Html.escape s = flat_map entity s.
Proof.
  unfold Html.escape.
  assert (Hs : s = flat_map (fun x => [x]) s).
  { induction s as [|x s IH]; [reflexivity|].
    cbn [flat_map app]. rewrite <- IH. reflexivity. }
  rewrite Hs at 1.
  rewrite !replace1_flat_map. apply flat_map_ext. intros x.
  unfold entity. rewrite replace1_one.
  destruct (N.eqb_spec x 38) as [->|H38]; [reflexivity|].
  rewrite replace1_one.
  destruct (N.eqb_spec x 60) as [->|H60]; [reflexivity|].
  rewrite replace1_one.
  destruct (N.eqb_spec x 62) as [->|H62]; [reflexivity|].
  rewrite replace1_one.
  destruct (N.eqb_spec x 34) as [->|H34]; [reflexivity|].
  rewrite replace1_one.
  destruct (N.eqb_spec x 39) as [->|H39]; reflexivity.
Qed.

(** The characters that open or close markup: the angle brackets and the
    two quotation marks. *)
Definition markup : list N := [60; 62; 34; 39].

(** Escaped text holds no angle bracket and no quotation mark. *)
Lemma escape_no_markup s c : In c (Html.escape s) -> ~ In c markup.
Proof.
  enough (In c (Html.escape s) -> c <> 60 /\ c <> 62 /\ c <> 34 /\ c <> 39)
    as E by (intros H; apply E in H; unfold markup; simpl; intuition).
  rewrite escape_entities. intros H. apply in_flat_map in H.
  destruct H as (x & _ & Hc). unfold entity in Hc.
  repeat match type of Hc with
         | In _ (if ?b then _ else _) =>
             destruct b eqn:?;
             [vm_compute in Hc; repeat split; intuition congruence|]
         end.
  destruct Hc as [<-|[]].
  repeat match goal with
         | H : (_ =? _) = false |- _ => apply N.eqb_neq in H
         end.
  auto.
Qed.

(** The free-text fields of a registration. *)
Definition free_text : list pystr :=
  [py "surname"; py "firstname"; py "patronymic"; py "birthdate";
   py "country"; py "city"; py "rank"; py "team"; py "phone"].

(** C6: every free-text field of the entry built for an accepted payload
    is the submitted value (as text) trimmed and then escaped; the
    submitted value of a required field is a string, and an absent
    optional field counts as the empty string.  The stored text holds no
    angle bracket and no quotation mark.  This entry is the one handed to
    the store. *)
Theorem free_text_sanitized
  (rt : runtime) (o : oracle) (raw : pystr) (entry : json) :
  validate rt o raw = Ok (Accept entry) ->
  exists d,
    Decoder.loads raw = Some (JDict d)
    /\ (forall f, In f free_text ->
          Py.getitem entry f
          = Ok (JStr (Html.escape
                        (Str.strip (Repr.str (isprintable rt) (field d f))))))
    /\ (forall f, In f free_text -> In f required ->
          exists s, Dict.get d f = Some (JStr s)
                    /\ Py.getitem entry f
                       = Ok (JStr (Html.escape (Str.strip s))))
    /\ (forall f, In f free_text ->
          exists s, Py.getitem entry f = Ok (JStr s)
                    /\ forall c, In c s -> ~ In c markup).
Proof.
  intros H.
  destruct (validate_accept_entry rt o raw entry H)
    as (d & given & cands & Hl & Hc & _ & _ & ->).
  exists d. split; [exact Hl|].
  assert (Hall : forall f, In f free_text ->
            Py.getitem (JDict (entry_of rt o d (filter in_catalogue cands))) f
            = Ok (JStr (sanitize rt (field d f)))).
  { intros f Hf; unfold free_text in Hf; simpl in Hf.
    repeat (destruct Hf as [<-|Hf]; [vm_compute Dict.get; reflexivity|]).
    destruct Hf. }
  split; [exact Hall|]. split.
  - intros f Hf Hr. destruct (checks_passed d Hc) as (Hreq & _).
    destruct (Hreq f Hr) as (s & Hs & _).
    exists s; split; [exact Hs|].
    rewrite (Hall f Hf); unfold sanitize, field; rewrite Hs; reflexivity.
  - intros f Hf. eexists; split; [exact (Hall f Hf)|].
    intros c; unfold sanitize; apply escape_no_markup.
Qed.

(** ** Saving the store *)

Lemma write_chunks_split chunks text ok :
  write_chunks chunks = (text, ok) ->
  exists rest, concat chunks = text ++ rest
               /\ (ok = true -> rest = [])
               /\ (ok = false -> rest <> []).
Proof.
  revert text ok; induction chunks as [|c chunks IH]; simpl; intros text ok H.
  - inversion H; subst; exists []; repeat split; congruence.
  - destruct (Py.encodable c) eqn:Ec.
    + destruct (write_chunks chunks) as [t b] eqn:Ew.
      inversion H; subst.
      destruct (IH t ok eq_refl) as (rest & Hc & Ht & Hf).
      exists rest; rewrite Hc, app_assoc; auto.
    + inversion H; subst. exists (c ++ concat chunks).
      repeat split; try congruence.
      intros _ Hn; apply app_eq_nil in Hn; destruct Hn as [-> _].
      discriminate Ec.
Qed.

Lemma write_chunks_encodable chunks text ok :
  write_chunks chunks = (text, ok) -> Py.encodable text = true.
Proof.
  revert text ok; induction chunks as [|c chunks IH]; simpl; intros text ok H.
  - inversion H; reflexivity.
  - destruct (Py.encodable c) eqn:Ec.
    + destruct (write_chunks chunks) as [t b] eqn:Ew.
      inversion H; subst. unfold Py.encodable in *.
      rewrite forallb_app, Ec; simpl; exact (IH t ok eq_refl).
    + inversion H; reflexivity.
Qed.

Lemma write_file_same fs p text : write_file fs p text p = Some text.
Proof. unfold write_file; rewrite Str.eqb_refl; reflexivity. Qed.

Lemma write_file_other fs p text q :
  q <> p -> write_file fs p text q = fs q.
Proof.
  intros Hne; unfold write_file.
  destruct (Str.eqb_spec q p); [contradiction | reflexivity].
Qed.

Lemma firstn_short {A : Type} (n : nat) (l : list A) :
  (length (firstn n l) <? length l)%nat = false -> firstn n l = l.
Proof.
  intros H; apply Nat.ltb_ge in H; rewrite length_firstn in H.
  apply firstn_all2; lia.
Qed.

(** What a successful [save_registrations] leaves behind. *)
Lemma save_registrations_ok o data fs fs' :
  save_registrations o data fs = (Ok tt, fs') ->
  fs' = write_file fs DATA_FILE (Encoder.dumps (JList data))
  /\ Py.encodable (Encoder.dumps (JList data)) = true.
Proof.
  unfold save_registrations, Encoder.dumps.
  destruct (makedirs_fails o); [discriminate|].
  destruct (open_write_fails o); [discriminate|].
  destruct (write_chunks _) as [text ok] eqn:Ew.
  pose proof (write_chunks_encodable _ _ _ Ew) as Henc.
  destruct (write_chunks_split _ _ _ Ew) as (rest & Hc & Ht & _).
  set (kept := match disk_room o with
               | Some room => firstn room text
               | None => text
               end).
  destruct (length kept <? length text)%nat eqn:El; [discriminate|].
  destruct ok; [|discriminate].
  rewrite (Ht eq_refl), app_nil_r in Hc.
  assert (Hk : kept = text).
  { subst kept; destruct (disk_room o); [apply firstn_short; exact El|].
    reflexivity. }
  intros H; inversion H; subst fs'; rewrite Hk, Hc; auto.
Qed.

(** C3, as stated, fails.  The store holds one committed registration.
    A submission that meets a full disk, and one whose surname is a lone
    surrogate (which UTF-8 cannot encode), both make the write fail after
    the canonical file was opened for writing: the file is left empty, or
    cut short, and the committed registration is lost. *)
Lemma failed_write_destroys_document :
  let committed := Encoder.dumps (JList [JDict [(py "id", JStr (py "reg_1"))]]) in
  let full := {| uuid4 := 7; now := Sample.noon; open_read_fails := false;
                 makedirs_fails := false; open_write_fails := false;
                 disk_room := Some 0%nat |} in
  let lone := Sample.text
      "{'surname': '\ud800', 'firstname': 'B', 'birthdate': 'C',
        'gender': 'М', 'country': 'D', 'city': 'E', 'team': 'F',
        'boat_class': 'К-1', 'phone': 'G'}" in
  read_registrations (Sample.quiet 0) (Sample.stored committed)
  = Ok [JDict [(py "id", JStr (py "reg_1"))]]
  /\ (exists fs',
         do_POST Sample.rt full (Sample.submit Sample.ivanov)
           (Sample.stored committed) = (Crashed OSError, fs')
         /\ fs' DATA_FILE = Some []
         /\ read_registrations (Sample.quiet 0) fs' = Ok [])
  /\ (exists fs',
         do_POST Sample.rt (Sample.quiet 7) (Sample.submit lone)
           (Sample.stored committed) = (Crashed UnicodeEncodeError, fs')
         /\ fs' DATA_FILE <> Some committed
         /\ read_registrations (Sample.quiet 0) fs' = Raise JSONDecodeError).
Proof.
  cbv zeta. split; [vm_compute; reflexivity|]. split.
  - eexists; split; [vm_compute; reflexivity|].
    split; vm_compute; reflexivity.
  - eexists; split; [vm_compute; reflexivity|].
    split; [vm_compute; discriminate | vm_compute; reflexivity].
Qed.

(** C3, amended: every append persists by opening the canonical file for
    writing, which empties it, and writing the complete updated document
    into it in place; no other file is written.  A save that fails
    before the file is opened leaves the files as they were; one that
    fails later leaves in the canonical file only a part of the new
    document; a save that succeeds leaves the whole new document. *)
Theorem save_registrations_in_place
  (o : oracle) (data : list json) (fs : filesystem) :
  let document := Encoder.dumps (JList data) in
  let status := fst (save_registrations o data fs) in
  let fs' := snd (save_registrations o data fs) in
  (forall p, p <> DATA_FILE -> fs' p = fs p)
  /\ (status = Ok tt -> fs' DATA_FILE = Some document)
  /\ (forall e, status = Raise e ->
        (fs' = fs /\ (makedirs_fails o = true \/ open_write_fails o = true))
        \/ (makedirs_fails o = false /\ open_write_fails o = false
            /\ exists kept rest,
                 fs' DATA_FILE = Some kept
                 /\ document = kept ++ rest /\ rest <> [])).
Proof.
  cbv zeta. split; [|split].
  - intros p Hp; unfold save_registrations.
    destruct (makedirs_fails o); [reflexivity|].
    destruct (open_write_fails o); [reflexivity|].
    destruct (write_chunks _) as [text ok]; simpl.
    apply write_file_other; exact Hp.
  - intros H.
    destruct (save_registrations o data fs) as [r fs'] eqn:E; simpl in *.
    subst r. apply save_registrations_ok in E; destruct E as [-> _].
    apply write_file_same.
  - intros e. unfold save_registrations, Encoder.dumps.
    destruct (makedirs_fails o); [intros _; left; auto|].
    destruct (open_write_fails o); [intros _; left; auto|].
    destruct (write_chunks _) as [text ok] eqn:Ew.
    destruct (write_chunks_split _ _ _ Ew) as (rest & Hc & Ht & Hf).
    cbn [fst snd]. intros H. right. split; [reflexivity|]. split; [reflexivity|].
    rewrite write_file_same, Hc.
    set (kept := match disk_room o with
                 | Some room => firstn room text
                 | None => text
                 end) in *.
    destruct (length kept <? length text)%nat eqn:El.
    + assert (Hk : exists room, kept = firstn room text).
      { subst kept; destruct (disk_room o) as [room|]; [eauto|].
        rewrite Nat.ltb_irrefl in El; discriminate. }
      destruct Hk as (room & Hk).
      exists kept, (skipn room text ++ rest). split; [reflexivity|].
      split.
      * rewrite app_assoc, Hk, firstn_skipn; reflexivity.
      * intros Hn; apply app_eq_nil in Hn; destruct Hn as [Hn _].
        apply Nat.ltb_lt in El. rewrite Hk in El.
        assert (length (firstn room text ++ skipn room text) = length text)
          by (rewrite firstn_skipn; reflexivity).
        rewrite length_app, Hn in H0; simpl in H0; lia.
    + destruct ok; [discriminate|].
      exists kept, rest.
      assert (Hk : kept = text).
      { subst kept; destruct (disk_room o); [apply firstn_short; exact El|].
        reflexivity. }
      rewrite Hk; auto.
Qed.

(** ** Reading back what the encoder wrote *)

(** Induction on JSON values, with the hypothesis for every element of a
    list and every value of an object. *)
Definition json_ind (P : json -> Prop)
  (HNull : P JNull) (HBool : forall b, P (JBool b))
  (HInt : forall z, P (JInt z)) (HFloat : forall f, P (JFloat f))
  (HStr : forall s, P (JStr s))
  (HList : forall l, Forall P l -> P (JList l))
  (HDict : forall d, Forall (fun kv => P (snd kv)) d -> P (JDict d))
  : forall v, P v :=
  fix go (v : json) : P v :=
    match v with
    | JNull => HNull
    | JBool b => HBool b
    | JInt z => HInt z
    | JFloat f => HFloat f
    | JStr s => HStr s
    | JList l =>
        HList l ((fix all (l : list json) : Forall P l :=
                    match l with
                    | [] => Forall_nil P
                    | x :: l' => Forall_cons x (go x) (all l')
                    end) l)
    | JDict d =>
        HDict d ((fix all (d : list (pystr * json))
                    : Forall (fun kv => P (snd kv)) d :=
                    match d with
                    | [] => Forall_nil _
                    | kv :: d' =>
                        Forall_cons (P := fun kv => P (snd kv)) kv
                          (go (snd kv)) (all d')
                    end) d)
    end.

(** The text of a value inside a container indented to [level]. *)
Definition text (level : nat) (v : json) : pystr :=
  match Encoder.scalar v with
  | Some t => t
  | None => concat (Encoder.iterencode_container level v)
  end.

(** The text of the items of a list, each with what precedes it. *)
Fixpoint items_text (level : nat) (first : bool) (l : list json) : pystr :=
  match l with
  | [] => []
  | x :: l' =>
      (if first then 91 else 44) :: Encoder.newline_indent level
      ++ text level x ++ items_text level false l'
  end.

(** The text of the members of an object. *)
Fixpoint members_text (level : nat) (first : bool) (d : list (pystr * json))
  : pystr :=
  match d with
  | [] => []
  | (k, x) :: d' =>
      (if first then [] else 44 :: Encoder.newline_indent level)
      ++ Encoder.encode_basestring k ++ py ": "
      ++ text level x ++ members_text level false d'
  end.

Lemma concat_list_items level first l :
  concat (Encoder.list_items (Encoder.iterencode_container level) level first l)
  = items_text level first l.
Proof.
  revert first; induction l as [|x l IH]; intros first; [reflexivity|].
  cbn [Encoder.list_items items_text]. rewrite concat_app, IH. unfold text.
  destruct (Encoder.scalar x) as [t|]; cbn [concat];
    rewrite ?app_nil_r, <- ?app_assoc; reflexivity.
Qed.

Lemma concat_dict_items level first d :
  concat (Encoder.dict_items (Encoder.iterencode_container level) level first d)
  = members_text level first d.
Proof.
  revert first; induction d as [|[k x] d IH]; intros first; [reflexivity|].
  cbn [Encoder.dict_items members_text].
  rewrite !concat_app, IH. unfold text.
  destruct first, (Encoder.scalar x) as [t|]; cbn [concat];
    rewrite ?app_nil_r, <- ?app_assoc; reflexivity.
Qed.

Lemma text_list level x l :
  text level (JList (x :: l))
  = items_text (S level) true (x :: l)
    ++ Encoder.newline_indent level ++ [93].
Proof.
  unfold text; cbn [Encoder.scalar Encoder.iterencode_container].
  rewrite concat_app, concat_list_items. reflexivity.
Qed.

Lemma text_dict level kv d :
  text level (JDict (kv :: d))
  = 123 :: Encoder.newline_indent (S level)
    ++ members_text (S level) true (kv :: d)
    ++ Encoder.newline_indent level ++ [125].
Proof.
  unfold text; cbn [Encoder.scalar Encoder.iterencode_container].
  cbn [app concat]. rewrite concat_app, concat_dict_items.
  cbn [concat]. rewrite app_nil_r. reflexivity.
Qed.

Lemma dumps_text v : Encoder.dumps v = text 0 v.
Proof.
  unfold Encoder.dumps, Encoder.iterencode, text.
  destruct (Encoder.scalar v); [apply app_nil_r | reflexivity].
Qed.

(** *** White space and indentation *)

Lemma skip_ws_solid c s :
  Decoder.is_ws c = false -> Decoder.skip_ws (c :: s) = c :: s.
Proof. intros H; simpl; rewrite H; reflexivity. Qed.

Lemma skip_ws_indent level s :
  Decoder.skip_ws (Encoder.newline_indent level ++ s) = Decoder.skip_ws s.
Proof.
  unfold Encoder.newline_indent. change (py "  ") with [32; 32].
  cbn [app Decoder.skip_ws]. change (Decoder.is_ws 10) with true. cbv iota.
  induction level as [|n IH]; [reflexivity|].
  cbn [Str.repeat_str app Decoder.skip_ws].
  change (Decoder.is_ws 32) with true. cbv iota. exact IH.
Qed.

(** *** Strings *)

Lemma scanstring_unicode_escape h1 h2 h3 h4 c tail :
  Decoder.hex4 h1 h2 h3 h4 = Some c -> Decoder.is_high c = false ->
  Decoder.scanstring (92 :: 117 :: h1 :: h2 :: h3 :: h4 :: tail)
  = Decoder.push c (Decoder.scanstring tail).
Proof.
  intros Hhex Hhigh.
  change (Decoder.scanstring (92 :: 117 :: h1 :: h2 :: h3 :: h4 :: tail))
    with (match Decoder.hex4 h1 h2 h3 h4 with
          | None => None
          | Some c1 =>
              match tail with
              | b :: e' :: g1 :: g2 :: g3 :: g4 :: r3 =>
                  if Decoder.is_high c1 && (b =? 92) && (e' =? 117) then
                    match Decoder.hex4 g1 g2 g3 g4 with
                    | None => None
                    | Some c2 =>
                        if Decoder.is_low c2
                        then Decoder.push (Decoder.join_surrogates c1 c2)
                               (Decoder.scanstring r3)
                        else Decoder.push c1 (Decoder.scanstring tail)
                    end
                  else Decoder.push c1 (Decoder.scanstring tail)
              | _ => Decoder.push c1 (Decoder.scanstring tail)
              end
          end).
  rewrite Hhex.
  destruct tail as [|b [|e' [|g1 [|g2 [|g3 [|g4 r3]]]]]]; try reflexivity.
  rewrite Hhigh; reflexivity.
Qed.

Lemma below_In (n : nat) (c : N) :
  c < N.of_nat n -> In c (map N.of_nat (seq 0 n)).
Proof.
  intros H; apply in_map_iff; exists (N.to_nat c).
  split; [apply N2Nat.id | apply in_seq; lia].
Qed.

Lemma scanstring_escape c tail :
  Decoder.scanstring (Encoder.escape_char c ++ tail)
  = Decoder.push c (Decoder.scanstring tail).
Proof.
  destruct (N.ltb_spec c 32) as [Hlt|Hge].
  - apply (below_In 32) in Hlt. cbv [map seq N.of_nat Pos.of_succ_nat Pos.succ] in Hlt.
    repeat (destruct Hlt as [<-|Hlt];
            [vm_compute (Encoder.escape_char _); cbn [app];
             first [reflexivity
                   | apply scanstring_unicode_escape; reflexivity]|]).
    destruct Hlt.
  - unfold Encoder.escape_char.
    destruct (N.eqb_spec c 34) as [->|H34]; [reflexivity|].
    destruct (N.eqb_spec c 92) as [->|H92]; [reflexivity|].
    destruct (N.eqb_spec c 10); [lia|]. destruct (N.eqb_spec c 13); [lia|].
    destruct (N.eqb_spec c 9); [lia|]. destruct (N.eqb_spec c 8); [lia|].
    destruct (N.eqb_spec c 12); [lia|].
    destruct (N.ltb_spec c 32); [lia|].
    cbn [app Decoder.scanstring].
    destruct (N.eqb_spec c 34); [contradiction|].
    destruct (N.eqb_spec c 92); [contradiction|].
    destruct (N.leb_spec c 0x1F); [lia | reflexivity].
Qed.

Lemma scanstring_encoded s rest :
  Decoder.scanstring (flat_map Encoder.escape_char s ++ 34 :: rest)
  = Some (s, rest).
Proof.
  induction s as [|c s IH]; [reflexivity|].
  cbn [flat_map]. rewrite <- app_assoc, scanstring_escape, IH. reflexivity.
Qed.

Lemma encode_basestring_app s rest :
  Encoder.encode_basestring s ++ rest
  = 34 :: flat_map Encoder.escape_char s ++ 34 :: rest.
Proof.
  unfold Encoder.encode_basestring. cbn [app]. rewrite <- app_assoc. reflexivity.
Qed.

(** *** Numbers *)

(** What can follow a value in the encoder's output: nothing, a comma or
    a new line. *)
Definition stop (rest : pystr) : Prop :=
  match rest with
  | [] => True
  | c :: _ => c = 44 \/ c = 10
  end.

Lemma to_uint_of_uint d : Decoder.to_uint (Str.of_uint d) = d.
Proof. induction d; cbn; rewrite ?IHd; reflexivity. Qed.

Lemma of_uint_digits d : forallb Decoder.is_digit (Str.of_uint d) = true.
Proof. induction d; cbn; auto. Qed.

Lemma span_digits_app ds rest :
  forallb Decoder.is_digit ds = true ->
  match rest with [] => True | c :: _ => Decoder.is_digit c = false end ->
  Decoder.span_digits (ds ++ rest) = (ds, rest).
Proof.
  induction ds as [|c ds IH]; intros Hd Hr.
  - destruct rest as [|c r]; [reflexivity|]. simpl; rewrite Hr; reflexivity.
  - cbn [forallb] in Hd. apply andb_prop in Hd; destruct Hd as [Hc Hd].
    cbn [app Decoder.span_digits]. rewrite Hc, (IH Hd Hr). reflexivity.
Qed.

Lemma digits_value_of_N n : Decoder.digits_value (Str.of_N n) = Z.of_N n.
Proof.
  unfold Decoder.digits_value, Str.of_N.
  rewrite to_uint_of_uint, DecimalN.Unsigned.of_to. reflexivity.
Qed.

Lemma to_uint_normal n d : N.to_uint n = Decimal.D0 d -> d = Decimal.Nil.
Proof.
  intros H.
  pose proof (DecimalN.Unsigned.to_of (N.to_uint n)) as Hn.
  rewrite DecimalN.Unsigned.of_to, H in Hn.
  unfold Decimal.unorm in Hn. rewrite <- H in Hn.
  destruct (Decimal.nzhead (N.to_uint n)) eqn:E;
    try (rewrite H in Hn; congruence).
  symmetry in Hn. rewrite H in Hn.
  exfalso; exact (DecimalFacts.nzhead_nonzero _ _ (eq_trans E Hn)).
Qed.

Lemma to_uint_nonnil n : N.to_uint n <> Decimal.Nil.
Proof.
  destruct n as [|p]; [discriminate|].
  apply DecimalPos.Unsigned.to_uint_nonnil.
Qed.

Lemma stop_not_digit rest :
  stop rest ->
  match rest with [] => True | c :: _ => Decoder.is_digit c = false end.
Proof. destruct rest as [|c r]; [auto|]. intros [-> | ->]; reflexivity. Qed.

Lemma integer_part_of_N n rest :
  stop rest ->
  Decoder.integer_part (Str.of_N n ++ rest) = (Str.of_N n, rest).
Proof.
  intros Hs. unfold Str.of_N.
  pose proof (of_uint_digits (N.to_uint n)) as Hd.
  pose proof (to_uint_nonnil n) as Hnn.
  pose proof (to_uint_normal n) as Hz.
  destruct (N.to_uint n) as [|d|d|d|d|d|d|d|d|d|d]; try congruence;
    try (unfold Decoder.integer_part; cbn [Str.of_uint app];
         match goal with |- context [?c =? 48] => change (c =? 48) with false end;
         cbv iota;
         exact (span_digits_app (_ :: Str.of_uint d) rest Hd
                  (stop_not_digit rest Hs))).
  rewrite (Hz d eq_refl). reflexivity.
Qed.

Lemma fraction_part_stop rest :
  stop rest -> Decoder.fraction_part rest = ([], rest).
Proof. destruct rest as [|c r]; [reflexivity|]. intros [-> | ->]; reflexivity. Qed.

Lemma exponent_part_stop rest :
  stop rest -> Decoder.exponent_part rest = (None, rest).
Proof. destruct rest as [|c r]; [reflexivity|]. intros [-> | ->]; reflexivity. Qed.

Lemma of_N_nonempty n : exists c ds, Str.of_N n = c :: ds
                                     /\ Decoder.is_digit c = true.
Proof.
  unfold Str.of_N. pose proof (to_uint_nonnil n) as Hnn.
  destruct (N.to_uint n); try congruence; cbn [Str.of_uint];
    eexists; eexists; split; reflexivity.
Qed.

Lemma sign_part_of_N n rest :
  Decoder.sign_part (Str.of_N n ++ rest) = (false, Str.of_N n ++ rest).
Proof.
  destruct (of_N_nonempty n) as (c & ds & E & Hc).
  rewrite E; cbn [app Decoder.sign_part].
  destruct (N.eqb_spec c 45) as [->|_]; [discriminate Hc | reflexivity].
Qed.

Lemma number_after_sign_of_N neg n rest :
  stop rest ->
  Decoder.number_after_sign neg (Str.of_N n ++ rest)
  = Some (JInt (if neg then (- Z.of_N n)%Z else Z.of_N n), rest).
Proof.
  intros Hs. unfold Decoder.number_after_sign.
  rewrite (integer_part_of_N n rest Hs).
  rewrite (fraction_part_stop rest Hs), (exponent_part_stop rest Hs).
  rewrite <- digits_value_of_N.
  destruct (of_N_nonempty n) as (c & ds & E & _).
  rewrite E. reflexivity.
Qed.

Lemma match_number_int z rest :
  stop rest ->
  Decoder.match_number (Str.of_Z z ++ rest) = Some (JInt z, rest).
Proof.
  intros Hs. unfold Decoder.match_number.
  destruct z as [|p|p].
  - change (Str.of_Z 0) with (Str.of_N 0).
    rewrite sign_part_of_N. exact (number_after_sign_of_N false 0 rest Hs).
  - change (Str.of_Z (Zpos p)) with (Str.of_N (Npos p)).
    rewrite sign_part_of_N.
    exact (number_after_sign_of_N false (Npos p) rest Hs).
  - change (Str.of_Z (Zneg p) ++ rest) with (45 :: Str.of_N (Npos p) ++ rest).
    change (Decoder.sign_part (45 :: Str.of_N (Npos p) ++ rest))
      with (true, Str.of_N (Npos p) ++ rest).
    exact (number_after_sign_of_N true (Npos p) rest Hs).
Qed.

(** The first character of a number is a digit or a minus sign. *)
Lemma of_Z_head z :
  exists c ds, Str.of_Z z = c :: ds
               /\ (Decoder.is_digit c = true \/ c = 45).
Proof.
  destruct z as [|p|p].
  - exists 48, []; split; [reflexivity | left; reflexivity].
  - destruct (of_N_nonempty (Npos p)) as (c & ds & E & Hc).
    exists c, ds; split; [exact E | left; exact Hc].
  - exists 45, (Str.of_N (Npos p)); split; [reflexivity | right; reflexivity].
Qed.

Lemma constant_int z rest :
  stop rest ->
  Decoder.constant (Str.of_Z z ++ rest) = Some (JInt z, rest).
Proof.
  intros Hs. unfold Decoder.constant.
  rewrite (match_number_int z rest Hs).
  destruct z as [|p|p].
  - reflexivity.
  - destruct (of_N_nonempty (Npos p)) as (c & ds & E & Hc).
    change (Str.of_Z (Zpos p)) with (Str.of_N (Npos p)). rewrite E.
    unfold Decoder.is_digit in Hc. apply andb_prop in Hc.
    destruct Hc as [H1 H2]. apply N.leb_le in H1, H2.
    cbn [app]. 
    repeat match goal with
      | |- context [Decoder.starts_with (py ?l) (c :: ?t)] =>
          let k := eval vm_compute in (py l) in
          change (py l) with k; cbn [Decoder.starts_with];
          match goal with
          | |- context [?a =? c] =>
              destruct (N.eqb_spec a c); [lia|]; cbn [andb]
          end
      end.
    reflexivity.
  - destruct (of_N_nonempty (Npos p)) as (c & ds & E & Hc).
    change (Str.of_Z (Zneg p)) with (45 :: Str.of_N (Npos p)). rewrite E.
    unfold Decoder.is_digit in Hc. apply andb_prop in Hc.
    destruct Hc as [H1 H2]. apply N.leb_le in H1, H2.
    cbn [app].
    repeat match goal with
      | |- context [Decoder.starts_with (py ?l) (45 :: c :: ?t)] =>
          let k := eval vm_compute in (py l) in
          change (py l) with k; cbn [Decoder.starts_with];
          repeat match goal with
          | |- context [?a =? c] =>
              destruct (N.eqb_spec a c); [lia|]; cbn [andb]
          | |- context [?a =? 45] =>
              let b := eval vm_compute in (a =? 45) in
              change (a =? 45) with b; cbn [andb]
          end
      end.
    reflexivity.
Qed.

(** *** Values *)

(** The number of calls the decoder makes for a value. *)
Fixpoint size (v : json) : nat :=
  match v with
  | JList l => S (list_sum (map (fun x => S (size x)) l))
  | JDict d => S (list_sum (map (fun kv => S (size (snd kv))) d))
  | _ => 1
  end.

(** No object holds a key twice. *)
Fixpoint unique_keys (v : json) : Prop :=
  match v with
  | JList l => fold_right (fun x P => unique_keys x /\ P) True l
  | JDict d =>
      NoDup (map fst d)
      /\ fold_right (fun kv P => unique_keys (snd kv) /\ P) True d
  | _ => True
  end.

(** A character a value can start with, seen from its container. *)
Definition value_head (c : N) : Prop :=
  Decoder.is_ws c = false /\ c <> 93 /\ c <> 125 /\ c <> 0xFEFF.

(** The text of the float reads back as the float. *)
Definition float_reads_back (f : spec_float) : Prop :=
  (exists c t, Float.json_text f = c :: t /\ value_head c)
  /\ forall fuel rest,
       stop rest ->
       Decoder.scan_once (S fuel) (Float.json_text f ++ rest)
       = Some (JFloat f, rest).

(** Every float of the value reads back. *)
Fixpoint floats_read_back (v : json) : Prop :=
  match v with
  | JFloat f => float_reads_back f
  | JList l => fold_right (fun x P => floats_read_back x /\ P) True l
  | JDict d => fold_right (fun kv P => floats_read_back (snd kv) /\ P) True d
  | _ => True
  end.

Lemma scan_once_plain fuel c r :
  c <> 34 -> c <> 123 -> c <> 91 ->
  Decoder.scan_once (S fuel) (c :: r) = Decoder.constant (c :: r).
Proof.
  intros H1 H2 H3. cbn [Decoder.scan_once].
  destruct (N.eqb_spec c 34); [contradiction|].
  destruct (N.eqb_spec c 123); [contradiction|].
  destruct (N.eqb_spec c 91); [contradiction|]. reflexivity.
Qed.

Lemma text_head level v :
  floats_read_back v -> exists c t, text level v = c :: t /\ value_head c.
Proof.
  unfold value_head.
  destruct v as [| [|] | z | f | s | [|x l] | [|kv d]]; intros Hf;
    try (eexists; eexists; split; [reflexivity|]; repeat split; discriminate).
  - destruct (of_Z_head z) as (c & ds & E & Hc).
    exists c, ds. split; [exact E|].
    destruct Hc as [Hc | ->]; [|repeat split; discriminate].
    unfold Decoder.is_digit in Hc. apply andb_prop in Hc.
    destruct Hc as [H1 H2]. apply N.leb_le in H1, H2.
    unfold Decoder.is_ws.
    repeat match goal with
           | |- context [c =? ?k] => destruct (N.eqb_spec c k); [lia|]
           end.
    repeat split; lia.
  - exact (proj1 Hf).
  - rewrite text_list. cbn [items_text app].
    eexists; eexists; split; [reflexivity|]; repeat split; discriminate.
Qed.

Lemma skip_ws_text level v tail :
  floats_read_back v ->
  Decoder.skip_ws (text level v ++ tail) = text level v ++ tail.
Proof.
  intros Hf. destruct (text_head level v Hf) as (c & t & E & Hws & _).
  rewrite E. apply skip_ws_solid; exact Hws.
Qed.

Lemma indent_stop level tail : stop (Encoder.newline_indent level ++ tail).
Proof. right; reflexivity. Qed.

(** The decoder on the items of a list as the encoder wrote them. *)
Lemma parse_array_items level closing rest l :
  Forall (fun x =>
            unique_keys x -> floats_read_back x ->
            forall level rest fuel,
              stop rest -> (size x <= fuel)%nat ->
              Decoder.scan_once fuel (text level x ++ rest) = Some (x, rest)) l ->
  fold_right (fun x P => unique_keys x /\ P) True l ->
  fold_right (fun x P => floats_read_back x /\ P) True l ->
  forall x acc fuel,
    unique_keys x -> floats_read_back x ->
    (forall level rest fuel,
        stop rest -> (size x <= fuel)%nat ->
        Decoder.scan_once fuel (text level x ++ rest) = Some (x, rest)) ->
    (list_sum (map (fun x => S (size x)) (x :: l)) <= fuel)%nat ->
    Decoder.parse_array fuel
      (text level x ++ items_text level false l
       ++ Encoder.newline_indent closing ++ 93 :: rest) acc
    = Some (JList (rev acc ++ x :: l), rest).
Proof.
  induction 1 as [|y l Hy _ IH]; intros Hu Hf x acc fuel Hux Hfx Hx Hfuel.
  - destruct fuel as [|fuel]; [unfold list_sum in Hfuel; simpl in Hfuel; lia|].
    cbn [Decoder.parse_array items_text app].
    rewrite Hx by (try apply indent_stop; unfold list_sum in Hfuel; simpl in Hfuel; lia).
    rewrite skip_ws_indent. cbn [Decoder.skip_ws].
    change (Decoder.is_ws 93) with false. cbv iota.
    change (93 =? 93) with true. cbv iota.
    cbn [rev]. reflexivity.
  - destruct fuel as [|fuel]; [unfold list_sum in Hfuel; simpl in Hfuel; lia|].
    cbn [Decoder.parse_array items_text].
    unfold list_sum in *; cbn [map fold_right] in Hfuel.
    rewrite Hx; [|left; reflexivity|lia].
    cbn [app Decoder.skip_ws]. change (Decoder.is_ws 44) with false. cbv iota.
    change (44 =? 93) with false. change (44 =? 44) with true. cbv iota.
    destruct Hu as [Huy Hu]. destruct Hf as [Hfy Hf].
    rewrite <- !app_assoc, skip_ws_indent, skip_ws_text by exact Hfy.
    rewrite (IH Hu Hf y (x :: acc) fuel Huy Hfy (Hy Huy Hfy))
      by (unfold list_sum in *; cbn [map fold_right] in *; lia).
    cbn [rev]. rewrite <- app_assoc. reflexivity.
Qed.

Lemma dict_set_fresh acc k v :
  ~ In k (map fst acc) -> Dict.set acc k v = acc ++ [(k, v)].
Proof.
  induction acc as [|[k' v'] acc IH]; intros Hk; [reflexivity|].
  cbn [Dict.set]. destruct (Str.eqb_spec k k') as [->|Hne].
  - exfalso; apply Hk; left; reflexivity.
  - rewrite IH; [reflexivity|]. intros Hin; apply Hk; right; exact Hin.
Qed.

Lemma parse_object_member fuel k tail acc :
  Decoder.parse_object (S fuel)
    (Encoder.encode_basestring k ++ py ": " ++ tail) acc
  = match Decoder.scan_once fuel (Decoder.skip_ws tail) with
    | None => None
    | Some (v, r3) =>
        match Decoder.skip_ws r3 with
        | c3 :: r4 =>
            if c3 =? 125 then Some (JDict (Dict.set acc k v), r4)
            else if c3 =? 44
            then Decoder.parse_object fuel (Decoder.skip_ws r4)
                   (Dict.set acc k v)
            else None
        | [] => None
        end
    end.
Proof.
  rewrite encode_basestring_app.
  cbn [Decoder.parse_object]. change (34 =? 34) with true. cbv iota.
  rewrite scanstring_encoded. reflexivity.
Qed.

(** The decoder on the members of an object as the encoder wrote them. *)
Lemma parse_object_members level closing rest d :
  Forall (fun kv =>
            unique_keys (snd kv) -> floats_read_back (snd kv) ->
            forall level rest fuel,
              stop rest -> (size (snd kv) <= fuel)%nat ->
              Decoder.scan_once fuel (text level (snd kv) ++ rest)
              = Some (snd kv, rest)) d ->
  fold_right (fun kv P => unique_keys (snd kv) /\ P) True d ->
  fold_right (fun kv P => floats_read_back (snd kv) /\ P) True d ->
  forall k x acc fuel,
    NoDup (map fst acc ++ k :: map fst d) ->
    unique_keys x -> floats_read_back x ->
    (forall level rest fuel,
        stop rest -> (size x <= fuel)%nat ->
        Decoder.scan_once fuel (text level x ++ rest) = Some (x, rest)) ->
    (list_sum (map (fun kv => S (size (snd kv))) ((k, x) :: d)) <= fuel)%nat ->
    Decoder.parse_object fuel
      (Encoder.encode_basestring k ++ py ": " ++ text level x
       ++ members_text level false d
       ++ Encoder.newline_indent closing ++ 125 :: rest) acc
    = Some (JDict (acc ++ (k, x) :: d), rest).
Proof.
  induction 1 as [|[k' y] d Hy _ IH];
    intros Hu Hf k x acc fuel Hnd Hux Hfx Hx Hfuel;
    (destruct fuel as [|fuel];
     [unfold list_sum in Hfuel; simpl in Hfuel; lia|]);
    rewrite parse_object_member, skip_ws_text by exact Hfx;
    unfold list_sum in *; cbn [members_text map fold_right snd] in *;
    assert (Hfresh : ~ In k (map fst acc))
      by (apply NoDup_remove_2 in Hnd; intros Hin; apply Hnd;
          apply in_or_app; left; exact Hin).
  - rewrite Hx by (try apply indent_stop; lia).
    cbn [app]. rewrite skip_ws_indent, skip_ws_solid by reflexivity.
    change (125 =? 125) with true. cbv iota.
    rewrite (dict_set_fresh acc k x Hfresh). reflexivity.
  - rewrite Hx; [|left; reflexivity|lia].
    rewrite (dict_set_fresh acc k x Hfresh).
    rewrite <- !app_assoc. cbn [app].
    rewrite skip_ws_solid by reflexivity.
    change (44 =? 125) with false. change (44 =? 44) with true. cbv iota.
    rewrite skip_ws_indent, encode_basestring_app.
    rewrite skip_ws_solid by reflexivity. rewrite <- encode_basestring_app.
    destruct Hu as [Huy Hu]. destruct Hf as [Hfy Hf].
    rewrite (IH Hu Hf k' y (acc ++ [(k, x)]) fuel); try assumption.
    + rewrite <- app_assoc. reflexivity.
    + rewrite map_app, <- app_assoc. exact Hnd.
    + exact (Hy Huy Hfy).
    + lia.
Qed.

(** The decoder reads a value back from its text. *)
Lemma scan_once_text v :
  unique_keys v -> floats_read_back v ->
  forall level rest fuel,
    stop rest -> (size v <= fuel)%nat ->
    Decoder.scan_once fuel (text level v ++ rest) = Some (v, rest).
Proof.
  induction v as [| b | z | f | s | l IH | d IH] using json_ind;
    intros Hu Hf level rest fuel Hs Hfuel;
    (destruct fuel as [|fuel]; [simpl in Hfuel; lia|]).
  - reflexivity.
  - destruct b; reflexivity.
  - destruct (of_Z_head z) as (c & ds & E & Hc).
    change (text level (JInt z)) with (Str.of_Z z).
    rewrite <- (constant_int z rest Hs). rewrite E. cbn [app].
    apply scan_once_plain; destruct Hc as [Hc | ->]; try discriminate;
      intros ->; discriminate Hc.
  - exact (proj2 Hf fuel rest Hs).
  - change (text level (JStr s)) with (Encoder.encode_basestring s).
    rewrite encode_basestring_app. cbn [Decoder.scan_once].
    change (34 =? 34) with true. cbv iota.
    rewrite scanstring_encoded. reflexivity.
  - destruct l as [|x l]; [reflexivity|].
    rewrite text_list. cbn [items_text]. cbn [app Decoder.scan_once].
    change (91 =? 34) with false. change (91 =? 123) with false.
    change (91 =? 91) with true. cbv iota.
    rewrite <- !app_assoc, skip_ws_indent.
    destruct Hu as [Hux Hu]. destruct Hf as [Hfx Hf].
    destruct (text_head (S level) x Hfx) as (c & t & E & Hws & H93 & _).
    rewrite (skip_ws_text (S level) x _ Hfx). rewrite E. cbn [app].
    destruct (N.eqb_spec c 93); [contradiction|].
    change (c :: t ++ ?tail) with ((c :: t) ++ tail). rewrite <- E.
    inversion IH as [|? ? Hx Hl]; subst.
    cbn [size] in Hfuel; unfold list_sum in *; cbn [map fold_right] in Hfuel.
    rewrite (parse_array_items (S level) level rest l Hl Hu Hf x [] fuel
               Hux Hfx (Hx Hux Hfx)) by (unfold list_sum in *; cbn [map fold_right] in *; lia).
    reflexivity.
  - destruct d as [|[k x] d]; [reflexivity|].
    rewrite text_dict. cbn [members_text]. cbn [app Decoder.scan_once].
    change (123 =? 34) with false. change (123 =? 123) with true. cbv iota.
    rewrite <- !app_assoc, skip_ws_indent.
    rewrite encode_basestring_app. cbn [Decoder.skip_ws].
    change (Decoder.is_ws 34) with false. cbv iota.
    change (34 =? 125) with false. cbv iota.
    rewrite <- encode_basestring_app.
    destruct Hu as [Hnd [Hux Hu]]. destruct Hf as [Hfx Hf].
    inversion IH as [|? ? Hx Hl]; subst.
    cbn [size] in Hfuel; unfold list_sum in *; cbn [map fold_right snd] in Hfuel. cbn [snd] in Hx.
    change ([125] ++ rest) with (125 :: rest).
    rewrite (parse_object_members (S level) level rest d Hl Hu Hf k x [] fuel
               Hnd Hux Hfx (Hx Hux Hfx)) by (unfold list_sum in *; cbn [map fold_right snd] in *; lia).
    reflexivity.
Qed.

(** *** Whole documents *)

Lemma all_Forall {A : Type} (Q : A -> Prop) (l : list A) :
  fold_right (fun x P => Q x /\ P) True l <-> Forall Q l.
Proof.
  induction l as [|x l IH]; cbn [fold_right].
  - split; [constructor | trivial].
  - rewrite IH; split; [intros [? ?]; constructor; assumption|].
    intros H; inversion H; auto.
Qed.

Lemma items_text_size level first l :
  Forall (fun x => forall level, (size x <= length (text level x))%nat) l ->
  (list_sum (map (fun x => S (size x)) l)
   <= length (items_text level first l))%nat.
Proof.
  intros H; revert first; induction H as [|x l Hx _ IH]; intros first.
  - apply Nat.le_refl.
  - unfold list_sum in *; cbn [map fold_right items_text length].
    rewrite !length_app. specialize (Hx level). specialize (IH false). lia.
Qed.

Lemma members_text_size level first d :
  Forall (fun kv => forall level,
            (size (snd kv) <= length (text level (snd kv)))%nat) d ->
  (list_sum (map (fun kv => S (size (snd kv))) d)
   <= length (members_text level first d))%nat.
Proof.
  intros H; revert first; induction H as [|[k x] d Hx _ IH]; intros first.
  - apply Nat.le_refl.
  - unfold list_sum in *; cbn [map fold_right members_text snd] in *.
    rewrite !length_app. specialize (Hx level). specialize (IH false).
    unfold Encoder.encode_basestring; cbn [length]. lia.
Qed.

Lemma size_le_text v :
  floats_read_back v -> forall level, (size v <= length (text level v))%nat.
Proof.
  induction v as [| b | z | f | s | l IH | d IH] using json_ind;
    intros Hf level;
    try (destruct (text_head level _ Hf) as (c & t & E & _);
         rewrite E; cbn [size length]; lia).
  - destruct l as [|x l]; [cbn; lia|].
    rewrite text_list, !length_app. cbn [size length].
    apply all_Forall in Hf.
    assert (H : Forall (fun x => forall level,
                          (size x <= length (text level x))%nat) (x :: l)).
    { apply Forall_forall; intros y Hy.
      rewrite Forall_forall in IH, Hf. exact (IH y Hy (Hf y Hy)). }
    pose proof (items_text_size (S level) true (x :: l) H). lia.
  - destruct d as [|kv d]; [cbn; lia|].
    rewrite text_dict. cbn [length]. rewrite !length_app. cbn [size length].
    apply all_Forall in Hf.
    assert (H : Forall (fun kv => forall level,
                          (size (snd kv) <= length (text level (snd kv)))%nat)
                  (kv :: d)).
    { apply Forall_forall; intros y Hy.
      rewrite Forall_forall in IH, Hf. exact (IH y Hy (Hf y Hy)). }
    pose proof (members_text_size (S level) true (kv :: d) H). lia.
Qed.

(** [json.loads] reads back what [json.dumps] wrote, for a value whose
    objects have distinct keys and whose floats read back. *)
Theorem loads_dumps v :
  unique_keys v -> floats_read_back v ->
  Decoder.loads (Encoder.dumps v) = Some v.
Proof.
  intros Hu Hf. rewrite dumps_text. unfold Decoder.loads.
  destruct (text_head 0 v Hf) as (c & t & E & Hws & _ & _ & Hbom).
  assert (Hb : Decoder.starts_with [0xFEFF] (text 0 v) = false).
  { rewrite E; cbn [Decoder.starts_with].
    destruct (N.eqb_spec 0xFEFF c); [congruence | reflexivity]. }
  rewrite Hb.
  assert (Hskip : Decoder.skip_ws (text 0 v) = text 0 v)
    by (rewrite E; apply skip_ws_solid; exact Hws).
  rewrite Hskip. rewrite <- (app_nil_r (text 0 v)) at 2.
  rewrite (scan_once_text v Hu Hf 0%nat [] _ I); [reflexivity|].
  pose proof (size_le_text v Hf 0%nat). lia.
Qed.

(** *** What the decoder returns has distinct keys *)

Definition scalar_value (v : json) : Prop :=
  match v with JList _ | JDict _ => False | _ => True end.

Lemma number_after_sign_scalar neg s v r :
  Decoder.number_after_sign neg s = Some (v, r) -> scalar_value v.
Proof.
  unfold Decoder.number_after_sign.
  destruct (Decoder.integer_part s) as [[|c ip] s2]; [discriminate|].
  destruct (Decoder.fraction_part s2) as [frac s3].
  destruct (Decoder.exponent_part s3) as [ex s4].
  destruct frac, ex; intros H; inversion H; exact I.
Qed.

Lemma constant_scalar s v r :
  Decoder.constant s = Some (v, r) -> scalar_value v.
Proof.
  unfold Decoder.constant, Decoder.match_number.
  repeat match goal with
         | |- context [if ?b then _ else _] => destruct b
         end;
    try (intros H; inversion H; exact I).
  destruct (Decoder.sign_part s) as [neg s1].
  apply number_after_sign_scalar.
Qed.

Lemma scalar_unique_keys v : scalar_value v -> unique_keys v.
Proof. destruct v; simpl; tauto. Qed.

Lemma dict_set_keys acc k v :
  NoDup (map fst acc) -> NoDup (map fst (Dict.set acc k v)).
Proof.
  induction acc as [|[k' v'] acc IH]; intros H.
  - repeat constructor. intros [].
  - cbn [Dict.set]. inversion H as [|? ? Hk Hnd]; subst.
    destruct (Str.eqb_spec k k') as [->|Hne]; [exact H|].
    cbn [map fst]. constructor; [|apply IH; exact Hnd].
    intros Hin; apply Hk. clear -Hin Hne.
    induction acc as [|[k1 v1] acc IH]; cbn [Dict.set map fst] in *.
    + destruct Hin as [E|[]]; congruence.
    + destruct (Str.eqb_spec k k1) as [->|Hne1]; [exact Hin|].
      destruct Hin as [E|Hin]; [left; exact E | right; apply IH; exact Hin].
Qed.

Lemma dict_set_values (Q : json -> Prop) acc k v :
  Forall (fun kv => Q (snd kv)) acc -> Q v ->
  Forall (fun kv => Q (snd kv)) (Dict.set acc k v).
Proof.
  induction 1 as [|[k' v'] acc Hx Hacc IH]; intros Hv.
  - repeat constructor; exact Hv.
  - cbn [Dict.set]. destruct (Str.eqb k k'); constructor; auto.
Qed.

Lemma decoder_unique_keys fuel :
  (forall s v r, Decoder.scan_once fuel s = Some (v, r) -> unique_keys v)
  /\ (forall s acc v r,
        Decoder.parse_array fuel s acc = Some (v, r) ->
        Forall unique_keys acc -> unique_keys v)
  /\ (forall s acc v r,
        Decoder.parse_object fuel s acc = Some (v, r) ->
        NoDup (map fst acc) ->
        Forall (fun kv => unique_keys (snd kv)) acc -> unique_keys v).
Proof.
  induction fuel as [|fuel (IHscan & IHarr & IHobj)].
  - repeat split; intros; discriminate.
  - split; [|split].
    + intros s v r H. cbn [Decoder.scan_once] in H.
      destruct s as [|c s]; [discriminate|].
      destruct (c =? 34).
      { destruct (Decoder.scanstring s) as [[str rest]|]; inversion H; exact I. }
      destruct (c =? 123).
      { destruct (Decoder.skip_ws s) as [|c' r']; [discriminate|].
        destruct (c' =? 125).
        - inversion H; subst; split; constructor.
        - apply (IHobj _ _ _ _ H); constructor. }
      destruct (c =? 91).
      { destruct (Decoder.skip_ws s) as [|c' r']; [discriminate|].
        destruct (c' =? 93).
        - inversion H; exact I.
        - apply (IHarr _ _ _ _ H); constructor. }
      apply scalar_unique_keys. exact (constant_scalar _ _ _ H).
    + intros s acc v r H Hacc. cbn [Decoder.parse_array] in H.
      destruct (Decoder.scan_once fuel s) as [[x r1]|] eqn:Ex; [|discriminate].
      pose proof (IHscan _ _ _ Ex) as Hx.
      destruct (Decoder.skip_ws r1) as [|c r']; [discriminate|].
      destruct (c =? 93).
      * inversion H; subst. cbn [unique_keys]. apply all_Forall.
        change (rev acc ++ [x]) with (rev (x :: acc)).
        apply Forall_rev. constructor; assumption.
      * destruct (c =? 44); [|discriminate].
        apply (IHarr _ _ _ _ H). constructor; assumption.
    + intros s acc v r H Hnd Hacc. cbn [Decoder.parse_object] in H.
      destruct s as [|c s]; [discriminate|].
      destruct (c =? 34); [|discriminate].
      destruct (Decoder.scanstring s) as [[k r1]|]; [|discriminate].
      destruct (Decoder.skip_ws r1) as [|c1 r2]; [discriminate|].
      destruct (c1 =? 58); [|discriminate].
      destruct (Decoder.scan_once fuel (Decoder.skip_ws r2)) as [[x r3]|] eqn:Ex;
        [|discriminate].
      pose proof (IHscan _ _ _ Ex) as Hx.
      destruct (Decoder.skip_ws r3) as [|c3 r4]; [discriminate|].
      destruct (c3 =? 125).
      * inversion H; subst. cbn [unique_keys].
        split; [apply dict_set_keys; exact Hnd|].
        apply (all_Forall (fun kv => unique_keys (snd kv))).
        apply dict_set_values; assumption.
      * destruct (c3 =? 44); [|discriminate].
        apply (IHobj _ _ _ _ H);
          [apply dict_set_keys | apply dict_set_values]; assumption.
Qed.

Lemma loads_unique_keys s v : Decoder.loads s = Some v -> unique_keys v.
Proof.
  unfold Decoder.loads.
  destruct (Decoder.starts_with [0xFEFF] s); [discriminate|].
  destruct (Decoder.scan_once _ _) as [[x r]|] eqn:E; [|discriminate].
  destruct (Decoder.skip_ws r); [|discriminate].
  intros H; inversion H; subst.
  exact (proj1 (decoder_unique_keys _) _ _ _ E).
Qed.

(** ** Appending to the store *)

Lemma send_json_status data st r :
  send_json data st = Sent r -> status r = st.
Proof.
  unfold send_json; destruct (Py.encodable _); [|discriminate].
  intros H; inversion H; reflexivity.
Qed.

Lemma checks_status body answer r :
  checks body = Ok (Some answer) -> answer = Sent r -> status r = 400.
Proof.
  unfold checks; intros H Hr.
  bind_inv H. destruct a as [f|].
  - inversion H; subst. eapply send_json_status; eassumption.
  - bind_inv H. bind_inv H. destruct (negb a0).
    + inversion H; subst. eapply send_json_status; eassumption.
    + bind_inv H. bind_inv H. destruct (negb a2); [|discriminate].
      inversion H; subst. eapply send_json_status; eassumption.
Qed.

Lemma validate_reject_status rt o raw answer r :
  validate rt o raw = Ok (Reject answer) -> answer = Sent r -> status r = 400.
Proof.
  unfold validate; intros H Hr.
  destruct (Decoder.loads raw) as [body|].
  - bind_inv H. destruct a as [ans|].
    + inversion H; subst. eapply checks_status; eauto.
    + bind_inv H. bind_inv H. bind_inv H. bind_inv H. discriminate.
  - inversion H; subst. eapply send_json_status; eassumption.
Qed.

(** A submission answered with status 200 went through the store. *)
Lemma do_POST_created rt o req fs r fs' :
  path req = py "/api" ->
  do_POST rt o req fs = (Sent r, fs') -> status r = 200 ->
  exists entry registrations,
    validate rt o (raw req) = Ok (Accept entry)
    /\ read_registrations o fs = Ok registrations
    /\ save_registrations o (registrations ++ [entry]) fs = (Ok tt, fs').
Proof.
  intros Hp H Hs; rewrite do_POST_submit in H by exact Hp.
  destruct (validate rt o (raw req)) as [[answer|entry]|e] eqn:Ev.
  - inversion H; subst.
    pose proof (validate_reject_status _ _ _ _ _ Ev eq_refl) as H4.
    rewrite Hs in H4; discriminate.
  - destruct (read_registrations o fs) as [regs|e] eqn:Er; [|discriminate].
    destruct (save_registrations o (regs ++ [entry]) fs) as [[[]|e] fs1] eqn:Es;
      [|discriminate].
    destruct (Py.getitem entry (py "id")); [|discriminate].
    inversion H; subst. exists entry, regs; auto.
  - discriminate.
Qed.

Lemma lstrip_keeps (s : pystr) :
  (exists c, In c s /\ Str.isspace c = false) -> Str.lstrip s <> [].
Proof.
  induction s as [|a s IH]; intros (c & Hin & Hc); [destruct Hin|].
  simpl; destruct (Str.isspace a) eqn:Ea; [|discriminate].
  apply IH; exists c; split; [|exact Hc].
  destruct Hin as [->|Hin]; [congruence | exact Hin].
Qed.

Lemma strip_keeps (c : N) (s : pystr) :
  Str.isspace c = false -> Str.strip (c :: s) <> [].
Proof.
  intros Hc; unfold Str.strip, Str.rstrip; simpl; rewrite Hc.
  intros H. apply (f_equal (@rev N)) in H; rewrite rev_involutive in H.
  simpl in H; revert H; apply lstrip_keeps.
  exists c; split; [apply in_or_app; right; left; reflexivity | exact Hc].
Qed.

Lemma dumps_list_head l : exists s, Encoder.dumps (JList l) = 91 :: s.
Proof.
  unfold Encoder.dumps, Encoder.iterencode; cbn [Encoder.scalar].
  destruct l as [|x l]; [eexists; reflexivity|].
  cbn [Encoder.iterencode_container Encoder.list_items].
  destruct (Encoder.scalar x); eexists; reflexivity.
Qed.

(** A value without floats. *)
Fixpoint float_free (v : json) : bool :=
  match v with
  | JFloat _ => false
  | JList l => forallb float_free l
  | JDict d => forallb (fun kv => float_free (snd kv)) d
  | _ => true
  end.

Lemma float_free_reads_back v : float_free v = true -> floats_read_back v.
Proof.
  induction v as [| b | z | f | s | l IH | d IH] using json_ind;
    cbn [float_free floats_read_back]; intros H; try exact I;
    try discriminate.
  - apply all_Forall. rewrite forallb_forall in H.
    rewrite Forall_forall in *. intros x Hx; exact (IH x Hx (H x Hx)).
  - apply (all_Forall (fun kv => floats_read_back (snd kv))).
    rewrite forallb_forall in H.
    rewrite Forall_forall in *. intros x Hx; exact (IH x Hx (H x Hx)).
Qed.

(** The strings of a list are pairwise different. *)
Fixpoint distinct (l : list pystr) : bool :=
  match l with
  | [] => true
  | x :: l' => negb (Str.mem x l') && distinct l'
  end.

Lemma distinct_NoDup l : distinct l = true -> NoDup l.
Proof.
  induction l as [|x l IH]; intros H; constructor;
    cbn [distinct] in H; apply andb_prop in H; destruct H as [Hx Hl].
  - intros Hin. apply Str.mem_In in Hin. rewrite Hin in Hx; discriminate.
  - apply IH; exact Hl.
Qed.

Lemma filtered_distances_plain candidates :
  unique_keys (JList (filter in_catalogue candidates))
  /\ float_free (JList (filter in_catalogue candidates)) = true.
Proof.
  induction candidates as [|v l [IHu IHf]]; [split; [exact I | reflexivity]|].
  cbn [filter]. destruct (in_catalogue v) eqn:E; [|split; assumption].
  destruct v; try discriminate E.
  split; [split; [exact I | exact IHu] | exact IHf].
Qed.

(** The entry of a payload that passed the checks has distinct keys and
    holds no float. *)
Lemma entry_of_plain rt o d candidates :
  checks (JDict d) = Ok None ->
  let entry := JDict (entry_of rt o d (filter in_catalogue candidates)) in
  unique_keys entry /\ float_free entry = true.
Proof.
  intros Hc. destruct (checks_passed d Hc) as (Hreq & _ & _).
  destruct (Hreq (py "gender")) as (g & Hg & _); [vm_compute; tauto|].
  destruct (Hreq (py "boat_class")) as (b & Hb & _); [vm_compute; tauto|].
  destruct (filtered_distances_plain candidates) as [Hu Hf].
  cbv zeta. unfold entry_of, field. rewrite Hg, Hb.
  split.
  - cbn [unique_keys map fst snd fold_right]. split.
    + apply distinct_NoDup. vm_compute; reflexivity.
    + repeat split; exact Hu.
  - cbn [float_free forallb snd andb]. rewrite andb_true_r. exact Hf.
Qed.

Lemma read_registrations_unique_keys o fs registrations :
  read_registrations o fs = Ok registrations ->
  Forall unique_keys registrations.
Proof.
  unfold read_registrations.
  destruct (fs DATA_FILE) as [content|]; [|intros H; inversion H; constructor].
  destruct (open_read_fails o); [discriminate|].
  destruct (Str.is_empty _); [intros H; inversion H; constructor|].
  destruct (Decoder.loads content) as [v|] eqn:E; [|discriminate].
  apply loads_unique_keys in E.
  destruct v; intros H; inversion H; subst; try constructor.
  apply all_Forall; exact E.
Qed.

(** Two loads of the same files that both succeed return the same. *)
Lemma read_registrations_same o1 o2 fs a b :
  read_registrations o1 fs = Ok a -> read_registrations o2 fs = Ok b -> a = b.
Proof.
  unfold read_registrations.
  destruct (fs DATA_FILE) as [content|]; [|congruence].
  destruct (open_read_fails o1); [discriminate|].
  destruct (open_read_fails o2); [discriminate|]. congruence.
Qed.

(** Loading the document [save_registrations] wrote. *)
Lemma read_after_save o o' data fs fs' :
  save_registrations o data fs = (Ok tt, fs') ->
  open_read_fails o' = false ->
  Forall unique_keys data -> Forall floats_read_back data ->
  read_registrations o' fs' = Ok data.
Proof.
  intros Hs Ho Hu Hf. apply save_registrations_ok in Hs; destruct Hs as [-> _].
  unfold read_registrations; rewrite write_file_same, Ho.
  destruct (dumps_list_head data) as (s & Hd).
  assert (Hne : Str.strip (Encoder.dumps (JList data)) <> [])
    by (rewrite Hd; apply strip_keeps; reflexivity).
  apply is_empty_false in Hne; rewrite Hne.
  rewrite (loads_dumps (JList data)); [reflexivity | |];
    cbn [unique_keys floats_read_back]; apply all_Forall; assumption.
Qed.

(** One accepted submission: what the store holds afterwards. *)
Lemma append_step rt o req fs fs' r registrations :
  path req = py "/api" ->
  read_registrations o fs = Ok registrations ->
  do_POST rt o req fs = (Sent r, fs') ->
  status r = 200 ->
  Forall floats_read_back registrations ->
  exists d given candidates,
    Decoder.loads (raw req) = Some (JDict d)
    /\ checks (JDict d) = Ok None
    /\ Py.get (JDict d) (py "distances") (JList []) = Ok given
    /\ Py.iter given = Ok candidates
    /\ forall o', open_read_fails o' = false ->
         read_registrations o' fs'
         = Ok (registrations
               ++ [JDict (entry_of rt o d (filter in_catalogue candidates))]).
Proof.
  intros Hp Hr Hpost Hs Hfl.
  destruct (do_POST_created _ _ _ _ _ _ Hp Hpost Hs)
    as (entry & regs & Hv & Hr' & Hsave).
  rewrite Hr in Hr'; injection Hr' as <-.
  destruct (validate_accept_entry _ _ _ _ Hv)
    as (d & given & cands & Hl & Hc & Hg & Hi & ->).
  exists d, given, cands. repeat (split; [assumption|]).
  intros o' Ho.
  destruct (entry_of_plain rt o d cands Hc) as [Hu Hf].
  apply (read_after_save o o' _ fs fs' Hsave Ho).
  - apply Forall_app; split.
    + exact (read_registrations_unique_keys _ _ _ Hr).
    + constructor; [exact Hu | constructor].
  - apply Forall_app; split; [exact Hfl|].
    constructor; [apply float_free_reads_back; exact Hf | constructor].
Qed.

(** ** The server loop *)

Lemma hex_fixed_length w n : length (Str.hex_fixed w n) = w.
Proof.
  revert n; induction w as [|w IH]; intros n; [reflexivity|].
  cbn [Str.hex_fixed]. rewrite length_app, IH. cbn [length]. lia.
Qed.

Lemma hex_fixed_firstn w k n :
  firstn w (Str.hex_fixed (w + k) n) = Str.hex_fixed w (n / 16 ^ N.of_nat k).
Proof.
  revert n; induction k as [|k IH]; intros n.
  - rewrite Nat.add_0_r, N.pow_0_r, N.div_1_r.
    rewrite <- (hex_fixed_length w n) at 1. apply firstn_all.
  - rewrite Nat.add_succ_r. cbn [Str.hex_fixed].
    rewrite firstn_app, hex_fixed_length.
    replace (w - (w + k))%nat with 0%nat by lia.
    cbn [firstn]. rewrite app_nil_r, IH.
    rewrite Nat2N.inj_succ, N.pow_succ_r', N.Div0.div_div. reflexivity.
Qed.

Lemma hex_digit_inj a b :
  a < 16 -> b < 16 -> Str.hex_digit a = Str.hex_digit b -> a = b.
Proof.
  unfold Str.hex_digit; intros Ha Hb.
  destruct (N.ltb_spec a 10), (N.ltb_spec b 10); lia.
Qed.

Lemma hex_fixed_inj w a b :
  Str.hex_fixed w a = Str.hex_fixed w b <-> a mod 16 ^ N.of_nat w = b mod 16 ^ N.of_nat w.
Proof.
  revert a b; induction w as [|w IH]; intros a b.
  - cbn [Str.hex_fixed N.of_nat]. rewrite N.pow_0_r, !N.mod_1_r. tauto.
  - cbn [Str.hex_fixed]. rewrite Nat2N.inj_succ, N.pow_succ_r'.
    rewrite !N.Div0.mod_mul_r.
    assert (Ha : a mod 16 < 16) by (apply N.mod_lt; discriminate).
    assert (Hb : b mod 16 < 16) by (apply N.mod_lt; discriminate).
    split.
    + intros H. apply app_inj_tail in H. destruct H as [H1 H2].
      apply IH in H1. apply hex_digit_inj in H2; try assumption.
      rewrite H1, H2. reflexivity.
    + intros H.
      assert (H2 : a mod 16 = b mod 16).
      { apply (f_equal (fun x => x mod 16)) in H.
        rewrite !(N.mul_comm 16) in H.
        rewrite !N.Div0.mod_add, !N.Div0.mod_mod in H. exact H. }
      assert (H1 : (a / 16) mod 16 ^ N.of_nat w = (b / 16) mod 16 ^ N.of_nat w)
        by lia.
      apply IH in H1. rewrite H1, H2. reflexivity.
Qed.

(** The part of the UUID that makes the identifier: its first 48 bits. *)
Definition id_bits (o : oracle) : N := (uuid4 o / 16 ^ 20) mod 16 ^ 12.

Lemma new_id_bits o1 o2 : new_id o1 = new_id o2 <-> id_bits o1 = id_bits o2.
Proof.
  unfold new_id, id_bits.
  rewrite !(hex_fixed_firstn 12 20). change (N.of_nat 20) with 20.
  rewrite <- (hex_fixed_inj 12). split; [|intros ->; reflexivity].
  apply app_inv_head.
Qed.

(** C1, as stated, fails: the identifier of an appended entry need not
    be fresh.  The store holds one entry, appended for a request that
    drew one version-4 UUID; a second submission draws another UUID that
    agrees with the first in its first twelve hexadecimal digits.  It is
    answered with status 200, the store then holds the prior entry
    followed by the new one, and the new entry carries the identifier
    the prior entry already has. *)
Lemma appended_id_already_stored :
  let first := 0x0123456789ab40008000000000000000 in
  let second := 0x0123456789ab4fff8000000000000001 in
  let fs := snd (do_POST Sample.rt (Sample.quiet first)
                   (Sample.submit Sample.ivanov) Sample.no_files) in
  first <> second
  /\ exists prior r fs' entry,
       read_registrations (Sample.quiet second) fs = Ok [prior]
       /\ do_POST Sample.rt (Sample.quiet second)
            (Sample.submit Sample.ivanov) fs = (Sent r, fs')
       /\ status r = 200
       /\ read_registrations (Sample.quiet 0) fs' = Ok [prior; entry]
       /\ Py.getitem prior (py "id") = Ok (JStr (py "reg_0123456789ab"))
       /\ Py.getitem entry (py "id") = Ok (JStr (py "reg_0123456789ab")).
Proof.
  cbv zeta. split; [discriminate|]. do 4 eexists.
  split; [vm_compute; reflexivity|].
  split; [vm_compute; reflexivity|].
  split; [reflexivity|].
  split; [vm_compute; reflexivity|].
  split; vm_compute; reflexivity.
Qed.

(** C1, amended: after a submission answered with status 200, loading
    the store yields exactly the sequence loaded before, unchanged and
    in the same order, followed by one new entry; the entry holds the
    validated fields of the payload, the time of this request and the
    identifier made of the first twelve hexadecimal digits of the UUID
    drawn for this request.  The identifier is not checked against the
    store: it equals the identifier a prior entry got from its UUID
    exactly when the two UUIDs agree in their first 48 bits, and is new
    otherwise.  (The floats a hand-edited store may hold are supposed to
    read back from the text [json.dump] writes for them, as Python's do;
    a store written by the server holds none.) *)
Theorem append_then_load
  (rt : runtime) (o o' : oracle) (req : request) (fs fs' : filesystem)
  (r : response) (registrations : list json) :
  path req = py "/api" ->
  read_registrations o fs = Ok registrations ->
  do_POST rt o req fs = (Sent r, fs') ->
  status r = 200 ->
  open_read_fails o' = false ->
  Forall floats_read_back registrations ->
  exists d candidates,
    Decoder.loads (raw req) = Some (JDict d)
    /\ (Py.get (JDict d) (py "distances") (JList []) >>= Py.iter)
       = Ok candidates
    /\ let entry := JDict (entry_of rt o d (filter in_catalogue candidates)) in
       Py.getitem entry (py "id") = Ok (JStr (new_id o))
       /\ Py.getitem entry (py "timestamp") = Ok (JStr (strftime (now o)))
       /\ read_registrations o' fs' = Ok (registrations ++ [entry])
       /\ forall prior o_prior,
            In prior registrations ->
            Py.getitem prior (py "id") = Ok (JStr (new_id o_prior)) ->
            (Py.getitem entry (py "id") = Py.getitem prior (py "id")
             <-> id_bits o = id_bits o_prior).
Proof.
  intros Hp Hr Hpost Hs Ho Hfl.
  destruct (append_step _ _ _ _ _ _ _ Hp Hr Hpost Hs Hfl)
    as (d & given & cands & Hl & _ & Hg & Hi & Hread).
  exists d, cands. split; [exact Hl|].
  split; [rewrite Hg; exact Hi|].
  cbv zeta. split; [reflexivity|]. split; [reflexivity|].
  split; [apply Hread; exact Ho|].
  intros prior o_prior _ Hid. rewrite Hid.
  change (Py.getitem (JDict (entry_of rt o d (filter in_catalogue cands)))
            (py "id")) with (@Ok json (JStr (new_id o))).
  rewrite <- new_id_bits. split; intros H; congruence.
Qed.

Lemma NoDup_map_iff {A B C : Type} (f : A -> B) (g : A -> C) (l : list A) :
  (forall x y, f x = f y <-> g x = g y) ->
  NoDup (map f l) <-> NoDup (map g l).
Proof.
  intros Hfg; induction l as [|x l IH]; cbn [map].
  - split; constructor.
  - split; intros H; inversion H as [|? ? Hx Hnd]; subst;
      (constructor; [|apply IH; exact Hnd]);
      intros Hin; apply Hx; apply in_map_iff in Hin;
      destruct Hin as (y & Hy & Hin); apply in_map_iff; exists y;
      (split; [apply Hfg; exact Hy | exact Hin]).
Qed.

(** A request that submits a registration. *)
Definition is_submission (x : command * oracle * request) : Prop :=
  fst (fst x) = POST /\ path (snd x) = py "/api".

(** A request answered with status 200. *)
Definition created (out : outcome) : Prop :=
  exists r, out = Sent r /\ status r = 200.

(** The entry the server builds for a submission. *)
Definition entry_for (rt : runtime) (x : command * oracle * request)
  (entry : json) : Prop :=
  exists d candidates,
    Decoder.loads (raw (snd x)) = Some (JDict d)
    /\ (Py.get (JDict d) (py "distances") (JList []) >>= Py.iter)
       = Ok candidates
    /\ entry = JDict (entry_of rt (snd (fst x)) d
                       (filter in_catalogue candidates))
    /\ float_free entry = true.

Lemma entry_for_id rt x entry :
  entry_for rt x entry ->
  Py.getitem entry (py "id") = Ok (JStr (new_id (snd (fst x)))).
Proof. intros (d & cands & _ & _ & -> & _); reflexivity. Qed.

(** Submissions served one after the other, all answered with status
    200: the store then holds what it held before, followed by their
    entries in the order of the requests. *)
Lemma serve_appends rt reqs :
  forall fs registrations outs fs',
    Forall is_submission reqs ->
    (forall o, open_read_fails o = false ->
               read_registrations o fs = Ok registrations) ->
    Forall floats_read_back registrations ->
    serve rt reqs fs = (outs, fs') ->
    Forall created outs ->
    exists entries,
      Forall2 (entry_for rt) reqs entries
      /\ forall o, open_read_fails o = false ->
                   read_registrations o fs' = Ok (registrations ++ entries).
Proof.
  induction reqs as [|[[c o] req] reqs IH];
    intros fs regs outs fs' Hsub Hread Hfl Hserve Hok.
  - inversion Hserve; subst. exists []. split; [constructor|].
    intros o Ho; rewrite app_nil_r; apply Hread; exact Ho.
  - cbn [serve] in Hserve.
    inversion Hsub as [|? ? [Hc Hp] Hsub']; subst. cbn [fst snd] in Hc, Hp.
    subst c. cbn [handle] in Hserve.
    destruct (do_POST rt o req fs) as [out fs1] eqn:Epost.
    destruct (serve rt reqs fs1) as [outs1 fs2] eqn:Eserve.
    inversion Hserve; subst.
    inversion Hok as [|? ? (r & -> & Hs) Hok']; subst.
    destruct (do_POST_created _ _ _ _ _ _ Hp Epost Hs)
      as (entry0 & regs0 & _ & Hr0 & _).
    assert (regs0 = regs)
      by (eapply read_registrations_same;
          [exact Hr0 | exact (Hread (Sample.quiet 0) eq_refl)]).
    subst regs0.
    destruct (append_step _ _ _ _ _ _ _ Hp Hr0 Epost Hs Hfl)
      as (d & given & cands & Hl & Hcheck & Hg & Hi & Hread1).
    destruct (entry_of_plain rt o d cands Hcheck) as [_ Hff].
    set (entry := JDict (entry_of rt o d (filter in_catalogue cands))) in *.
    destruct (IH fs1 (regs ++ [entry]) outs1 fs' Hsub' Hread1) as
      (entries & Hall & Hfinal); try assumption.
    { apply Forall_app; split; [exact Hfl|].
      constructor; [apply float_free_reads_back; exact Hff | constructor]. }
    exists (entry :: entries). split.
    + constructor; [|exact Hall].
      exists d, cands. cbn [fst snd]. split; [exact Hl|].
      split; [rewrite Hg; exact Hi|]. split; [reflexivity | exact Hff].
    + intros o' Ho'. rewrite (Hfinal o' Ho'), <- app_assoc. reflexivity.
Qed.

(** C4, as stated, fails.  Two submissions reach an empty store, each
    with its own version-4 UUID; the two UUIDs differ, but not in their
    first twelve hexadecimal digits.  Both are answered with status 200
    and both entries are persisted, under the same identifier. *)
Lemma two_entries_one_id :
  let first := 0x00000000000040008000000000000000 in
  let second := 0x00000000000040008000000000000001 in
  let reqs := [(POST, Sample.quiet first, Sample.submit Sample.ivanov);
               (POST, Sample.quiet second, Sample.submit Sample.ivanov)] in
  first <> second
  /\ Forall created (fst (serve Sample.rt reqs Sample.no_files))
  /\ exists e1 e2,
       read_registrations (Sample.quiet 0)
         (snd (serve Sample.rt reqs Sample.no_files)) = Ok [e1; e2]
       /\ Py.getitem e1 (py "id") = Ok (JStr (py "reg_000000000000"))
       /\ Py.getitem e2 (py "id") = Ok (JStr (py "reg_000000000000")).
Proof.
  cbv zeta. split; [discriminate|]. split.
  - vm_compute. repeat constructor; eexists; split; reflexivity.
  - do 2 eexists. split; [vm_compute; reflexivity|].
    split; vm_compute; reflexivity.
Qed.

(** C4, amended: the server handles one request at a time, each handler
    running from its load to its save before the next request is taken.
    So [K] submissions that reach an empty store and are all answered
    with status 200 leave exactly [K] persisted entries, in the order of
    the requests, none discarded; each carries the identifier drawn for
    its request, and the [K] identifiers are distinct exactly when the
    first 48 bits of the [K] UUIDs drawn are distinct. *)
Theorem submissions_all_kept
  (rt : runtime) (reqs : list (command * oracle * request))
  (fs : filesystem) (o' : oracle) :
  fs DATA_FILE = None ->
  Forall is_submission reqs ->
  Forall created (fst (serve rt reqs fs)) ->
  open_read_fails o' = false ->
  exists entries,
    read_registrations o' (snd (serve rt reqs fs)) = Ok entries
    /\ length entries = length reqs
    /\ Forall2 (entry_for rt) reqs entries
    /\ map (fun e => Py.getitem e (py "id")) entries
       = map (fun x => Ok (JStr (new_id (snd (fst x))))) reqs
    /\ (NoDup (map (fun e => Py.getitem e (py "id")) entries)
        <-> NoDup (map (fun x => id_bits (snd (fst x))) reqs)).
Proof.
  intros Hnone Hsub Hok Ho.
  destruct (serve rt reqs fs) as [outs fs'] eqn:E. cbn [fst snd] in *.
  destruct (serve_appends rt reqs fs [] outs fs' Hsub
              (fun o _ => read_registrations_absent o fs Hnone)
              (Forall_nil _) E Hok) as (entries & Hall & Hread).
  exists entries. split; [exact (Hread o' Ho)|].
  assert (Hids : map (fun e => Py.getitem e (py "id")) entries
                 = map (fun x => Ok (JStr (new_id (snd (fst x))))) reqs).
  { clear -Hall. induction Hall as [|x e reqs entries Hx _ IH]; [reflexivity|].
    cbn [map]. rewrite IH, (entry_for_id rt x e Hx). reflexivity. }
  split; [symmetry; exact (Forall2_length Hall)|].
  split; [exact Hall|]. split; [exact Hids|].
  rewrite Hids. apply NoDup_map_iff. intros x y.
  rewrite <- new_id_bits.
  split; intros H; [congruence | rewrite H; reflexivity].
Qed.

(** ** The report *)

(** The value of the cell at a position, if the cell exists. *)
Definition cell_value (ws : Xlsx.worksheet) (row col : N) : option json :=
  option_map Xlsx.value (Xlsx.cells ws row col).

(** The values a cell keeps as they are. *)
Definition kept_as_is (v : json) : bool :=
  match v with
  | JStr s => (length s <=? Xlsx.cell_limit)%nat
              && negb (existsb Xlsx.illegal s)
  | JList _ | JDict _ => false
  | _ => true
  end.

Lemma bind_value_kept v : kept_as_is v = true -> Xlsx.bind_value v = Ok v.
Proof.
  destruct v; unfold kept_as_is, Xlsx.bind_value;
    try reflexivity; try discriminate.
  generalize Xlsx.cell_limit; intros limit H.
  apply andb_prop in H; destruct H as [Hl Hi].
  apply Nat.leb_le in Hl. rewrite (firstn_all2 s Hl).
  apply negb_true_iff in Hi; rewrite Hi; reflexivity.
Qed.

(** [ws'] is [ws] with the value [v] placed at one position. *)
Definition placed (ws ws' : Xlsx.worksheet) (row col : N) (v : json) : Prop :=
  cell_value ws' row col = Some v
  /\ (forall r c, r <> row \/ c <> col ->
        Xlsx.cells ws' r c = Xlsx.cells ws r c)
  /\ Xlsx.max_row ws' = N.max (Xlsx.max_row ws) row
  /\ Xlsx.max_column ws' = N.max (Xlsx.max_column ws) col.

Lemma put_placed ws row col v f fl a b :
  kept_as_is v = true ->
  exists ws', Xlsx.put ws row col v f fl a b = Ok ws'
              /\ placed ws ws' row col v.
Proof.
  intros Hk; unfold Xlsx.put; rewrite (bind_value_kept v Hk); cbn [bind].
  eexists; split; [reflexivity|].
  unfold placed, cell_value; cbn [Xlsx.cells Xlsx.max_row Xlsx.max_column].
  rewrite !N.eqb_refl; cbn [andb option_map Xlsx.value].
  repeat split.
  intros r c [Hr | Hc].
  - apply N.eqb_neq in Hr; rewrite Hr; reflexivity.
  - apply N.eqb_neq in Hc; rewrite Hc, andb_false_r; reflexivity.
Qed.

(** [ws'] is [ws] with the values [vs] placed in [row] from column
    [start] on. *)
Definition filled (ws ws' : Xlsx.worksheet) (row start : N) (vs : list json)
  : Prop :=
  (forall k v, nth_error vs k = Some v ->
     cell_value ws' row (start + N.of_nat k) = Some v)
  /\ (forall r c, r <> row \/ c < start \/ start + N.of_nat (length vs) <= c ->
        Xlsx.cells ws' r c = Xlsx.cells ws r c)
  /\ Xlsx.max_row ws'
     = match vs with [] => Xlsx.max_row ws | _ => N.max (Xlsx.max_row ws) row end
  /\ Xlsx.max_column ws'
     = match vs with
       | [] => Xlsx.max_column ws
       | _ => N.max (Xlsx.max_column ws) (start + N.of_nat (length vs) - 1)
       end.

(** A loop over the columns of one row whose step places one value. *)
Lemma for_each_filled {A : Type} (step : Xlsx.worksheet -> N * A ->
                                         result Xlsx.worksheet)
  (val : A -> json) (row : N) (l : list A) :
  (forall ws c x, In x l ->
     exists ws', step ws (c, x) = Ok ws' /\ placed ws ws' row c (val x)) ->
  forall start ws,
    exists ws', for_each (Py.enumerate start l) step ws = Ok ws'
                /\ filled ws ws' row start (map val l).
Proof.
  induction l as [|x l IH]; intros Hstep start ws.
  - exists ws; split; [reflexivity|].
    unfold filled; simpl; repeat split; auto.
    intros [|k] v H; discriminate.
  - destruct (Hstep ws start x (or_introl eq_refl))
      as (ws1 & E1 & Hv & Hother & Hrow & Hcol).
    destruct (IH (fun ws c y Hy => Hstep ws c y (or_intror Hy))
                (N.succ start) ws1) as (ws2 & E2 & Hvs & Hrest & Hrow2 & Hcol2).
    exists ws2.
    split; [cbn [Py.enumerate for_each]; rewrite E1; exact E2|].
    unfold filled; cbn [map length]. repeat split.
    + intros [|k] v H; simpl in H.
      * injection H as <-. rewrite N.add_0_r.
        unfold cell_value; rewrite Hrest by lia. exact Hv.
      * replace (start + N.of_nat (S k)) with (N.succ start + N.of_nat k)
          by lia.
        apply Hvs; exact H.
    + intros r c H. rewrite Hrest by lia. apply Hother; lia.
    + rewrite Hrow2, Hrow. destruct (map val l); lia.
    + rewrite Hcol2, Hcol. destruct (map val l) as [|w t] eqn:Em.
      * simpl; f_equal; lia.
      * simpl length in *. lia.
Qed.

(** The values of the row [make_xlsx] writes for the object [d] at
    position [i], when its distances are the strings [parts]. *)
Definition row_values (i : N) (d : list (pystr * json)) (parts : list pystr)
  : list json :=
  JInt (Z.of_N i) :: map (field d) text_columns
  ++ [JStr (Str.join (py ", ") parts)].

(** The strings [", ".join(reg.get("distances", []))] joins. *)
Definition distance_parts (d : list (pystr * json)) : result (list pystr) :=
  Py.iter (match Dict.get d (py "distances") with
           | Some v => v
           | None => JList []
           end) >>= Py.strings.

(** What a cell keeps of a value it takes: text is cut to its first
    32767 characters, any other value is kept as it is. *)
Definition cut (v : json) : json :=
  match v with
  | JStr s => JStr (firstn Xlsx.cell_limit s)
  | _ => v
  end.

(** A registration the report can show: an object whose distances are
    strings that can be iterated, and whose displayed values the cells
    take. *)
Definition reportable (reg : json) : Prop :=
  exists d parts,
    reg = JDict d
    /\ distance_parts d = Ok parts
    /\ forall i v, In v (row_values i d parts) ->
         Xlsx.bind_value v = Ok (cut v).

Lemma bind_value_cut v w : Xlsx.bind_value v = Ok w -> w = cut v.
Proof.
  destruct v; cbn [Xlsx.bind_value cut]; try congruence.
  destruct (existsb Xlsx.illegal _); congruence.
Qed.

Lemma put_cut ws row col v f fl a b :
  Xlsx.bind_value v = Ok (cut v) ->
  exists ws', Xlsx.put ws row col v f fl a b = Ok ws'
              /\ placed ws ws' row col (cut v).
Proof.
  intros Hk; unfold Xlsx.put; rewrite Hk; cbn [bind].
  eexists; split; [reflexivity|].
  unfold placed, cell_value; cbn [Xlsx.cells Xlsx.max_row Xlsx.max_column].
  rewrite !N.eqb_refl; cbn [andb option_map Xlsx.value].
  repeat split.
  intros r c [Hr | Hc].
  - apply N.eqb_neq in Hr; rewrite Hr; reflexivity.
  - apply N.eqb_neq in Hc; rewrite Hc, andb_false_r; reflexivity.
Qed.

Lemma map_each_field d keys :
  map_each (fun k => Py.get (JDict d) k (JStr [])) keys
  = Ok (map (field d) keys).
Proof.
  induction keys as [|k keys IH]; [reflexivity|].
  cbn [map_each map]; rewrite IH; reflexivity.
Qed.

Lemma row_data_values i d parts :
  distance_parts d = Ok parts ->
  row_data i (JDict d) = Ok (row_values i d parts).
Proof.
  unfold distance_parts.
  intros H; unfold row_data; rewrite map_each_field; cbn [bind Py.get].
  unfold Py.join. apply bind_Ok in H; destruct H as (items & Hi & Hs).
  rewrite Hi; cbn [bind]; rewrite Hs; reflexivity.
Qed.

Lemma write_row_filled ws i reg :
  reportable reg ->
  exists d parts ws',
    reg = JDict d
    /\ distance_parts d = Ok parts
    /\ write_row ws (i, reg) = Ok ws'
    /\ filled ws ws' (i + 1) 1 (map cut (row_values i d parts)).
Proof.
  intros (d & parts & -> & Hparts & Hkept).
  pose proof (row_data_values i d parts Hparts) as Hd.
  destruct (for_each_filled (write_cell i (i + 1)) cut (i + 1)
              (row_values i d parts)) with (start := 1) (ws := ws)
    as (ws' & E & Hf).
  { intros ws0 c x Hx. unfold write_cell. apply put_cut.
    exact (Hkept i x Hx). }
  exists d, parts, ws'.
  split; [reflexivity|]. split; [exact Hparts|].
  split; [unfold write_row; rewrite Hd; exact E | exact Hf].
Qed.

Lemma row_values_length i d parts : length (row_values i d parts) = 14%nat.
Proof.
  unfold row_values; cbn [length]; rewrite length_app, length_map; reflexivity.
Qed.

(** The loop over the registrations: row [i + 1] receives the values of
    the registration at position [i], counted from [start]. *)
Lemma rows_filled regs :
  Forall reportable regs ->
  forall start ws,
    exists ws',
      for_each (Py.enumerate start regs) write_row ws = Ok ws'
      /\ (forall k reg, nth_error regs k = Some reg ->
            exists d parts,
              reg = JDict d
              /\ distance_parts d = Ok parts
              /\ forall j v,
                   nth_error
                     (map cut (row_values (start + N.of_nat k) d parts)) j
                   = Some v ->
                   cell_value ws' (start + N.of_nat k + 1) (1 + N.of_nat j)
                   = Some v)
      /\ (forall r c, r <= start \/ start + N.of_nat (length regs) < r
                      \/ c < 1 \/ 14 < c ->
            Xlsx.cells ws' r c = Xlsx.cells ws r c)
      /\ Xlsx.max_row ws'
         = match regs with
           | [] => Xlsx.max_row ws
           | _ => N.max (Xlsx.max_row ws) (start + N.of_nat (length regs))
           end
      /\ Xlsx.max_column ws'
         = match regs with
           | [] => Xlsx.max_column ws
           | _ => N.max (Xlsx.max_column ws) 14
           end.
Proof.
  induction 1 as [|reg regs Hreg _ IH]; intros start ws.
  - exists ws; split; [reflexivity|]. repeat split; auto.
    intros [|k] reg H; discriminate.
  - destruct (write_row_filled ws start reg Hreg)
      as (d & parts & ws1 & -> & Hd & E1 & Hv & Hother & Hrow & Hcol).
    destruct (IH (N.succ start) ws1) as (ws2 & E2 & Hvs & Hrest & Hrow2 & Hcol2).
    assert (Hlen : length (map cut (row_values start d parts)) = 14%nat)
      by (rewrite length_map; apply row_values_length).
    exists ws2.
    split; [cbn [Py.enumerate for_each]; rewrite E1; exact E2|].
    cbn [length]. repeat split.
    + intros [|k] reg H; simpl in H.
      * injection H as <-. rewrite N.add_0_r.
        exists d, parts. repeat split; try assumption.
        intros j v Hj. unfold cell_value. rewrite Hrest by lia.
        apply Hv; exact Hj.
      * replace (start + N.of_nat (S k)) with (N.succ start + N.of_nat k)
          by lia.
        apply Hvs; exact H.
    + intros r c H. rewrite Hrest by lia. apply Hother.
      rewrite Hlen. lia.
    + rewrite Hrow2, Hrow. unfold row_values. cbn [map].
      destruct regs; cbn [length]; rewrite ?Nat2N.inj_succ; lia.
    + assert (Hc1 : Xlsx.max_column ws1 = N.max (Xlsx.max_column ws) 14)
        by (rewrite Hcol, Hlen; unfold row_values; reflexivity).
      rewrite Hcol2, Hc1. destruct regs; lia.
Qed.

Lemma header_titles_kept :
  forallb (fun x => kept_as_is (JStr (fst x))) (combine headers col_widths)
  = true.
Proof. vm_compute; reflexivity. Qed.

Lemma write_header_placed ws c (x : pystr * N) :
  In x (combine headers col_widths) ->
  exists ws', write_header ws (c, x) = Ok ws'
              /\ placed ws ws' 1 c (JStr (fst x)).
Proof.
  intros Hx. pose proof header_titles_kept as Hk.
  rewrite forallb_forall in Hk. specialize (Hk x Hx).
  destruct x as [title width]; unfold write_header.
  destruct (put_placed ws 1 c (JStr title) header_font (Some header_fill)
              header_align thin_border Hk) as (ws1 & E & Hp).
  rewrite E; cbn [bind]. eexists; split; [reflexivity|]. exact Hp.
Qed.

Lemma nth_error_map_fst_combine {A B : Type} (l : list A) (l' : list B) k x :
  length l = length l' ->
  nth_error l k = Some x ->
  nth_error (map fst (combine l l')) k = Some x.
Proof.
  revert l' k; induction l as [|a l IH]; intros [|b l'] [|k] Hlen H;
    simpl in *; try discriminate; auto.
Qed.

(** C8: the code breaks the claim on a registration of its own.  A
    submission whose surname holds the control character U+0001 is
    accepted with status 200 and persisted; it is a registration with
    sanitized text in every field, and the listing serves it with
    status 200.  The report generator raises [IllegalCharacterError] on
    the stored sequence, and so does the export operation: no
    spreadsheet is produced, where the claim promises two rows. *)
Lemma control_character_breaks_report :
  let raw := Sample.text
      "{'surname': 'A\u0001B', 'firstname': 'B', 'birthdate': 'C',
        'gender': 'М', 'country': 'D', 'city': 'E', 'team': 'F',
        'boat_class': 'К-1', 'phone': 'G'}" in
  let export := {| path := py "/api/export";
                   admin_token := Some (py "changeme"); raw := [] |} in
  let listing := {| path := py "/api";
                    admin_token := Some (py "changeme"); raw := [] |} in
  exists r fs' reg listed,
    do_POST Sample.rt (Sample.quiet 7) (Sample.submit raw) Sample.no_files
    = (Sent r, fs')
    /\ status r = 200
    /\ read_registrations (Sample.quiet 0) fs' = Ok [reg]
    /\ Py.getitem reg (py "surname") = Ok (JStr [65; 1; 66])
    /\ fst (do_GET Sample.rt (Sample.quiet 0) listing fs') = Sent listed
    /\ status listed = 200
    /\ make_xlsx [reg] = Raise IllegalCharacterError
    /\ fst (do_POST Sample.rt (Sample.quiet 0) export fs')
       = Crashed IllegalCharacterError.
Proof.
  cbv zeta. do 4 eexists.
  split; [vm_compute; reflexivity|].
  split; [reflexivity|].
  split; [vm_compute; reflexivity|].
  split; [vm_compute; reflexivity|].
  split; [vm_compute; reflexivity|].
  split; [reflexivity|].
  split; vm_compute; reflexivity.
Qed.

(** The sheet of registrations the report can show: the header row, then
    one row for each registration, in their order. *)
Lemma sheet_of_reportable (registrations : list json) :
  Forall reportable registrations ->
  exists ws,
    make_xlsx registrations = Ok ws
    /\ Xlsx.max_row ws = N.of_nat (length registrations) + 1
    /\ Xlsx.max_column ws = 14
    /\ length headers = 14%nat
    /\ (forall k title, nth_error headers k = Some title ->
          cell_value ws 1 (1 + N.of_nat k) = Some (JStr title))
    /\ (forall k reg, nth_error registrations k = Some reg ->
          exists d parts,
            reg = JDict d
            /\ distance_parts d = Ok parts
            /\ cell_value ws (N.of_nat k + 2) 1
               = Some (JInt (Z.of_nat k + 1))
            /\ (forall j key, nth_error text_columns j = Some key ->
                  cell_value ws (N.of_nat k + 2) (2 + N.of_nat j)
                  = Some (cut (field d key)))
            /\ cell_value ws (N.of_nat k + 2) 14
               = Some (cut (JStr (Str.join (py ", ") parts))))
    /\ (forall r c, Xlsx.cells ws r c <> None ->
          1 <= r <= N.of_nat (length registrations) + 1 /\ 1 <= c <= 14).
Proof.
  intros Hregs. unfold make_xlsx.
  set (ws0 := Xlsx.set_title Xlsx.empty (py "Заявки")).
  destruct (for_each_filled write_header (fun x => JStr (fst x)) 1
              (combine headers col_widths)
              (fun ws c x Hx => write_header_placed ws c x Hx) 1 ws0)
    as (ws1 & E1 & Hh & Hhrest & Hhrow & Hhcol).
  rewrite E1; cbn [bind].
  set (ws1' := Xlsx.set_freeze_panes ws1 (py "A2")).
  destruct (rows_filled registrations Hregs 1 ws1')
    as (ws2 & E2 & Hv & Hrest & Hrow & Hcol).
  rewrite E2; cbn [bind].
  eexists; split; [reflexivity|].
  unfold cell_value;
    cbn [Xlsx.set_auto_filter Xlsx.cells Xlsx.max_row Xlsx.max_column].
  assert (Hr1 : Xlsx.max_row ws1' = 1)
    by (unfold ws1'; cbn [Xlsx.set_freeze_panes Xlsx.max_row];
        rewrite Hhrow; reflexivity).
  assert (Hc1 : Xlsx.max_column ws1' = 14)
    by (unfold ws1'; cbn [Xlsx.set_freeze_panes Xlsx.max_column];
        rewrite Hhcol; reflexivity).
  assert (Hcells1 : forall r c, Xlsx.cells ws1' r c = Xlsx.cells ws1 r c)
    by reflexivity.
  split; [|split; [|split; [reflexivity|split; [|split]]]].
  - rewrite Hrow, Hr1. destruct registrations; cbn [length];
      rewrite ?Nat2N.inj_succ; lia.
  - rewrite Hcol, Hc1. destruct registrations; reflexivity.
  - intros k title Hk. rewrite Hrest, Hcells1 by lia.
    apply (Hh k (JStr title)).
    rewrite <- map_map, nth_error_map.
    rewrite (nth_error_map_fst_combine headers col_widths k title eq_refl Hk).
    reflexivity.
  - intros k reg Hk.
    destruct (Hv k reg Hk) as (d & parts & -> & Hparts & Hcells).
    exists d, parts. split; [reflexivity|]. split; [exact Hparts|].
    replace (1 + N.of_nat k + 1) with (N.of_nat k + 2) in Hcells by lia.
    split; [|split].
    + replace (Z.of_nat k + 1)%Z with (Z.of_N (1 + N.of_nat k)) by lia.
      apply (Hcells 0%nat); reflexivity.
    + intros j key Hj.
      replace (2 + N.of_nat j) with (1 + N.of_nat (S j)) by lia.
      apply Hcells. unfold row_values; cbn [map nth_error].
      rewrite map_app, nth_error_app1
        by (rewrite !length_map; apply nth_error_Some; congruence).
      rewrite !nth_error_map, Hj; reflexivity.
    + apply (Hcells 13%nat); reflexivity.
  - intros r c Hne.
    assert (Hempty : forall r c, r <> 1 \/ c < 1 \/ 15 <= c ->
              Xlsx.cells ws1' r c = None).
    { intros r' c' H. rewrite Hcells1, Hhrest; [reflexivity|exact H]. }
    destruct (N.leb_spec r 1) as [Hle|Hgt].
    + rewrite Hrest in Hne by lia.
      destruct (N.eq_dec r 1) as [->|Hr];
        [|rewrite Hempty in Hne by lia; exfalso; apply Hne; reflexivity].
      destruct (N.ltb_spec c 1);
        [rewrite Hempty in Hne by lia; exfalso; apply Hne; reflexivity|].
      destruct (N.leb_spec 15 c);
        [rewrite Hempty in Hne by lia; exfalso; apply Hne; reflexivity|].
      lia.
    + destruct (N.ltb_spec (1 + N.of_nat (length registrations)) r)
        as [Hbig|Hin];
        [rewrite Hrest, Hempty in Hne by lia; exfalso; apply Hne; reflexivity|].
      destruct (N.ltb_spec c 1);
        [rewrite Hrest, Hempty in Hne by lia; exfalso; apply Hne; reflexivity|].
      destruct (N.ltb_spec 14 c);
        [rewrite Hrest, Hempty in Hne by lia; exfalso; apply Hne; reflexivity|].
      lia.
Qed.

(** ** The theorems at concrete inputs *)

Module Witness.

(** The entry persisted for [Sample.ivanov] when the identifier drawn is
    [uuid]. *)
Definition ivanov_entry (uuid : N) : json :=
  JDict
    [(py "id", JStr (new_id (Sample.quiet uuid)));
     (py "timestamp", JStr (py "2026-03-07 12:00:05"));
     (py "surname", JStr (py "&lt;b&gt;Иванов&lt;/b&gt;"));
     (py "firstname", JStr (py "Иван"));
     (py "patronymic", JStr []);
     (py "birthdate", JStr (py "1980-01-01"));
     (py "gender", JStr (py "М"));
     (py "country", JStr (py "Россия"));
     (py "city", JStr (py "Рязань"));
     (py "rank", JStr []);
     (py "team", JStr (py "Ока"));
     (py "boat_class", JStr (py "К-1"));
     (py "phone", JStr (py "+7 900 000-00-00"));
     (py "distances", JList [JStr (py "200 м")])].

Lemma validate_ivanov :
  validate Sample.rt (Sample.quiet 7) Sample.ivanov
  = Ok (Accept (ivanov_entry 7)).
Proof. vm_compute; reflexivity. Defined.

(** The object [Sample.ivanov] parses to. *)
Definition ivanov_object : list (pystr * json) :=
  Eval vm_compute in
    match Decoder.loads Sample.ivanov with
    | Some (JDict d) => d
    | _ => []
    end.

Definition ivanov_distances : list json :=
  [JStr (py "200 м"); JStr (py "bogus")].

End Witness.

(** The validator on [Sample.ivanov]: nothing to reject, so the payload
    is accepted. *)
Lemma validator_rejects_iff_witness :
  exists entry,
    validate Sample.rt (Sample.quiet 7) Sample.ivanov = Ok (Accept entry).
Proof.
  assert (Hl : Decoder.loads Sample.ivanov
               = Some (JDict Witness.ivanov_object))
    by (vm_compute; reflexivity).
  assert (Hs : strings_where_required Witness.ivanov_object).
  { intros f v Hf Hv.
    repeat (destruct Hf as [<-|Hf];
            [vm_compute in Hv; injection Hv as <-; eexists; reflexivity|]).
    destruct Hf. }
  assert (Hg : Py.get (JDict Witness.ivanov_object) (py "distances") (JList [])
               = Ok (JList Witness.ivanov_distances))
    by (vm_compute; reflexivity).
  assert (Hh : Forall hashable Witness.ivanov_distances)
    by (repeat constructor).
  destruct (validator_rejects_iff Sample.rt (Sample.quiet 7) Sample.ivanov
              Witness.ivanov_object (JList Witness.ivanov_distances)
              Witness.ivanov_distances Hl Hs Hg eq_refl Hh) as (_ & _ & H).
  vm_compute rejection_of in H. exact H.
Defined.

(** [Sample.ivanov] names a known distance and an unknown one: only the
    known one is persisted. *)
Lemma persisted_distances_filtered_witness :
  Py.getitem (Witness.ivanov_entry 7) (py "distances")
  = Ok (JList [JStr (py "200 м")]).
Proof.
  destruct (persisted_distances_filtered Sample.rt (Sample.quiet 7)
              Sample.ivanov _ Witness.validate_ivanov)
    as (d & given & cands & Hl & Hg & Hi & He & _).
  vm_compute in Hl; injection Hl as Hd; subst d.
  vm_compute in Hg; injection Hg as Hd; subst given.
  vm_compute in Hi; injection Hi as Hd; subst cands.
  rewrite He; vm_compute; reflexivity.
Defined.

(** The surname of [Sample.ivanov], with its markup and its surrounding
    blanks, is stored trimmed and escaped. *)
Lemma free_text_sanitized_witness :
  Py.getitem (Witness.ivanov_entry 7) (py "surname")
  = Ok (JStr (py "&lt;b&gt;Иванов&lt;/b&gt;")).
Proof.
  destruct (free_text_sanitized Sample.rt (Sample.quiet 7) Sample.ivanov _
              Witness.validate_ivanov) as (d & Hl & Hall & _).
  vm_compute in Hl; injection Hl as Hd; subst d.
  rewrite (Hall (py "surname")) by (left; reflexivity).
  vm_compute; reflexivity.
Defined.

(** A submission to a store that holds one entry: loading afterwards
    yields that entry followed by the new one, whose identifier comes
    from the UUID drawn and differs from the stored one. *)
Lemma append_then_load_witness :
  let fs := Sample.stored (Encoder.dumps (JList [Witness.ivanov_entry 7])) in
  let o := Sample.quiet 0x0123456789ab40008000000000000000 in
  exists entry,
    read_registrations (Sample.quiet 1)
      (snd (do_POST Sample.rt o (Sample.submit Sample.ivanov) fs))
    = Ok [Witness.ivanov_entry 7; entry]
    /\ Py.getitem entry (py "id") = Ok (JStr (py "reg_0123456789ab"))
    /\ Py.getitem entry (py "id")
       <> Py.getitem (Witness.ivanov_entry 7) (py "id").
Proof.
  cbv zeta.
  set (fs := Sample.stored (Encoder.dumps (JList [Witness.ivanov_entry 7]))).
  set (o := Sample.quiet 0x0123456789ab40008000000000000000).
  destruct (do_POST Sample.rt o (Sample.submit Sample.ivanov) fs)
    as [out fs'] eqn:E.
  assert (Hout : exists r, out = Sent r /\ status r = 200).
  { pose proof (f_equal fst E) as H. cbn [fst] in H. rewrite <- H.
    vm_compute. eexists; split; reflexivity. }
  destruct Hout as (r & -> & Hs).
  destruct (append_then_load Sample.rt o (Sample.quiet 1)
              (Sample.submit Sample.ivanov) fs fs' r
              [Witness.ivanov_entry 7] eq_refl
              ltac:(vm_compute; reflexivity) E Hs eq_refl
              ltac:(constructor; [|constructor];
                    apply float_free_reads_back; vm_compute; reflexivity))
    as (d & cands & Hl & Hc & Hid & _ & Hread & Hfresh).
  vm_compute in Hl; injection Hl as Hd; subst d.
  vm_compute in Hc; injection Hc as Hd; subst cands.
  eexists. cbn [snd]. split; [exact Hread|]. split.
  - rewrite Hid. vm_compute; reflexivity.
  - intros Heq.
    apply (Hfresh (Witness.ivanov_entry 7) (Sample.quiet 7)) in Heq;
      [vm_compute in Heq; discriminate Heq | left; reflexivity | reflexivity].
Defined.

(** Two submissions with UUIDs that differ in their first digits: both
    are kept, under different identifiers. *)
Lemma submissions_all_kept_witness :
  let reqs :=
    [(POST, Sample.quiet 0x123456789abc40008000000000000000,
      Sample.submit Sample.ivanov);
     (POST, Sample.quiet 0xfedcba98765440008000000000000001,
      Sample.submit Sample.ivanov)] in
  exists entries,
    read_registrations (Sample.quiet 0)
      (snd (serve Sample.rt reqs Sample.no_files)) = Ok entries
    /\ length entries = 2%nat
    /\ NoDup (map (fun e => Py.getitem e (py "id")) entries).
Proof.
  cbv zeta.
  match goal with
  | |- context [serve Sample.rt ?l Sample.no_files] => set (reqs := l)
  end.
  assert (Hsub : Forall is_submission reqs)
    by (repeat constructor).
  assert (Hok : Forall created (fst (serve Sample.rt reqs Sample.no_files)))
    by (vm_compute; repeat constructor; eexists; split; reflexivity).
  destruct (submissions_all_kept Sample.rt reqs Sample.no_files
              (Sample.quiet 0) eq_refl Hsub Hok eq_refl)
    as (entries & Hread & Hlen & _ & _ & Hnd).
  exists entries. split; [exact Hread|]. split; [exact Hlen|].
  apply Hnd. vm_compute.
  repeat constructor; simpl; intuition discriminate.
Defined.

(** A store that holds an object instead of a list is loaded as the
    empty sequence. *)
Lemma read_registrations_cases_witness :
  read_registrations (Sample.quiet 0) (Sample.stored (py "{}")) = Ok [].
Proof.
  destruct (read_registrations_cases (Sample.quiet 0)
              (Sample.stored (py "{}"))) as (_ & H).
  destruct (H (py "{}") eq_refl) as (_ & H').
  destruct (H' eq_refl) as (_ & Hparse).
  exact (Hparse ltac:(discriminate)).
Defined.

(** A wrong token gets the same answer from a store with one
    registration and from an empty one; the right token gets the list. *)
Lemma listing_and_export_authorization_witness :
  let listing t := {| path := py "/api"; admin_token := Some t;
                      raw := [] |} in
  let one := Sample.stored (Encoder.dumps (JList [Witness.ivanov_entry 7])) in
  fst (do_GET Sample.rt (Sample.quiet 0) (listing (py "guess")) one)
  = fst (do_GET Sample.rt (Sample.quiet 0) (listing (py "guess"))
           Sample.no_files)
  /\ fst (do_GET Sample.rt (Sample.quiet 0) (listing (py "changeme")) one)
     = send_json
         (JDict [(py "success", JBool true); (py "count", JInt 1);
                 (py "data", JList [Witness.ivanov_entry 7])]) 200.
Proof.
  cbv zeta.
  set (one := Sample.stored (Encoder.dumps (JList [Witness.ivanov_entry 7]))).
  split.
  - destruct (listing_and_export_authorization Sample.rt
                {| path := py "/api"; admin_token := Some (py "guess");
                   raw := [] |}
                (Sample.quiet 0) (Sample.quiet 0) one Sample.no_files)
      as (Hwrong & _).
    destruct (Hwrong ltac:(vm_compute; discriminate)) as (Hlist & _).
    destruct (Hlist eq_refl) as (H1 & H2). rewrite H1, H2. reflexivity.
  - destruct (listing_and_export_authorization Sample.rt
                {| path := py "/api"; admin_token := Some (py "changeme");
                   raw := [] |}
                (Sample.quiet 0) (Sample.quiet 0) one Sample.no_files)
      as (_ & Hright).
    apply (Hright eq_refl eq_refl [Witness.ivanov_entry 7]).
    vm_compute; reflexivity.
Defined.

(** A save that meets a full disk after three characters leaves those
    three characters in the canonical file. *)
Lemma save_registrations_in_place_witness :
  let o := {| uuid4 := 0; now := Sample.noon; open_read_fails := false;
              makedirs_fails := false; open_write_fails := false;
              disk_room := Some 3%nat |} in
  exists kept rest,
    snd (save_registrations o [Witness.ivanov_entry 7] Sample.no_files)
      DATA_FILE = Some kept
    /\ Encoder.dumps (JList [Witness.ivanov_entry 7]) = kept ++ rest
    /\ rest <> [].
Proof.
  cbv zeta.
  match goal with
  | |- context [save_registrations ?x _ _] => set (o := x)
  end.
  destruct (save_registrations_in_place o [Witness.ivanov_entry 7]
              Sample.no_files) as (_ & _ & Hfail).
  destruct (Hfail OSError ltac:(vm_compute; reflexivity))
    as [(_ & [H | H]) | (_ & _ & kept & rest & H)].
  - discriminate H.
  - discriminate H.
  - exists kept, rest. exact H.
Defined.

(** The checks on the object of [Sample.ivanov] do not raise. *)
Lemma ill_typed_payload_crashes_witness :
  exists answer, checks (JDict Witness.ivanov_object) = Ok answer.
Proof.
  destruct ill_typed_payload_crashes as (_ & _ & H).
  apply H. intros f v Hf Hv.
  repeat (destruct Hf as [<-|Hf];
          [vm_compute in Hv; injection Hv as <-; eexists; reflexivity|]).
  destruct Hf.
Defined.

(** * Further properties *)

(** ** What the handlers answer *)

Definition json_type : pystr := py "application/json; charset=utf-8".

(** The answer [send_json] sends for [data] when its text can be
    encoded. *)
Definition json_answer (data : json) (st : N) : response :=
  {| status := st; content_type := json_type;
     body := Text (Encoder.dumps data) |}.

Lemma send_json_sent data st r :
  send_json data st = Sent r -> r = json_answer data st.
Proof.
  unfold send_json, json_answer, json_type.
  destruct (Py.encodable _); [|discriminate].
  intros H; injection H as <-; reflexivity.
Qed.

Lemma send_json_encodable data st :
  Py.encodable (Encoder.dumps data) = true ->
  send_json data st = Sent (json_answer data st).
Proof.
  intros H; unfold send_json, json_answer, json_type; rewrite H; reflexivity.
Qed.

(** The object of an error answer. *)
Definition error_object (message : pystr) : json :=
  JDict [(py "success", JBool false); (py "error", JStr message)].

Lemma checks_answer body answer :
  checks body = Ok (Some answer) ->
  exists message, answer = send_json (error_object message) 400.
Proof.
  unfold checks, error_response; intros H.
  bind_inv H. destruct a as [f|].
  - inversion H; subst; eexists; reflexivity.
  - bind_inv H. bind_inv H. destruct (negb a0).
    + inversion H; subst; eexists; reflexivity.
    + bind_inv H. bind_inv H. destruct (negb a2); [|discriminate].
      inversion H; subst; eexists; reflexivity.
Qed.

Lemma validate_reject_answer rt o raw answer :
  validate rt o raw = Ok (Reject answer) ->
  exists message, answer = send_json (error_object message) 400.
Proof.
  unfold validate, error_response; intros H.
  destruct (Decoder.loads raw) as [body|].
  - bind_inv H. destruct a as [ans|].
    + inversion H; subst. eapply checks_answer; eassumption.
    + bind_inv H. bind_inv H. bind_inv H. bind_inv H. discriminate.
  - inversion H; subst; eexists; reflexivity.
Qed.

(** A JSON answer whose [success] member tells whether the status is
    200, and which carries a message when it is not. *)
Definition flagged (r : response) : Prop :=
  exists d,
    body r = Text (Encoder.dumps (JDict d))
    /\ content_type r = json_type
    /\ Dict.get d (py "success") = Some (JBool (status r =? 200))
    /\ (status r <> 200 ->
        exists message, Dict.get d (py "error") = Some (JStr message)).

Lemma error_answer_flagged message st r :
  st <> 200 -> send_json (error_object message) st = Sent r -> flagged r.
Proof.
  intros Hst H. apply send_json_sent in H; subst r.
  exists [(py "success", JBool false); (py "error", JStr message)].
  cbn [body content_type status json_answer].
  apply N.eqb_neq in Hst; rewrite Hst.
  repeat split. intros _; exists message; reflexivity.
Qed.

Lemma success_answer_flagged members r :
  send_json (JDict ((py "success", JBool true) :: members)) 200 = Sent r ->
  flagged r.
Proof.
  intros H. apply send_json_sent in H; subst r.
  eexists; cbn [body content_type status json_answer].
  repeat split. intros Hne; exfalso; apply Hne; reflexivity.
Qed.

(** X1: every answer of the two handlers has status 200, 400, 401 or
    404.  It is either the workbook of the export, sent with status 200
    and the spreadsheet content type, or a JSON object whose [success]
    member is true exactly when the status is 200 and which carries an
    [error] text otherwise. *)
Theorem answers_carry_success_flag
  (rt : runtime) (c : command) (o : oracle) (req : request)
  (fs fs' : filesystem) (r : response) :
  handle rt c o req fs = (Sent r, fs') ->
  In (status r) [200; 400; 401; 404]
  /\ ((exists ws, body r = Workbook ws /\ status r = 200
                  /\ content_type r = xlsx_type)
      \/ flagged r).
Proof.
  assert (Herr : forall message st out,
             In st [400; 401; 404] ->
             send_json (error_object message) st = Sent out ->
             In (status out) [200; 400; 401; 404] /\ flagged out).
  { intros message st out Hst Hs. split.
    - rewrite (send_json_status _ _ _ Hs). right; exact Hst.
    - apply (error_answer_flagged message st); [|exact Hs].
      simpl in Hst; intuition (subst; discriminate). }
  assert (Hok : forall members out,
             send_json (JDict ((py "success", JBool true) :: members)) 200
             = Sent out ->
             In (status out) [200; 400; 401; 404] /\ flagged out).
  { intros members out Hs. split.
    - rewrite (send_json_status _ _ _ Hs). left; reflexivity.
    - eapply success_answer_flagged; exact Hs. }
  destruct c; cbn [handle]; intros H.
  - unfold do_GET in H.
    destruct (Str.eqb (path req) (py "/api")); [|discriminate].
    destruct (negb (_check_admin_token rt req)).
    + apply (f_equal fst) in H; cbn [fst] in H.
      destruct (Herr _ 401 r (or_intror (or_introl eq_refl)) H); auto.
    + destruct (read_registrations o fs); [|discriminate].
      apply (f_equal fst) in H; cbn [fst] in H.
      destruct (Hok _ r H); auto.
  - unfold do_POST in H.
    destruct (Str.eqb (path req) (py "/api/export")).
    + destruct (negb (_check_admin_token rt req)).
      * apply (f_equal fst) in H; cbn [fst] in H.
        destruct (Herr _ 401 r (or_intror (or_introl eq_refl)) H); auto.
      * destruct (read_registrations o fs); [|discriminate].
        destruct (make_xlsx a); [|discriminate].
        injection H as <- _. cbn [status body content_type].
        split; [left; reflexivity|].
        left; eexists; repeat split.
    + destruct (negb (Str.eqb (path req) (py "/api"))).
      * apply (f_equal fst) in H; cbn [fst] in H.
        destruct (Herr _ 404 r
                    (or_intror (or_intror (or_introl eq_refl))) H); auto.
      * destruct (validate rt o (raw req)) as [[answer|entry]|e] eqn:Ev;
          [| |discriminate].
        -- apply (f_equal fst) in H; cbn [fst] in H. subst answer.
           destruct (validate_reject_answer _ _ _ _ Ev) as (message & Hm).
           destruct (Herr message 400 r (or_introl eq_refl)); auto.
        -- destruct (read_registrations o fs); [|discriminate].
           destruct (save_registrations o (a ++ [entry]) fs) as [[[]|e] fs1];
             [|discriminate].
           destruct (Py.getitem entry (py "id")); [|discriminate].
           apply (f_equal fst) in H; cbn [fst] in H.
           destruct (Hok _ r H); auto.
Qed.

(** Whether a payload is rejected, and with which answer, depends on the
    payload alone. *)
Lemma validate_reject_any rt o rt' o' raw answer :
  validate rt o raw = Ok (Reject answer) ->
  validate rt' o' raw = Ok (Reject answer).
Proof.
  unfold validate. destruct (Decoder.loads raw) as [body|]; [|auto].
  destruct (checks body) as [[ans|]|e]; cbn [bind]; auto.
  intros H. bind_inv H. bind_inv H. bind_inv H. bind_inv H. discriminate.
Qed.

(** X3: the checks run before the store is opened.  A submission that
    is rejected once is rejected with the same answer whatever the
    store holds, whatever the clock and the identifier drawn, and even
    when the store cannot be read; no file is touched. *)
Theorem rejection_ignores_store
  (rt rt' : runtime) (o o' : oracle) (req : request) (fs : filesystem)
  (answer : outcome) :
  path req = py "/api" ->
  validate rt o (raw req) = Ok (Reject answer) ->
  do_POST rt' o' req fs = (answer, fs).
Proof.
  intros Hp Hv. rewrite (do_POST_submit rt' o' req fs Hp).
  rewrite (validate_reject_any rt o rt' o' _ _ Hv). reflexivity.
Qed.

(** ** Which files change *)

Lemma save_registrations_other o data fs p :
  p <> DATA_FILE -> snd (save_registrations o data fs) p = fs p.
Proof.
  intros Hp. unfold save_registrations.
  destruct (makedirs_fails o); [reflexivity|].
  destruct (open_write_fails o); [reflexivity|].
  destruct (write_chunks _) as [text complete].
  cbn [snd]. apply write_file_other; exact Hp.
Qed.

Lemma handle_other rt c o req fs p :
  p <> DATA_FILE -> snd (handle rt c o req fs) p = fs p.
Proof.
  intros Hp. destruct c; cbn [handle].
  - unfold do_GET.
    destruct (Str.eqb _ _); [|reflexivity].
    destruct (negb _); [reflexivity|].
    destruct (read_registrations o fs); reflexivity.
  - unfold do_POST.
    destruct (Str.eqb _ _).
    { destruct (negb _); [reflexivity|].
      destruct (read_registrations o fs); [|reflexivity].
      destruct (make_xlsx a); reflexivity. }
    destruct (negb _); [reflexivity|].
    destruct (validate rt o (raw req)) as [[answer|entry]|e]; try reflexivity.
    destruct (read_registrations o fs) as [regs|e]; [|reflexivity].
    pose proof (save_registrations_other o (regs ++ [entry]) fs p Hp) as Hs.
    destruct (save_registrations o (regs ++ [entry]) fs) as [[[]|e] fs1];
      cbn [snd] in Hs |- *; [|exact Hs].
    destruct (Py.getitem entry (py "id")); exact Hs.
Qed.

(** X5: whatever requests arrive, in whatever order and with whatever
    faults, the server changes no file other than
    [data/registrations.json]. *)
Theorem only_the_store_is_written
  (rt : runtime) (reqs : list (command * oracle * request))
  (fs : filesystem) (p : pystr) :
  p <> DATA_FILE -> snd (serve rt reqs fs) p = fs p.
Proof.
  intros Hp. revert fs.
  induction reqs as [|[[c o] req] reqs IH]; intros fs; [reflexivity|].
  cbn [serve].
  pose proof (handle_other rt c o req fs p Hp) as Hh.
  destruct (handle rt c o req fs) as [out fs1]; cbn [snd] in Hh.
  specialize (IH fs1).
  destruct (serve rt reqs fs1) as [outs fs2]; cbn [snd] in IH |- *.
  congruence.
Qed.

(** X6: a request leaves every file as it was unless it is a submission
    (a POST to [/api]) whose payload passed the checks and for which the
    store could be read.  In particular a request answered with a status
    other than 200, a listing and an export change nothing. *)
Theorem files_change_only_on_accepted_submission
  (rt : runtime) (c : command) (o : oracle) (req : request)
  (fs fs' : filesystem) (out : outcome) :
  handle rt c o req fs = (out, fs') ->
  fs' = fs
  \/ (c = POST /\ path req = py "/api"
      /\ (forall r, out = Sent r -> status r = 200)
      /\ exists entry registrations,
           validate rt o (raw req) = Ok (Accept entry)
           /\ read_registrations o fs = Ok registrations
           /\ fs' = snd (save_registrations o (registrations ++ [entry]) fs)).
Proof.
  destruct c; cbn [handle]; intros H.
  - left. unfold do_GET in H.
    destruct (Str.eqb _ _); [|congruence].
    destruct (negb _); [congruence|].
    destruct (read_registrations o fs); congruence.
  - unfold do_POST in H.
    destruct (Str.eqb (path req) (py "/api/export")).
    { left. destruct (negb _); [congruence|].
      destruct (read_registrations o fs); [|congruence].
      destruct (make_xlsx a); congruence. }
    destruct (Str.eqb_spec (path req) (py "/api")) as [Hp|Hp];
      cbn [negb] in H; [|left; congruence].
    destruct (validate rt o (raw req)) as [[answer|entry]|e] eqn:Ev;
      [left; congruence| |left; congruence].
    destruct (read_registrations o fs) as [regs|e] eqn:Er;
      [|left; congruence].
    right. split; [reflexivity|]. split; [exact Hp|].
    assert (Hfs : fs' = snd (save_registrations o (regs ++ [entry]) fs)).
    { destruct (save_registrations o (regs ++ [entry]) fs) as [[[]|e] fs1];
        [destruct (Py.getitem entry (py "id"))|];
        apply (f_equal snd) in H; cbn [snd] in H; symmetry; exact H. }
    split; [|exists entry, regs; auto].
    intros r Hr. subst out.
    destruct (save_registrations o (regs ++ [entry]) fs) as [[[]|e] fs1];
      [|discriminate].
    destruct (Py.getitem entry (py "id")); [|discriminate].
    apply (f_equal fst) in H; cbn [fst] in H.
    eapply send_json_status; exact H.
Qed.

(** ** Identifiers *)

(** A lower-case hexadecimal digit. *)
Definition is_hex (c : N) : bool :=
  ((48 <=? c) && (c <=? 57)) || ((97 <=? c) && (c <=? 102)).

Lemma hex_digit_is_hex d : d < 16 -> is_hex (Str.hex_digit d) = true.
Proof.
  intros Hd; unfold is_hex, Str.hex_digit.
  destruct (N.ltb_spec d 10).
  - replace (48 <=? 48 + d) with true by (symmetry; apply N.leb_le; lia).
    replace (48 + d <=? 57) with true by (symmetry; apply N.leb_le; lia).
    reflexivity.
  - replace (97 <=? 87 + d) with true by (symmetry; apply N.leb_le; lia).
    replace (87 + d <=? 102) with true by (symmetry; apply N.leb_le; lia).
    apply orb_true_r.
Qed.

Lemma hex_fixed_is_hex w n : forallb is_hex (Str.hex_fixed w n) = true.
Proof.
  revert n; induction w as [|w IH]; intros n; [reflexivity|].
  cbn [Str.hex_fixed]. rewrite forallb_app, IH. cbn [forallb andb].
  rewrite hex_digit_is_hex by (apply N.mod_lt; discriminate). reflexivity.
Qed.

Lemma forallb_firstn {A : Type} (f : A -> bool) (n : nat) (l : list A) :
  forallb f l = true -> forallb f (firstn n l) = true.
Proof.
  revert n; induction l as [|x l IH]; intros [|n] H; try reflexivity.
  cbn [firstn forallb] in *. apply andb_prop in H; destruct H as [Hx Hl].
  rewrite Hx, (IH n Hl). reflexivity.
Qed.

Lemma new_id_digits o :
  exists digits,
    new_id o = py "reg_" ++ digits
    /\ length digits = 12%nat
    /\ forallb is_hex digits = true.
Proof.
  exists (firstn 12 (Str.hex_fixed 32 (uuid4 o))).
  split; [reflexivity|]. split.
  - rewrite length_firstn, hex_fixed_length. reflexivity.
  - apply forallb_firstn, hex_fixed_is_hex.
Qed.

(** X7: an identifier is the four characters [reg_] followed by
    exactly twelve lower-case hexadecimal digits, sixteen characters in
    all, whatever UUID is drawn. *)
Theorem new_id_format (o : oracle) :
  length (new_id o) = 16%nat
  /\ exists digits,
       new_id o = py "reg_" ++ digits
       /\ length digits = 12%nat
       /\ forallb is_hex digits = true.
Proof.
  destruct (new_id_digits o) as (digits & E & Hl & Hh). split.
  - rewrite E, length_app, Hl. reflexivity.
  - exists digits; auto.
Qed.

(** ** The way to the store *)

Lemma encodable_app a b :
  Py.encodable (a ++ b) = Py.encodable a && Py.encodable b.
Proof. apply forallb_app. Qed.

Lemma hex_plain c :
  is_hex c = true -> Encoder.escape_char c = [c] /\ Py.is_surrogate c = false.
Proof.
  unfold is_hex; intros H.
  assert (Hc : 48 <= c <= 57 \/ 97 <= c <= 102).
  { apply orb_prop in H; destruct H as [H|H]; apply andb_prop in H;
      destruct H as [H1 H2]; apply N.leb_le in H1, H2; lia. }
  split.
  - unfold Encoder.escape_char.
    repeat match goal with
           | |- context [?a =? ?b] =>
               destruct (N.eqb_spec a b); [exfalso; lia|]
           end.
    destruct (N.ltb_spec c 32); [exfalso; lia | reflexivity].
  - unfold Py.is_surrogate.
    destruct (N.leb_spec 0xD800 c); [exfalso; lia | reflexivity].
Qed.

Lemma hex_text_plain digits :
  forallb is_hex digits = true ->
  flat_map Encoder.escape_char digits = digits /\ Py.encodable digits = true.
Proof.
  induction digits as [|c digits IH]; intros H; [split; reflexivity|].
  cbn [forallb] in H. apply andb_prop in H; destruct H as [Hc Hd].
  destruct (hex_plain c Hc) as [He Hs]. destruct (IH Hd) as [Hf Hen].
  split.
  - cbn [flat_map]. rewrite He, Hf. reflexivity.
  - unfold Py.encodable in *. cbn [forallb]. rewrite Hs, Hen. reflexivity.
Qed.

(** The answer to a stored submission can always be sent. *)
Lemma created_answer_encodable o :
  Py.encodable
    (Encoder.dumps (JDict [(py "success", JBool true);
                           (py "id", JStr (new_id o))])) = true.
Proof.
  destruct (new_id_digits o) as (digits & E & _ & Hh).
  destruct (hex_text_plain digits Hh) as [Hf Hen].
  rewrite dumps_text, text_dict.
  cbn [members_text text Encoder.scalar]. unfold Encoder.encode_basestring.
  rewrite E, flat_map_app, Hf.
  unfold Py.encodable in *.
  repeat (rewrite ?forallb_app; cbn [forallb]).
  rewrite Hen. vm_compute. reflexivity.
Qed.

Lemma write_chunks_all chunks :
  Py.encodable (concat chunks) = true ->
  write_chunks chunks = (concat chunks, true).
Proof.
  induction chunks as [|c chunks IH]; intros H; [reflexivity|].
  cbn [concat] in H. rewrite encodable_app in H.
  apply andb_prop in H; destruct H as [Hc Hr].
  cbn [write_chunks concat]. rewrite Hc, (IH Hr). reflexivity.
Qed.

(** The disk takes the whole of [text]. *)
Definition has_room (o : oracle) (text : pystr) : Prop :=
  match disk_room o with
  | Some room => (length text <= room)%nat
  | None => True
  end.

Lemma save_registrations_succeeds o data fs :
  makedirs_fails o = false -> open_write_fails o = false ->
  has_room o (Encoder.dumps (JList data)) ->
  Py.encodable (Encoder.dumps (JList data)) = true ->
  save_registrations o data fs
  = (Ok tt, write_file fs DATA_FILE (Encoder.dumps (JList data))).
Proof.
  intros Hm Hw Hroom Henc. unfold save_registrations. rewrite Hm, Hw.
  unfold Encoder.dumps in *. rewrite (write_chunks_all _ Henc).
  set (text := concat (Encoder.iterencode (JList data))) in *.
  assert (Hk : match disk_room o with
               | Some room => firstn room text
               | None => text
               end = text).
  { unfold has_room in Hroom. destruct (disk_room o); [|reflexivity].
    apply firstn_all2; exact Hroom. }
  rewrite Hk, Nat.ltb_irrefl. reflexivity.
Qed.

(** X8: a submission whose payload passes the checks is stored and
    answered whenever the store can be read, the directory and the file
    can be opened, the disk has room and the new document holds no lone
    surrogate.  The store then holds exactly the text of
    [json.dumps(registrations + [entry], ensure_ascii=False, indent=2)],
    and the answer is status 200 with the new identifier. *)
Theorem accepted_submission_is_stored
  (rt : runtime) (o : oracle) (req : request) (fs : filesystem)
  (entry : json) (registrations : list json) :
  path req = py "/api" ->
  validate rt o (raw req) = Ok (Accept entry) ->
  read_registrations o fs = Ok registrations ->
  makedirs_fails o = false -> open_write_fails o = false ->
  has_room o (Encoder.dumps (JList (registrations ++ [entry]))) ->
  Py.encodable (Encoder.dumps (JList (registrations ++ [entry]))) = true ->
  do_POST rt o req fs
  = (Sent (json_answer (JDict [(py "success", JBool true);
                               (py "id", JStr (new_id o))]) 200),
     write_file fs DATA_FILE
       (Encoder.dumps (JList (registrations ++ [entry])))).
Proof.
  intros Hp Hv Hr Hm Hw Hroom Henc.
  rewrite (do_POST_submit rt o req fs Hp), Hv, Hr.
  rewrite (save_registrations_succeeds o _ fs Hm Hw Hroom Henc).
  destruct (validate_accept_entry rt o _ _ Hv)
    as (d & given & cands & _ & _ & _ & _ & ->).
  replace (Py.getitem (JDict (entry_of rt o d (filter in_catalogue cands)))
             (py "id")) with (Ok (JStr (new_id o)))
    by (vm_compute Dict.get; reflexivity).
  rewrite (send_json_encodable _ 200 (created_answer_encodable o)).
  reflexivity.
Qed.

(** X9: what [save_registrations] writes, [read_registrations] reads
    back.  After a save that returned, a load that can open the file
    yields the saved sequence itself, for every sequence of values with
    no repeated key in an object and with floats that read back from
    their printed text. *)
Theorem save_then_read
  (o o' : oracle) (data : list json) (fs fs' : filesystem) :
  save_registrations o data fs = (Ok tt, fs') ->
  open_read_fails o' = false ->
  Forall unique_keys data -> Forall floats_read_back data ->
  read_registrations o' fs' = Ok data
  /\ fs' DATA_FILE = Some (Encoder.dumps (JList data)).
Proof.
  intros Hs Ho Hu Hf. split.
  - exact (read_after_save o o' data fs fs' Hs Ho Hu Hf).
  - apply save_registrations_ok in Hs. destruct Hs as [-> _].
    apply write_file_same.
Qed.

(** ** Trimming and escaping *)

(** A text that neither starts nor ends with white space. *)
Definition trimmed (s : pystr) : bool :=
  negb (Str.isspace (hd 33 s)) && negb (Str.isspace (last s 33)).

Lemma lstrip_head s : Str.isspace (hd 33 (Str.lstrip s)) = false.
Proof.
  induction s as [|c s IH]; [reflexivity|].
  cbn [Str.lstrip]. destruct (Str.isspace c) eqn:Ec; [exact IH | exact Ec].
Qed.

Lemma lstrip_suffix s : exists pre, s = pre ++ Str.lstrip s.
Proof.
  induction s as [|c s (pre & IH)]; [exists []; reflexivity|].
  cbn [Str.lstrip]. destruct (Str.isspace c).
  - exists (c :: pre). cbn [app]. rewrite <- IH. reflexivity.
  - exists []; reflexivity.
Qed.

Lemma lstrip_fixed s : Str.isspace (hd 33 s) = false -> Str.lstrip s = s.
Proof.
  destruct s as [|c s]; [reflexivity|]. cbn [hd Str.lstrip].
  intros ->; reflexivity.
Qed.

Lemma hd_rev (s : pystr) : hd 33 (rev s) = last s 33.
Proof.
  destruct s as [|c s] using rev_ind; [reflexivity|].
  rewrite rev_app_distr, last_last. reflexivity.
Qed.

Lemma last_rev (s : pystr) : last (rev s) 33 = hd 33 s.
Proof. rewrite <- hd_rev, rev_involutive. reflexivity. Qed.

Lemma last_suffix (pre s : pystr) : s <> [] -> last (pre ++ s) 33 = last s 33.
Proof.
  intros Hs. destruct s as [|c s] using rev_ind; [contradiction|].
  rewrite app_assoc, !last_last. reflexivity.
Qed.

Lemma trimmed_strip s : trimmed s = true -> Str.strip s = s.
Proof.
  unfold trimmed; intros H. apply andb_prop in H; destruct H as [Hh Hl].
  apply negb_true_iff in Hh, Hl.
  unfold Str.strip, Str.rstrip. rewrite (lstrip_fixed s Hh).
  rewrite lstrip_fixed by (rewrite hd_rev; exact Hl).
  apply rev_involutive.
Qed.

Lemma strip_trimmed s : trimmed (Str.strip s) = true.
Proof.
  unfold trimmed, Str.strip, Str.rstrip.
  rewrite hd_rev, last_rev, lstrip_head. cbn [negb]. rewrite andb_true_r.
  apply negb_true_iff.
  destruct (Str.lstrip (rev (Str.lstrip s))) as [|x m] eqn:Em; [reflexivity|].
  destruct (lstrip_suffix (rev (Str.lstrip s))) as (pre & Hpre).
  rewrite Em in Hpre. rewrite <- (last_suffix pre (x :: m)) by discriminate.
  rewrite <- Hpre, last_rev. apply lstrip_head.
Qed.

(** Trimming twice is trimming once. *)
Lemma strip_strip s : Str.strip (Str.strip s) = Str.strip s.
Proof. apply trimmed_strip, strip_trimmed. Qed.

(** The entity of a character, case by case. *)
Lemma entity_cases c :
  (c = 38 /\ entity c = [38; 97; 109; 112; 59])
  \/ (c = 60 /\ entity c = [38; 108; 116; 59])
  \/ (c = 62 /\ entity c = [38; 103; 116; 59])
  \/ (c = 34 /\ entity c = [38; 113; 117; 111; 116; 59])
  \/ (c = 39 /\ entity c = [38; 35; 120; 50; 55; 59])
  \/ (c <> 38 /\ c <> 60 /\ c <> 62 /\ c <> 34 /\ c <> 39 /\ entity c = [c]).
Proof.
  unfold entity.
  destruct (N.eqb_spec c 38); [left; split; [assumption | reflexivity]|].
  destruct (N.eqb_spec c 60);
    [right; left; split; [assumption | reflexivity]|].
  destruct (N.eqb_spec c 62);
    [right; right; left; split; [assumption | reflexivity]|].
  destruct (N.eqb_spec c 34);
    [right; right; right; left; split; [assumption | reflexivity]|].
  destruct (N.eqb_spec c 39);
    [right; right; right; right; left; split; [assumption | reflexivity]|].
  repeat right; auto 10.
Qed.

Lemma entity_edges c :
  Str.isspace c = false ->
  exists h m, entity c = h :: m
              /\ Str.isspace h = false
              /\ Str.isspace (last (h :: m) 33) = false.
Proof.
  intros Hc.
  destruct (entity_cases c)
    as [[_ E]|[[_ E]|[[_ E]|[[_ E]|[[_ E]|(_ & _ & _ & _ & _ & E)]]]]];
    rewrite E; do 2 eexists; (split; [reflexivity|]); split;
    try reflexivity; exact Hc.
Qed.

Lemma entity_nonempty c : entity c <> [].
Proof.
  destruct (entity_cases c)
    as [[_ E]|[[_ E]|[[_ E]|[[_ E]|[[_ E]|(_ & _ & _ & _ & _ & E)]]]]];
    rewrite E; discriminate.
Qed.

Lemma escape_trimmed s : trimmed s = true -> trimmed (Html.escape s) = true.
Proof.
  rewrite escape_entities. unfold trimmed; intros H.
  apply andb_prop in H; destruct H as [Hh Hl].
  apply negb_true_iff in Hh, Hl.
  destruct s as [|c s]; [reflexivity|].
  apply andb_true_intro; split; apply negb_true_iff.
  - cbn [hd] in Hh. cbn [flat_map].
    destruct (entity_edges c Hh) as (h & m & -> & Hhd & _). exact Hhd.
  - destruct (@exists_last _ (c :: s)) as (front & z & E); [discriminate|].
    rewrite E in *. rewrite last_last in Hl.
    rewrite flat_map_app. cbn [flat_map]. rewrite app_nil_r.
    destruct (entity_edges z Hl) as (h & m & Ez & _ & Hlast).
    rewrite Ez, last_suffix by discriminate. exact Hlast.
Qed.

Lemma escape_empty s : Html.escape s = [] <-> s = [].
Proof.
  rewrite escape_entities. split; [|intros ->; reflexivity].
  destruct s as [|c s]; [reflexivity|]. cbn [flat_map]. intros H.
  apply app_eq_nil in H. destruct H as [H _].
  exfalso; exact (entity_nonempty c H).
Qed.

Lemma sanitize_parts rt value :
  Str.strip (sanitize rt value) = sanitize rt value
  /\ (sanitize rt value = []
      <-> Str.strip (Repr.str (isprintable rt) value) = []).
Proof.
  unfold sanitize. split.
  - apply trimmed_strip, escape_trimmed, strip_trimmed.
  - apply escape_empty.
Qed.

(** X10: what [sanitize] returns neither starts nor ends with white
    space, so that trimming it again changes nothing; and it is empty
    exactly when the value, as text, is blank. *)
Theorem sanitize_trimmed (rt : runtime) (value : json) :
  Str.strip (sanitize rt value) = sanitize rt value
  /\ (sanitize rt value = []
      <-> Str.strip (Repr.str (isprintable rt) value) = []).
Proof.
  unfold sanitize. split.
  - apply trimmed_strip, escape_trimmed, strip_trimmed.
  - apply escape_empty.
Qed.

Lemma escape_plain s :
  (forall c, In c s -> ~ In c (38 :: markup)) -> Html.escape s = s.
Proof.
  rewrite escape_entities.
  induction s as [|c s IH]; intros H; [reflexivity|].
  cbn [flat_map]. rewrite IH by (intros x Hx; apply H; right; exact Hx).
  destruct (entity_cases c)
    as [[E _]|[[E _]|[[E _]|[[E _]|[[E _]|(_ & _ & _ & _ & _ & E)]]]]];
    try (exfalso; apply (H c (or_introl eq_refl)); rewrite E;
         unfold markup; simpl; tauto).
  rewrite E; reflexivity.
Qed.

(** X11: a text that has no white space at either end and holds none
    of the five characters [&], [<], [>], the quotation mark and the
    apostrophe is stored exactly as it was submitted. *)
Theorem plain_text_stored_verbatim (rt : runtime) (s : pystr) :
  trimmed s = true ->
  (forall c, In c s -> ~ In c (38 :: markup)) ->
  sanitize rt (JStr s) = s.
Proof.
  intros Ht Hp. unfold sanitize. cbn [Repr.str].
  rewrite (trimmed_strip s Ht). apply escape_plain; exact Hp.
Qed.

Lemma entities_inj a b : flat_map entity a = flat_map entity b -> a = b.
Proof.
  revert b; induction a as [|x a IH]; intros [|y b] H.
  - reflexivity.
  - cbn [flat_map] in H. symmetry in H. apply app_eq_nil in H.
    destruct H as [H _]. exfalso; exact (entity_nonempty y H).
  - cbn [flat_map] in H. apply app_eq_nil in H.
    destruct H as [H _]. exfalso; exact (entity_nonempty x H).
  - cbn [flat_map] in H.
    destruct (entity_cases x)
      as [[Ex E]|[[Ex E]|[[Ex E]|[[Ex E]|[[Ex E]|(X1 & X2 & X3 & X4 & X5 & E)]]]]];
    destruct (entity_cases y)
      as [[Ey F]|[[Ey F]|[[Ey F]|[[Ey F]|[[Ey F]|(Y1 & Y2 & Y3 & Y4 & Y5 & F)]]]]];
    rewrite E, F in H; cbn [app] in H;
    try (exfalso; congruence);
    try (injection H as H; f_equal; [congruence | apply IH; exact H]).
    injection H as Hxy H. f_equal; [exact Hxy | apply IH; exact H].
Qed.

(** X12: escaping loses nothing.  Two texts are stored alike only if
    they are equal once trimmed. *)
Theorem sanitize_injective (rt : runtime) (a b : pystr) :
  sanitize rt (JStr a) = sanitize rt (JStr b) <-> Str.strip a = Str.strip b.
Proof.
  unfold sanitize. cbn [Repr.str]. split.
  - rewrite !escape_entities. apply entities_inj.
  - intros ->; reflexivity.
Qed.

(** ** The entry of an accepted payload *)

(** The keys of an entry, in the order [do_POST] writes them. *)
Definition entry_keys : list pystr :=
  [py "id"; py "timestamp"; py "surname"; py "firstname"; py "patronymic";
   py "birthdate"; py "gender"; py "country"; py "city"; py "rank";
   py "team"; py "boat_class"; py "phone"; py "distances"].

Lemma sanitize_nonblank rt s :
  Str.strip s <> [] -> Str.strip (sanitize rt (JStr s)) <> [].
Proof.
  intros Hs. destruct (sanitize_parts rt (JStr s)) as [Ht He].
  rewrite Ht. intros H. apply He in H. exact (Hs H).
Qed.

Lemma entry_of_checks rt o d distances :
  checks (JDict d) = Ok None ->
  checks (JDict (entry_of rt o d distances)) = Ok None
  /\ forall f, In f required ->
       exists s, Dict.get (entry_of rt o d distances) f = Some (JStr s)
                 /\ Str.strip s <> [].
Proof.
  intros Hc. destruct (checks_passed d Hc) as (Hreq & Hg & Hb).
  set (e := entry_of rt o d distances).
  assert (Hall : forall f, In f required ->
            exists s, Dict.get e f = Some (JStr s) /\ Str.strip s <> []).
  { intros f Hf. destruct (Hreq f Hf) as (s & Hs & Hne).
    unfold required in Hf; simpl in Hf.
    repeat (destruct Hf as [<-|Hf];
            [first [ exists (sanitize rt (JStr s)); split;
                     [subst e; unfold entry_of, field; rewrite Hs;
                      vm_compute Dict.get; reflexivity
                     | apply sanitize_nonblank; exact Hne]
                   | exists s; split;
                     [subst e; unfold entry_of, field; rewrite Hs;
                      vm_compute Dict.get; reflexivity
                     | exact Hne] ]|]).
    destruct Hf. }
  split; [|exact Hall].
  assert (Hstr : strings_where_required e).
  { intros f v Hf Hv. destruct (Hall f Hf) as (s & Hs & _).
    rewrite Hs in Hv; injection Hv as <-. exists s; reflexivity. }
  rewrite (checks_refine e Hstr). unfold rejection_of.
  assert (Hfind : find (blank e) required = None).
  { destruct (find (blank e) required) as [f|] eqn:Ef; [|reflexivity].
    apply find_some in Ef. destruct Ef as [Hf Hbl].
    destruct (Hall f Hf) as (s & Hs & Hne).
    unfold blank in Hbl; rewrite Hs in Hbl.
    apply is_empty_true in Hbl. contradiction. }
  rewrite Hfind.
  assert (Eg : text_of e (py "gender") = text_of d (py "gender")).
  { unfold text_of. destruct (Hreq (py "gender")) as (g & Hgd & _);
      [vm_compute; tauto|].
    rewrite Hgd. subst e; unfold entry_of, field; rewrite Hgd.
    vm_compute Dict.get; reflexivity. }
  assert (Eb : text_of e (py "boat_class") = text_of d (py "boat_class")).
  { unfold text_of. destruct (Hreq (py "boat_class")) as (b & Hbd & _);
      [vm_compute; tauto|].
    rewrite Hbd. subst e; unfold entry_of, field; rewrite Hbd.
    vm_compute Dict.get; reflexivity. }
  rewrite Eg, Eb, Hg, Hb. reflexivity.
Qed.

(** X13: the entry built for an accepted payload is an object with
    exactly the fourteen keys of [do_POST], in their fixed order,
    whatever other keys the payload carries.  Its required fields are
    non-blank strings, and the entry itself passes the three checks of
    the validator. *)
Theorem stored_entry_passes_checks
  (rt : runtime) (o : oracle) (raw : pystr) (entry : json) :
  validate rt o raw = Ok (Accept entry) ->
  checks entry = Ok None
  /\ exists e,
       entry = JDict e
       /\ map fst e = entry_keys
       /\ forall f, In f required ->
            exists s, Dict.get e f = Some (JStr s) /\ Str.strip s <> [].
Proof.
  intros H.
  destruct (validate_accept_entry rt o raw entry H)
    as (d & given & cands & _ & Hc & _ & _ & ->).
  destruct (entry_of_checks rt o d (filter in_catalogue cands) Hc)
    as [Hchecks Hreq].
  split; [exact Hchecks|].
  eexists; split; [reflexivity|]. split; [reflexivity | exact Hreq].
Qed.

(** ** The sheet of the report *)

(** A loop keeps what each of its steps keeps. *)
Lemma for_each_invariant {A S : Type} (I : S -> Prop)
  (step : S -> A -> result S) (l : list A) :
  (forall s x s', In x l -> I s -> step s x = Ok s' -> I s') ->
  forall s s', I s -> for_each l step s = Ok s' -> I s'.
Proof.
  induction l as [|x l IH]; intros Hstep s s' Hs H.
  - injection H as <-; exact Hs.
  - cbn [for_each] in H. apply bind_Ok in H. destruct H as (s1 & E1 & H).
    apply (IH (fun s x s' Hx => Hstep s x s' (or_intror Hx)) s1 s');
      [|exact H].
    exact (Hstep s x s1 (or_introl eq_refl) Hs E1).
Qed.

Lemma enumerate_In {A : Type} (l : list A) start i x :
  In (i, x) (Py.enumerate start l) -> start <= i /\ In x l.
Proof.
  revert start; induction l as [|y l IH]; intros start H; [destruct H|].
  cbn [Py.enumerate] in H. destruct H as [H|H].
  - injection H as <- <-. split; [lia | left; reflexivity].
  - apply IH in H. destruct H as [Hi Hx]. split; [lia | right; exact Hx].
Qed.

(** The settings of a sheet that are not cells. *)
Definition settings (ws : Xlsx.worksheet)
  : pystr * list (pystr * N) * option pystr * option pystr :=
  (Xlsx.title ws, Xlsx.column_width ws, Xlsx.freeze_panes ws,
   Xlsx.auto_filter_ref ws).

Lemma put_settings ws row col v f fl a b ws' :
  Xlsx.put ws row col v f fl a b = Ok ws' -> settings ws' = settings ws.
Proof.
  unfold Xlsx.put; intros H. apply bind_Ok in H.
  destruct H as (stored & _ & H). injection H as <-. reflexivity.
Qed.

Lemma write_row_settings ws x ws' :
  write_row ws x = Ok ws' -> settings ws' = settings ws.
Proof.
  destruct x as [i reg]; unfold write_row; intros H.
  apply bind_Ok in H. destruct H as (data & _ & H).
  apply (for_each_invariant (fun s => settings s = settings ws)) in H;
    [exact H | | reflexivity].
  intros s [col v] s' _ Hs Hput. unfold write_cell in Hput.
  rewrite (put_settings _ _ _ _ _ _ _ _ _ Hput). exact Hs.
Qed.

(** The widths the header loop has set after its columns from [start]. *)
Lemma write_header_widths (l : list (pystr * N)) :
  forall start ws ws',
    for_each (Py.enumerate start l) write_header ws = Ok ws' ->
    Xlsx.title ws' = Xlsx.title ws
    /\ Xlsx.freeze_panes ws' = Xlsx.freeze_panes ws
    /\ Xlsx.auto_filter_ref ws' = Xlsx.auto_filter_ref ws
    /\ Xlsx.column_width ws'
       = Xlsx.column_width ws
         ++ map (fun x => (Xlsx.get_column_letter (fst x), snd (snd x)))
              (Py.enumerate start l).
Proof.
  induction l as [|[title width] l IH]; intros start ws ws' H.
  - injection H as <-. rewrite app_nil_r. auto.
  - cbn [Py.enumerate for_each] in H. apply bind_Ok in H.
    destruct H as (ws1 & E1 & H). unfold write_header in E1.
    apply bind_Ok in E1. destruct E1 as (ws0 & Eput & E1).
    injection E1 as <-. apply put_settings in Eput.
    unfold settings in Eput. injection Eput as Ht Hw Hf Ha.
    destruct (IH _ _ _ H) as (Ht' & Hf' & Ha' & Hw').
    cbn [Xlsx.set_width Xlsx.title Xlsx.freeze_panes Xlsx.auto_filter_ref
         Xlsx.column_width] in *.
    rewrite Ht', Hf', Ha', Hw', Ht, Hf, Ha, Hw.
    cbn [Py.enumerate map fst snd]. rewrite <- app_assoc. auto.
Qed.

(** X14: whenever the report is produced, its sheet is titled
    [Заявки], its first row is frozen, its fourteen columns [A] to [N]
    have the fixed widths, and its filter spans the header and every data
    row: [A1:N<M + 1>] for [M] registrations. *)
Theorem report_settings (registrations : list json) (ws : Xlsx.worksheet) :
  make_xlsx registrations = Ok ws ->
  Xlsx.title ws = py "Заявки"
  /\ Xlsx.freeze_panes ws = Some (py "A2")
  /\ Xlsx.auto_filter_ref ws
     = Some (py "A1:N" ++ Str.of_N (N.of_nat (length registrations) + 1))
  /\ Xlsx.column_width ws
     = combine (map (fun c => [c]) (py "ABCDEFGHIJKLMN")) col_widths.
Proof.
  unfold make_xlsx; intros H.
  apply bind_Ok in H. destruct H as (ws1 & E1 & H).
  apply bind_Ok in H. destruct H as (ws2 & E2 & H).
  injection H as <-.
  apply write_header_widths in E1. destruct E1 as (Ht & _ & _ & Hw).
  assert (Hs : settings ws2 = settings (Xlsx.set_freeze_panes ws1 (py "A2"))).
  { apply (for_each_invariant
             (fun s => settings s
                       = settings (Xlsx.set_freeze_panes ws1 (py "A2"))))
      in E2; [exact E2 | | reflexivity].
    intros s x s' _ Hs Hrow. rewrite (write_row_settings _ _ _ Hrow).
    exact Hs. }
  unfold settings in Hs. injection Hs as Ht2 Hw2 Hf2 _.
  cbn [Xlsx.set_auto_filter Xlsx.set_freeze_panes Xlsx.title
       Xlsx.freeze_panes Xlsx.auto_filter_ref Xlsx.column_width] in *.
  rewrite Ht2, Ht, Hf2, Hw2, Hw.
  split; [reflexivity|]. split; [reflexivity|]. split; [|reflexivity].
  replace (N.max (N.of_nat (length registrations) + 1) 1)
    with (N.of_nat (length registrations) + 1) by lia.
  reflexivity.
Qed.

(** The style of a header cell. *)
Definition header_style (c : Xlsx.cell) : Prop :=
  Xlsx.font c = header_font /\ Xlsx.fill c = Some header_fill
  /\ Xlsx.alignment c = header_align /\ Xlsx.border c = thin_border.

(** The style of the data cell in column [col] of the registration at
    position [i]: centred in the columns of the number and of the
    gender, shaded when [i] is even. *)
Definition data_style (i col : N) (c : Xlsx.cell) : Prop :=
  Xlsx.font c = data_font /\ Xlsx.border c = thin_border
  /\ Xlsx.alignment c
     = (if (col =? 1) || (col =? 7) then center_align else data_align)
  /\ Xlsx.fill c = (if N.even i then Some even_fill else None).

(** Every cell of the sheet is styled by its position alone. *)
Definition styled (ws : Xlsx.worksheet) : Prop :=
  forall r c cell, Xlsx.cells ws r c = Some cell ->
    (r = 1 /\ header_style cell) \/ (2 <= r /\ data_style (r - 1) c cell).

Lemma put_styled ws row col v f fl a b ws' :
  Xlsx.put ws row col v f fl a b = Ok ws' ->
  styled ws ->
  (forall stored,
     let cell := {| Xlsx.value := stored; Xlsx.font := f; Xlsx.fill := fl;
                    Xlsx.alignment := a; Xlsx.border := b |} in
     (row = 1 /\ header_style cell)
     \/ (2 <= row /\ data_style (row - 1) col cell)) ->
  styled ws'.
Proof.
  unfold Xlsx.put; intros H Hs Hnew. apply bind_Ok in H.
  destruct H as (stored & _ & H). injection H as <-.
  intros r c cell. cbn [Xlsx.cells].
  destruct (N.eqb_spec r row) as [->|Hr]; cbn [andb]; [|apply Hs].
  destruct (N.eqb_spec c col) as [->|Hc]; [|apply Hs].
  intros Hcell; injection Hcell as <-. apply Hnew.
Qed.

Lemma even_mod2 i : (i mod 2 =? 0) = N.even i.
Proof.
  rewrite <- N.bit0_mod, N.bit0_odd, <- N.negb_even.
  destruct (N.even i); reflexivity.
Qed.

Lemma write_row_styled ws i reg ws' :
  1 <= i -> write_row ws (i, reg) = Ok ws' -> styled ws -> styled ws'.
Proof.
  intros Hi H Hs. unfold write_row in H.
  apply bind_Ok in H. destruct H as (data & _ & H).
  apply (for_each_invariant styled) in H; [exact H | | exact Hs].
  intros s [col v] s' _ Hst Hput. unfold write_cell in Hput.
  apply (put_styled _ _ _ _ _ _ _ _ _ Hput Hst).
  intros stored cell. right. split; [lia|].
  replace (i + 1 - 1) with i by lia.
  unfold data_style, cell; cbn [Xlsx.font Xlsx.border Xlsx.alignment Xlsx.fill].
  repeat split.
  - unfold center_cols; cbn [existsb]. rewrite orb_false_r.
    rewrite (N.eqb_sym col 1), (N.eqb_sym col 7). reflexivity.
  - rewrite even_mod2. reflexivity.
Qed.

(** X15: whenever the report is produced, every cell of its first row
    has the header style, and every cell below has the data style of
    its position: the fixed font and border, centred in columns 1 and 7
    only, shaded exactly in the rows of the registrations at even
    positions.  No style depends on what the registrations hold. *)
Theorem report_styles (registrations : list json) (ws : Xlsx.worksheet) :
  make_xlsx registrations = Ok ws ->
  forall r c cell, Xlsx.cells ws r c = Some cell ->
    (r = 1 /\ header_style cell) \/ (2 <= r /\ data_style (r - 1) c cell).
Proof.
  unfold make_xlsx; intros H.
  apply bind_Ok in H. destruct H as (ws1 & E1 & H).
  apply bind_Ok in H. destruct H as (ws2 & E2 & H).
  injection H as <-.
  change (styled ws2).
  apply (for_each_invariant styled) in E2; [exact E2 | |].
  - intros s [i reg] s' Hin Hs Hrow.
    apply enumerate_In in Hin. destruct Hin as [Hi _].
    exact (write_row_styled s i reg s' Hi Hrow Hs).
  - change (styled ws1).
    apply (for_each_invariant styled) in E1; [exact E1 | |].
    + intros s [col [title width]] s' _ Hs Hh. unfold write_header in Hh.
      apply bind_Ok in Hh. destruct Hh as (s0 & Hput & Hh).
      injection Hh as <-. change (styled s0).
      apply (put_styled _ _ _ _ _ _ _ _ _ Hput Hs).
      intros stored cell. left. split; [reflexivity|].
      unfold header_style; auto.
    + intros r c cell Hcell. discriminate Hcell.
Qed.

(** ** When the report can be produced *)

(** The cells take every value of the row of [reg]. *)
Definition row_fits (reg : json) : bool :=
  match row_data 1 reg >>= map_each Xlsx.bind_value with
  | Ok _ => true
  | Raise _ => false
  end.

Lemma write_cells_total i row (data : list json) :
  forall start ws,
    (exists ws', for_each (Py.enumerate start data) (write_cell i row) ws
                 = Ok ws')
    <-> exists vs, map_each Xlsx.bind_value data = Ok vs.
Proof.
  induction data as [|v data IH]; intros start ws.
  - split; intros _; eexists; reflexivity.
  - cbn [Py.enumerate for_each map_each]. unfold write_cell at 1, Xlsx.put.
    destruct (Xlsx.bind_value v) as [stored|e]; cbn [bind].
    + rewrite IH. split; intros (vs & E).
      * rewrite E; eexists; reflexivity.
      * destruct (map_each Xlsx.bind_value data); [eauto | discriminate].
    + split; intros (x & E); discriminate.
Qed.

Lemma write_row_total ws i reg :
  (exists ws', write_row ws (i, reg) = Ok ws') <-> row_fits reg = true.
Proof.
  unfold write_row, row_fits, row_data.
  destruct (map_each _ text_columns) as [fields|e]; cbn [bind];
    [|split; [intros (x & E) |]; discriminate].
  destruct (Py.get reg (py "distances") (JList [])) as [ds|e]; cbn [bind];
    [|split; [intros (x & E) |]; discriminate].
  destruct (Py.join (py ", ") ds) as [joined|e]; cbn [bind];
    [|split; [intros (x & E) |]; discriminate].
  rewrite write_cells_total. cbn [map_each Xlsx.bind_value bind].
  destruct (map_each Xlsx.bind_value (fields ++ [JStr joined])); cbn [bind].
  - split; [reflexivity | eauto].
  - split; [intros (x & E) |]; discriminate.
Qed.

Lemma write_rows_total (regs : list json) :
  forall start ws,
    (exists ws', for_each (Py.enumerate start regs) write_row ws = Ok ws')
    <-> forallb row_fits regs = true.
Proof.
  induction regs as [|reg regs IH]; intros start ws.
  - split; [reflexivity | intros _; eexists; reflexivity].
  - cbn [Py.enumerate for_each forallb]. split.
    + intros (ws' & H). apply bind_Ok in H. destruct H as (ws1 & E1 & H).
      apply andb_true_intro. split.
      * apply (write_row_total ws start reg); eauto.
      * apply (IH (N.succ start) ws1); eauto.
    + intros H. apply andb_prop in H. destruct H as [H1 H2].
      apply (write_row_total ws start reg) in H1. destruct H1 as (ws1 & E1).
      rewrite E1; cbn [bind]. apply IH; exact H2.
Qed.

(** X16: the report is produced exactly when each registration, taken
    on its own, is an object whose distances can be joined and whose
    fourteen values the cells take.  Neither its position nor the other
    registrations matter. *)
Theorem report_produced_iff (registrations : list json) :
  (exists ws, make_xlsx registrations = Ok ws)
  <-> forallb row_fits registrations = true.
Proof.
  unfold make_xlsx.
  destruct (for_each_filled write_header (fun x => JStr (fst x)) 1
              (combine headers col_widths)
              (fun ws c x Hx => write_header_placed ws c x Hx) 1
              (Xlsx.set_title Xlsx.empty (py "Заявки")))
    as (ws1 & E1 & _).
  rewrite E1; cbn [bind].
  rewrite <- (write_rows_total registrations 1
                (Xlsx.set_freeze_panes ws1 (py "A2"))).
  split; intros (ws & H).
  - apply bind_Ok in H. destruct H as (ws2 & E2 & _). eauto.
  - rewrite H; cbn [bind]. eexists; reflexivity.
Qed.

(** ** What a report holds *)

Lemma map_each_In {A B : Type} (f : A -> result B) (l : list A) ys :
  map_each f l = Ok ys -> forall x, In x l -> exists y, f x = Ok y.
Proof.
  revert ys; induction l as [|a l IH]; intros ys H x Hx; [destruct Hx|].
  cbn [map_each] in H. apply bind_Ok in H. destruct H as (y & Ey & H).
  apply bind_Ok in H. destruct H as (ys' & Eys & _).
  destruct Hx as [<-|Hx]; [eauto | exact (IH ys' Eys x Hx)].
Qed.

Lemma row_data_dict i reg row :
  row_data i reg = Ok row ->
  exists d parts, reg = JDict d /\ distance_parts d = Ok parts.
Proof.
  intros H. destruct reg as [| | | | | |d];
    try (unfold row_data, text_columns in H; cbn [map_each Py.get bind] in H;
         discriminate H).
  exists d. unfold row_data in H. rewrite map_each_field in H.
  cbn [bind Py.get] in H.
  apply bind_Ok in H. destruct H as (joined & Ej & _). unfold Py.join in Ej.
  apply bind_Ok in Ej. destruct Ej as (items & Ei & Ej).
  apply bind_Ok in Ej. destruct Ej as (parts & Es & _).
  exists parts. split; [reflexivity|].
  unfold distance_parts. rewrite Ei. exact Es.
Qed.

(** A registration whose row the cells take is one the report can
    show. *)
Lemma row_fits_reportable reg : row_fits reg = true -> reportable reg.
Proof.
  unfold row_fits. intros H.
  destruct (row_data 1 reg >>= map_each Xlsx.bind_value) as [vs|e] eqn:E;
    [clear H | discriminate H].
  apply bind_Ok in E. destruct E as (row & Erow & Evs).
  destruct (row_data_dict 1 reg row Erow) as (d & parts & -> & Hp).
  rewrite (row_data_values 1 d parts Hp) in Erow. injection Erow as <-.
  exists d, parts. split; [reflexivity|]. split; [exact Hp|].
  intros i v Hv. unfold row_values in Hv. destruct Hv as [<-|Hv]; [reflexivity|].
  destruct (map_each_In _ _ _ Evs v) as (w & Ew); [right; exact Hv|].
  rewrite Ew. f_equal. exact (bind_value_cut v w Ew).
Qed.

(** X29: whenever the report of [M] registrations is produced, its sheet
    has exactly [M + 1] rows of 14 columns and no cell outside them.  The
    first row holds the 14 titles in their fixed order.  Row [i + 1]
    holds, for the registration at position [i] (from 1), which is an
    object, the number [i], then its twelve fields in the order of the
    titles (the empty text for a field it lacks), then its distances
    joined with a comma and a space; a text longer than 32767 characters
    is cut to its first 32767. *)
Theorem report_shape (registrations : list json) (ws : Xlsx.worksheet) :
  make_xlsx registrations = Ok ws ->
  Xlsx.max_row ws = N.of_nat (length registrations) + 1
  /\ Xlsx.max_column ws = 14
  /\ length headers = 14%nat
  /\ (forall k title, nth_error headers k = Some title ->
        cell_value ws 1 (1 + N.of_nat k) = Some (JStr title))
  /\ (forall k reg, nth_error registrations k = Some reg ->
        exists d parts,
          reg = JDict d
          /\ distance_parts d = Ok parts
          /\ cell_value ws (N.of_nat k + 2) 1
             = Some (JInt (Z.of_nat k + 1))
          /\ (forall j key, nth_error text_columns j = Some key ->
                cell_value ws (N.of_nat k + 2) (2 + N.of_nat j)
                = Some (cut (field d key)))
          /\ cell_value ws (N.of_nat k + 2) 14
             = Some (cut (JStr (Str.join (py ", ") parts))))
  /\ (forall r c, Xlsx.cells ws r c <> None ->
        1 <= r <= N.of_nat (length registrations) + 1 /\ 1 <= c <= 14).
Proof.
  intros H.
  assert (Hfits : forallb row_fits registrations = true).
  { revert H. unfold make_xlsx.
    destruct (for_each_filled write_header (fun x => JStr (fst x)) 1
                (combine headers col_widths)
                (fun ws c x Hx => write_header_placed ws c x Hx) 1
                (Xlsx.set_title Xlsx.empty (py "Заявки")))
      as (ws1 & E1 & _).
    rewrite E1; cbn [bind]. intros H.
    apply bind_Ok in H. destruct H as (ws2 & E2 & _).
    apply (write_rows_total registrations 1
             (Xlsx.set_freeze_panes ws1 (py "A2"))).
    exists ws2; exact E2. }
  assert (Hr : Forall reportable registrations).
  { apply Forall_forall. intros reg Hin. apply row_fits_reportable.
    rewrite forallb_forall in Hfits. exact (Hfits reg Hin). }
  destruct (sheet_of_reportable registrations Hr) as (ws' & E & Hall).
  rewrite E in H. injection H as <-. exact Hall.
Qed.

(** ** The store as the log of the accepted submissions *)

(** The entry a request brings to the store, if it brings one: the
    entry of a submission whose payload passes the checks. *)
Definition accepted_entry (rt : runtime) (x : command * oracle * request)
  : option json :=
  match x with
  | (POST, o, req) =>
      if Str.eqb (path req) (py "/api") then
        match validate rt o (raw req) with
        | Ok (Accept entry) => Some entry
        | _ => None
        end
      else None
  | (GET, _, _) => None
  end.

(** The request was answered. *)
Definition answered (out : outcome) : Prop := exists r, out = Sent r.

Lemma handle_not_accepted rt c o req fs :
  accepted_entry rt (c, o, req) = None -> snd (handle rt c o req fs) = fs.
Proof.
  destruct c; cbn [accepted_entry handle]; intros H.
  - unfold do_GET. destruct (Str.eqb _ _); [|reflexivity].
    destruct (negb _); [reflexivity|].
    destruct (read_registrations o fs); reflexivity.
  - unfold do_POST.
    destruct (Str.eqb (path req) (py "/api/export")).
    { destruct (negb _); [reflexivity|].
      destruct (read_registrations o fs); [|reflexivity].
      destruct (make_xlsx a); reflexivity. }
    destruct (Str.eqb (path req) (py "/api")); [|reflexivity].
    cbn [negb].
    destruct (validate rt o (raw req)) as [[answer|entry]|e];
      [reflexivity | discriminate | reflexivity].
Qed.

Lemma handle_accepted rt c o req fs entry r fs' :
  accepted_entry rt (c, o, req) = Some entry ->
  handle rt c o req fs = (Sent r, fs') ->
  exists d registrations,
    entry = JDict d
    /\ unique_keys entry /\ float_free entry = true
    /\ read_registrations o fs = Ok registrations
    /\ save_registrations o (registrations ++ [entry]) fs = (Ok tt, fs').
Proof.
  destruct c; cbn [accepted_entry handle]; [discriminate|].
  destruct (Str.eqb_spec (path req) (py "/api")) as [Hp|Hp]; [|discriminate].
  destruct (validate rt o (raw req)) as [[answer|e0]|e0] eqn:Ev;
    try discriminate.
  intros He; injection He as ->. intros H.
  rewrite (do_POST_submit rt o req fs Hp), Ev in H.
  destruct (read_registrations o fs) as [regs|e] eqn:Er; [|discriminate].
  destruct (save_registrations o (regs ++ [entry]) fs) as [[[]|e] fs1] eqn:Es;
    [|discriminate].
  destruct (Py.getitem entry (py "id")); [|discriminate].
  injection H as _ <-.
  destruct (validate_accept_entry rt o _ _ Ev)
    as (d & given & cands & _ & Hc & _ & _ & ->).
  destruct (entry_of_plain rt o d cands Hc) as [Hu Hf].
  eexists; exists regs. auto.
Qed.

Lemma serve_log rt reqs :
  forall fs log outs fs',
    (forall o, open_read_fails o = false ->
               read_registrations o fs = Ok log) ->
    Forall floats_read_back log ->
    serve rt reqs fs = (outs, fs') ->
    Forall2 (fun x out => accepted_entry rt x <> None -> answered out)
      reqs outs ->
    forall o, open_read_fails o = false ->
      read_registrations o fs'
      = Ok (log ++ flat_map (fun x => match accepted_entry rt x with
                                      | Some entry => [entry]
                                      | None => []
                                      end) reqs).
Proof.
  induction reqs as [|[[c o] req] reqs IH];
    intros fs log outs fs' Hread Hfl Hserve Hans.
  - injection Hserve as _ <-. cbn [flat_map]. rewrite app_nil_r. exact Hread.
  - cbn [serve] in Hserve.
    destruct (handle rt c o req fs) as [out fs1] eqn:Eh.
    destruct (serve rt reqs fs1) as [outs1 fs2] eqn:Es.
    injection Hserve as <- <-.
    inversion Hans as [|? ? ? ? Hx Hans']; subst.
    cbn [flat_map].
    destruct (accepted_entry rt (c, o, req)) as [entry|] eqn:Ea.
    + destruct Hx as (r & ->); [discriminate|].
      destruct (handle_accepted _ _ _ _ _ _ _ _ Ea Eh)
        as (d & regs & Hd & Hu & Hf & Hr & Hsave).
      assert (regs = log)
        by (eapply read_registrations_same;
            [exact Hr | exact (Hread (Sample.quiet 0) eq_refl)]).
      subst regs.
      assert (Hfl1 : Forall floats_read_back (log ++ [entry])).
      { apply Forall_app; split; [exact Hfl|].
        constructor; [apply float_free_reads_back; exact Hf | constructor]. }
      assert (Hread1 : forall o', open_read_fails o' = false ->
                read_registrations o' fs1 = Ok (log ++ [entry])).
      { intros o' Ho'. apply (read_after_save o o' _ fs fs1 Hsave Ho').
        - apply Forall_app; split.
          + exact (read_registrations_unique_keys _ _ _ Hr).
          + constructor; [exact Hu | constructor].
        - exact Hfl1. }
      intros o' Ho'.
      rewrite (IH fs1 (log ++ [entry]) outs1 fs2 Hread1 Hfl1 Es Hans' o' Ho').
      rewrite <- app_assoc. reflexivity.
    + pose proof (handle_not_accepted rt c o req fs Ea) as Hsame.
      rewrite Eh in Hsame; cbn [snd] in Hsame. subst fs1.
      exact (IH fs log outs1 fs2 Hread Hfl Es Hans').
Qed.

(** X17: requests of every kind served one after the other, starting
    with no store.  If every submission whose payload passed the checks
    was answered, the store holds exactly the entries of those
    submissions, in the order of arrival: listings, exports, rejected
    and ill-formed requests in between neither add, remove nor reorder
    anything. *)
Theorem store_is_log_of_accepted
  (rt : runtime) (reqs : list (command * oracle * request))
  (fs : filesystem) (o' : oracle) :
  fs DATA_FILE = None ->
  Forall2 (fun x out => accepted_entry rt x <> None -> answered out)
    reqs (fst (serve rt reqs fs)) ->
  open_read_fails o' = false ->
  read_registrations o' (snd (serve rt reqs fs))
  = Ok (flat_map (fun x => match accepted_entry rt x with
                           | Some entry => [entry]
                           | None => []
                           end) reqs).
Proof.
  intros Hnone Hans Ho.
  destruct (serve rt reqs fs) as [outs fs'] eqn:E. cbn [fst snd] in *.
  exact (serve_log rt reqs fs [] outs fs'
           (fun o _ => read_registrations_absent o fs Hnone)
           (Forall_nil _) E Hans o' Ho).
Qed.

(** ** What each route reads *)

Definition with_token (req : request) (token : option pystr) : request :=
  {| path := path req; admin_token := token; raw := raw req |}.

(** X18: the admin token is looked at by the listing ([GET /api]) and
    by the export ([POST /api/export]) only.  Every other request,
    submissions and the paths handed to the static file server
    included, is treated the same whatever token it carries, and
    whether it carries one at all. *)
Theorem token_read_on_admin_routes_only
  (rt : runtime) (c : command) (o : oracle) (req : request)
  (token : option pystr) (fs : filesystem) :
  ~ (c = GET /\ path req = py "/api") ->
  ~ (c = POST /\ path req = py "/api/export") ->
  handle rt c o (with_token req token) fs = handle rt c o req fs.
Proof.
  intros Hget Hpost. destruct c; cbn [handle].
  - unfold do_GET. cbn [path with_token].
    destruct (Str.eqb_spec (path req) (py "/api")) as [Hp|_];
      [exfalso; apply Hget; auto | reflexivity].
  - unfold do_POST. cbn [path raw with_token].
    destruct (Str.eqb_spec (path req) (py "/api/export")) as [Hp|_];
      [exfalso; apply Hpost; auto | reflexivity].
Qed.

(** ** Timestamps *)

(** A property of every natural number below [bound], checked number by
    number. *)
Lemma checked_below (P : N -> bool) (bound : N) :
  forallb P (map N.of_nat (seq 0 (N.to_nat bound))) = true ->
  forall n, n < bound -> P n = true.
Proof.
  intros H n Hn. rewrite forallb_forall in H. apply H.
  apply in_map_iff. exists (N.to_nat n). split; [apply N2Nat.id|].
  apply in_seq. lia.
Qed.

(** The number a text of decimal digits denotes. *)
Definition digits_number (s : pystr) : N :=
  fold_left (fun n c => 10 * n + (c - 48)) s 0.

Definition padded (width : nat) (n : N) : bool :=
  (length (Str.zfill width (Str.of_N n)) =? width)%nat
  && (digits_number (Str.zfill width (Str.of_N n)) =? n)
  && forallb Decoder.is_digit (Str.zfill width (Str.of_N n)).

Lemma padded_2 n : n < 100 -> padded 2 n = true.
Proof. apply (checked_below (padded 2) 100). vm_compute; reflexivity. Qed.

Lemma padded_4 n : n < 10000 -> padded 4 n = true.
Proof. apply (checked_below (padded 4) 10000). vm_compute; reflexivity. Qed.

(** A year of four digits is written the same with and without
    padding. *)
Lemma year_unpadded n :
  1000 <= n <= 9999 -> Str.zfill 4 (Str.of_N n) = Str.of_N n.
Proof.
  intros Hn.
  pose proof (checked_below
                (fun k => (k <? 1000)
                          || Str.eqb (Str.zfill 4 (Str.of_N k)) (Str.of_N k))
                10000 ltac:(vm_compute; reflexivity) n ltac:(lia)) as H.
  cbv beta in H. destruct (N.ltb_spec n 1000); [lia|].
  apply Str.eqb_eq. exact H.
Qed.

Lemma padded_parts width n :
  padded width n = true ->
  length (Str.zfill width (Str.of_N n)) = width
  /\ digits_number (Str.zfill width (Str.of_N n)) = n.
Proof.
  unfold padded; intros H.
  apply andb_prop in H; destruct H as [H _].
  apply andb_prop in H; destruct H as [Hl Hd].
  apply Nat.eqb_eq in Hl. apply N.eqb_eq in Hd. auto.
Qed.

Lemma app_inj_length {A : Type} (a a' b b' : list A) :
  length a = length a' -> a ++ b = a' ++ b' -> a = a' /\ b = b'.
Proof.
  revert a'; induction a as [|x a IH]; intros [|y a'] Hl H;
    try discriminate; [auto|].
  cbn [app] in H. injection H as -> H. cbn [length] in Hl.
  destruct (IH a' (eq_add_S _ _ Hl) H) as [-> ->]. auto.
Qed.

(** A date and time as [datetime.now()] returns them. *)
Definition calendar (t : datetime) : Prop :=
  1000 <= year t <= 9999 /\ 1 <= month t <= 12 /\ 1 <= day t <= 31
  /\ hour t <= 23 /\ minute t <= 59 /\ second t <= 59.

(** X20: for a date from the year 1000 on, the timestamp of an entry is
    19 characters long, [YYYY-MM-DD HH:MM:SS] with every number padded
    with zeros, and it determines the date and time to the second: two
    different instants never give the same timestamp. *)
Theorem timestamp_format (t : datetime) :
  calendar t ->
  length (strftime t) = 19%nat
  /\ forall t', calendar t' -> strftime t' = strftime t -> t' = t.
Proof.
  assert (Hparts : forall u, calendar u ->
            padded 4 (year u) = true /\ padded 2 (month u) = true
            /\ padded 2 (day u) = true /\ padded 2 (hour u) = true
            /\ padded 2 (minute u) = true /\ padded 2 (second u) = true).
  { intros u (Hy & Hm & Hd & Hh & Hmi & Hs).
    repeat split; first [apply padded_4 | apply padded_2]; lia. }
  intros Ht. destruct (Hparts t Ht) as (Py & Pm & Pd & Ph & Pmi & Ps).
  apply padded_parts in Py, Pm, Pd, Ph, Pmi, Ps.
  destruct Py as [Ly Dy], Pm as [Lm Dm], Pd as [Ld Dd], Ph as [Lh Dh],
           Pmi as [Lmi Dmi], Ps as [Ls Ds].
  split.
  - unfold strftime. rewrite <- (year_unpadded (year t)) by apply Ht.
    rewrite !length_app, Ly, Lm, Ld, Lh, Lmi, Ls. reflexivity.
  - intros t' Ht' E. destruct (Hparts t' Ht') as (Qy & Qm & Qd & Qh & Qmi & Qs).
    apply padded_parts in Qy, Qm, Qd, Qh, Qmi, Qs.
    destruct Qy as [Ky Ey], Qm as [Km Em], Qd as [Kd Ed], Qh as [Kh Eh],
             Qmi as [Kmi Emi], Qs as [Ks Es].
    unfold strftime in E.
    rewrite <- (year_unpadded (year t)) in E by apply Ht.
    rewrite <- (year_unpadded (year t')) in E by apply Ht'.
    apply app_inj_length in E; [|congruence]. destruct E as [E1 E].
    apply (app_inj_length (py "-") (py "-")) in E; [|reflexivity].
    destruct E as [_ E].
    apply app_inj_length in E; [|congruence]. destruct E as [E2 E].
    apply (app_inj_length (py "-") (py "-")) in E; [|reflexivity].
    destruct E as [_ E].
    apply app_inj_length in E; [|congruence]. destruct E as [E3 E].
    apply (app_inj_length (py " ") (py " ")) in E; [|reflexivity].
    destruct E as [_ E].
    apply app_inj_length in E; [|congruence]. destruct E as [E4 E].
    apply (app_inj_length (py ":") (py ":")) in E; [|reflexivity].
    destruct E as [_ E].
    apply app_inj_length in E; [|congruence]. destruct E as [E5 E].
    apply (app_inj_length (py ":") (py ":")) in E; [|reflexivity].
    destruct E as [_ E6].
    apply (f_equal digits_number) in E1, E2, E3, E4, E5, E6.
    rewrite Ey, Dy in E1. rewrite Em, Dm in E2. rewrite Ed, Dd in E3.
    rewrite Eh, Dh in E4. rewrite Emi, Dmi in E5. rewrite Es, Ds in E6.
    destruct t as [y m d h mi s], t' as [y' m' d' h' mi' s'].
    cbn [year month day hour minute second] in *. congruence.
Qed.

(** ** Start-up *)

(** The variable a line of [.env] defines, if it defines one. *)
Definition assignment (line : pystr) : option (pystr * pystr) :=
  let line := Str.strip line in
  if negb (Str.is_empty line) && negb (startswith line (py "#"))
     && existsb (N.eqb 61) line
  then
    let (k, v) := split_once 61 line in Some (Str.strip k, Str.strip v)
  else None.

(** The value the first line that defines [name] gives it. *)
Fixpoint assigned (name : pystr) (lines : list pystr) : option pystr :=
  match lines with
  | [] => None
  | line :: rest =>
      match assignment line with
      | Some (k, v) => if Str.eqb name k then Some v else assigned name rest
      | None => assigned name rest
      end
  end.

Lemma setdefault_ok env key value env' :
  setdefault env key value = Ok env' ->
  forall name,
    env' name = match env name with
                | Some v => Some v
                | None => if Str.eqb name key then Some value else None
                end.
Proof.
  unfold setdefault. destruct (negb (fs_encodable key)); [discriminate|].
  destruct (env key) as [w|] eqn:Ek.
  - intros H name; injection H as <-.
    destruct (env name) eqn:En; [reflexivity|].
    destruct (Str.eqb_spec name key) as [->|_]; [congruence | reflexivity].
  - destruct (negb (fs_encodable value)); [discriminate|].
    destruct (_ || _); [discriminate|].
    destruct (Str.is_empty key); [discriminate|].
    intros H name; injection H as <-.
    destruct (Str.eqb_spec name key) as [->|_].
    + rewrite Ek; reflexivity.
    + destruct (env name); reflexivity.
Qed.

Lemma load_line_ok env line env' :
  load_line env line = Ok env' ->
  forall name,
    env' name = match env name with
                | Some v => Some v
                | None => assigned name [line]
                end.
Proof.
  unfold load_line, assigned, assignment.
  destruct (_ && _).
  - destruct (split_once 61 (Str.strip line)) as [k v].
    intros H name. rewrite (setdefault_ok _ _ _ _ H name).
    destruct (env name); [reflexivity|].
    destruct (Str.eqb name (Str.strip k)); reflexivity.
  - intros H name; injection H as <-. destruct (env name); reflexivity.
Qed.

Lemma load_lines_ok lines :
  forall env env',
    for_each lines load_line env = Ok env' ->
    forall name,
      env' name = match env name with
                  | Some v => Some v
                  | None => assigned name lines
                  end.
Proof.
  induction lines as [|line lines IH]; intros env env' H name.
  - injection H as <-. destruct (env name); reflexivity.
  - cbn [for_each] in H. apply bind_Ok in H. destruct H as (env1 & E1 & H).
    rewrite (IH env1 env' H name), (load_line_ok env line env1 E1 name).
    destruct (env name); [reflexivity|].
    cbn [assigned]. destruct (assignment line) as [[k v]|]; [|reflexivity].
    destruct (Str.eqb name k); reflexivity.
Qed.

(** X21: when the [.env] file is loaded, a variable that the process
    environment already holds keeps its value, whatever the file says;
    any other variable takes the value of the first line of the file
    that defines it, later lines for the same name being ignored; and a
    variable no line defines stays unset. *)
Theorem load_env_first_definition_wins
  (o : oracle) (fs : filesystem) (env env' : environ) (content : pystr) :
  fs (py ".env") = Some content ->
  load_env o fs env = Ok env' ->
  forall name,
    env' name = match env name with
                | Some v => Some v
                | None => assigned name (file_lines content)
                end.
Proof.
  unfold load_env; intros -> H.
  destruct (open_read_fails o); [discriminate|].
  exact (load_lines_ok _ _ _ H).
Qed.

Lemma split_once_first sep a b :
  ~ In sep a -> split_once sep (a ++ sep :: b) = (a, b).
Proof.
  induction a as [|c a IH]; intros Hn; cbn [app split_once].
  - rewrite N.eqb_refl; reflexivity.
  - destruct (N.eqb_spec c sep) as [->|_];
      [exfalso; apply Hn; left; reflexivity|].
    rewrite IH by (intros H; apply Hn; right; exact H). reflexivity.
Qed.

Lemma existsb_eqb_In c s : existsb (N.eqb c) s = true <-> In c s.
Proof.
  rewrite existsb_exists. split.
  - intros (x & Hx & E). apply N.eqb_eq in E. subst; exact Hx.
  - intros H; exists c; split; [exact H | apply N.eqb_refl].
Qed.

Lemma existsb_eqb_not_In c s : existsb (N.eqb c) s = false <-> ~ In c s.
Proof.
  rewrite <- existsb_eqb_In. destruct (existsb (N.eqb c) s); split; congruence.
Qed.

(** X22: how one line of [.env] is read.  A line that is blank, that
    starts with [#] or that holds no [=] is skipped.  Any other line
    defines the name before its first [=] with everything after that
    [=] as the value, both trimmed: the value may itself hold [=] or
    [#], and quotation marks are kept. *)
Theorem env_line_reading (env : environ) (line : pystr) :
  (Str.strip line = [] \/ startswith (Str.strip line) (py "#") = true
   \/ ~ In 61 (Str.strip line) ->
   load_line env line = Ok env)
  /\ (forall name value,
        Str.strip line = name ++ 61 :: value ->
        ~ In 61 name ->
        startswith (Str.strip line) (py "#") = false ->
        load_line env line
        = setdefault env (Str.strip name) (Str.strip value)).
Proof.
  unfold load_line. split.
  - intros [H|[H|H]].
    + rewrite H; reflexivity.
    + rewrite H, andb_false_r; reflexivity.
    + apply existsb_eqb_not_In in H. rewrite H, andb_false_r; reflexivity.
  - intros name value E Hn Hs. rewrite Hs, E.
    rewrite (split_once_first 61 name value Hn).
    replace (existsb (N.eqb 61) (name ++ 61 :: value)) with true
      by (symmetry; apply existsb_eqb_In, in_or_app; right; left; reflexivity).
    destruct name; reflexivity.
Qed.

(** X23: the token the handlers compare against.  After the [.env]
    file was loaded it is the value of [ADMIN_TOKEN] in the process
    environment if that is set, else the value of the first line of
    [.env] that defines it, else [changeme]; a request is authorized
    exactly when its [X-Admin-Token] header, taken as empty when absent,
    equals that token. *)
Theorem token_resolution
  (o : oracle) (fs : filesystem) (env env' : environ) (rt : runtime)
  (req : request) :
  load_env o fs env = Ok env' ->
  ADMIN_TOKEN rt = configured_token env' ->
  let token :=
    match env (py "ADMIN_TOKEN") with
    | Some v => v
    | None =>
        match fs (py ".env") with
        | Some content =>
            match assigned (py "ADMIN_TOKEN") (file_lines content) with
            | Some v => v
            | None => py "changeme"
            end
        | None => py "changeme"
        end
    end in
  ADMIN_TOKEN rt = token
  /\ (_check_admin_token rt req = true <-> supplied_token req = token).
Proof.
  intros H Hrt. cbv zeta.
  assert (Ht : configured_token env'
               = match env (py "ADMIN_TOKEN") with
                 | Some v => v
                 | None =>
                     match fs (py ".env") with
                     | Some content =>
                         match assigned (py "ADMIN_TOKEN")
                                 (file_lines content) with
                         | Some v => v
                         | None => py "changeme"
                         end
                     | None => py "changeme"
                     end
                 end).
  { unfold configured_token, load_env in *.
    destruct (fs (py ".env")) as [content|].
    - destruct (open_read_fails o); [discriminate|].
      rewrite (load_lines_ok _ _ _ H (py "ADMIN_TOKEN")).
      destruct (env (py "ADMIN_TOKEN")); [reflexivity|].
      destruct (assigned _ _); reflexivity.
    - injection H as <-. destruct (env (py "ADMIN_TOKEN")); reflexivity. }
  rewrite <- Ht, <- Hrt. split; [reflexivity|].
  unfold _check_admin_token, supplied_token. apply Str.eqb_eq.
Qed.

Lemma lstrip_incl s c : In c (Str.lstrip s) -> In c s.
Proof.
  destruct (lstrip_suffix s) as (pre & E). intros H.
  rewrite E. apply in_or_app; right; exact H.
Qed.

Lemma strip_incl s c : In c (Str.strip s) -> In c s.
Proof.
  unfold Str.strip, Str.rstrip. intros H.
  apply in_rev, lstrip_incl in H. apply in_rev in H.
  apply lstrip_incl; exact H.
Qed.

Lemma split_once_incl sep s :
  (forall c, In c (fst (split_once sep s)) -> In c s /\ c <> sep)
  /\ (forall c, In c (snd (split_once sep s)) -> In c s).
Proof.
  induction s as [|x s [IHa IHb]]; cbn [split_once].
  - split; intros c [].
  - destruct (N.eqb_spec x sep) as [->|Hx]; cbn [fst snd].
    + split; [intros c [] | intros c H; right; exact H].
    + destruct (split_once sep s) as [a b]; cbn [fst snd] in *. split.
      * intros c [<-|H]; [split; [left; reflexivity | exact Hx]|].
        destruct (IHa c H); split; [right|]; assumption.
      * intros c H; right; apply IHb; exact H.
Qed.

Lemma encodable_fs s :
  (forall c, In c s -> Py.is_surrogate c = false) -> fs_encodable s = true.
Proof.
  intros H. unfold fs_encodable. apply forallb_forall. intros c Hc.
  rewrite (H c Hc). reflexivity.
Qed.

(** X24: when a line of [.env] stops the start-up.  For a line of
    decoded text, the loop raises exactly when the line defines a name
    that is not set yet and either the name or the value holds a NUL
    character ([ValueError]) or the name is empty ([OSError]); a line
    for a name that is already set never raises. *)
Theorem env_line_failure (env : environ) (line : pystr) (e : exn) :
  Py.encodable line = true ->
  (load_line env line = Raise e
   <-> exists name value,
         assignment line = Some (name, value)
         /\ env name = None
         /\ ((e = ValueError /\ (In 0 name \/ In 0 value))
             \/ (e = OSError /\ name = [] /\ ~ In 0 value))).
Proof.
  intros Henc. unfold load_line, assignment.
  destruct (_ && _); [|split; [discriminate | intros (k & v & H & _); discriminate]].
  pose proof (split_once_incl 61 (Str.strip line)) as [Ha Hb].
  destruct (split_once 61 (Str.strip line)) as [a b]; cbn [fst snd] in Ha, Hb.
  assert (Hsur : forall c, In c line -> Py.is_surrogate c = false).
  { intros c Hc. unfold Py.encodable in Henc.
    rewrite forallb_forall in Henc. apply negb_true_iff, Henc, Hc. }
  assert (Hk : fs_encodable (Str.strip a) = true).
  { apply encodable_fs. intros c Hc.
    apply Hsur, strip_incl, Ha, strip_incl, Hc. }
  assert (Hv : fs_encodable (Str.strip b) = true).
  { apply encodable_fs. intros c Hc.
    apply Hsur, strip_incl, Hb, strip_incl, Hc. }
  assert (Heq : existsb (N.eqb 61) (Str.strip a) = false).
  { apply existsb_eqb_not_In. intros H.
    apply strip_incl, Ha in H. destruct H as [_ H]; contradiction. }
  unfold setdefault. rewrite Hk, Hv, Heq, orb_false_r. cbn [negb].
  destruct (env (Str.strip a)) as [w|] eqn:Eenv.
  - split; [discriminate|].
    intros (k & v & H & Hn & _). injection H as <- <-. congruence.
  - destruct (existsb (N.eqb 0) (Str.strip a)) eqn:E0k.
    + cbn [orb]. split.
      * intros H; injection H as <-. do 2 eexists.
        split; [reflexivity|]. split; [exact Eenv|].
        left; split; [reflexivity|]. left; apply existsb_eqb_In; exact E0k.
      * intros (k & v & H & _ & [[-> _]|(_ & Hk0 & _)]); [reflexivity|].
        injection H as H _. rewrite H, Hk0 in E0k. discriminate.
    + cbn [orb]. destruct (existsb (N.eqb 0) (Str.strip b)) eqn:E0v.
      * split.
        -- intros H; injection H as <-. do 2 eexists.
           split; [reflexivity|]. split; [exact Eenv|].
           left; split; [reflexivity|]. right; apply existsb_eqb_In; exact E0v.
        -- intros (k & v & H & _ & [[-> _]|(_ & _ & Hnv)]); [reflexivity|].
           injection H as _ H. subst v.
           apply existsb_eqb_In in E0v. contradiction.
      * apply existsb_eqb_not_In in E0k, E0v.
        destruct (Str.strip a) as [|c k'] eqn:Ek; cbn [Str.is_empty].
        -- split.
           ++ intros H; injection H as <-. do 2 eexists.
              split; [reflexivity|]. split; [exact Eenv|].
              right; auto.
           ++ intros (k & v & H & _ & [[_ [H0|H0]]|(-> & _)]);
                [| |reflexivity]; injection H as <- <-; contradiction.
        -- split; [discriminate|].
           intros (k & v & H & _ & [[_ [H0|H0]]|(_ & Hk0 & _)]);
             injection H as <- <-; try contradiction. discriminate.
Qed.

(** ** Escaping twice *)

Lemma entities_length s : (length s <= length (flat_map entity s))%nat.
Proof.
  induction s as [|c s IH]; [reflexivity|].
  cbn [flat_map]. rewrite length_app. cbn [length].
  destruct (entity c) as [|h m] eqn:E; [exfalso; exact (entity_nonempty c E)|].
  cbn [length]. lia.
Qed.

Lemma entities_fixed s :
  flat_map entity s = s -> forall c, In c s -> ~ In c (38 :: markup).
Proof.
  induction s as [|x s IH]; intros H c Hc; [destruct Hc|].
  cbn [flat_map] in H.
  destruct (entity_cases x)
    as [[Ex E]|[[Ex E]|[[Ex E]|[[Ex E]|[[Ex E]|(X1 & X2 & X3 & X4 & X5 & E)]]]]];
    rewrite E in H; cbn [app] in H.
  - exfalso. injection H as _ H. pose proof (entities_length s) as Hl.
    apply (f_equal (@length N)) in H. cbn [length] in H. lia.
  - exfalso. injection H as Hx _. congruence.
  - exfalso. injection H as Hx _. congruence.
  - exfalso. injection H as Hx _. congruence.
  - exfalso. injection H as Hx _. congruence.
  - injection H as H. destruct Hc as [<-|Hc]; [|exact (IH H c Hc)].
    unfold markup; simpl; intuition.
Qed.

(** X25: sanitizing a sanitized text changes it again, unless the text
    holds none of the five characters [&], [<], [>], the quotation mark
    and the apostrophe once trimmed: the [&] of every entity is escaped
    a second time. *)
Theorem sanitize_twice (rt : runtime) (s : pystr) :
  sanitize rt (JStr (sanitize rt (JStr s))) = sanitize rt (JStr s)
  <-> forall c, In c (Str.strip s) -> ~ In c (38 :: markup).
Proof.
  unfold sanitize. cbn [Repr.str].
  rewrite (trimmed_strip (Html.escape (Str.strip s)))
    by (apply escape_trimmed, strip_trimmed).
  split.
  - intros H. rewrite !escape_entities in H. apply entities_inj in H.
    apply entities_fixed; exact H.
  - intros H. rewrite !(escape_plain (Str.strip s) H). reflexivity.
Qed.

(** ** The listing *)

Lemma encodable_cons c s :
  Py.encodable (c :: s) = negb (Py.is_surrogate c) && Py.encodable s.
Proof. reflexivity. Qed.

Lemma encodable_newline_indent level :
  Py.encodable (Encoder.newline_indent level) = true.
Proof.
  unfold Encoder.newline_indent, Py.encodable. cbn [forallb].
  induction level as [|level IH]; [reflexivity|].
  cbn [Str.repeat_str]. rewrite forallb_app. exact IH.
Qed.

Lemma encodable_items (P : json -> Prop) level level' l :
  Forall (fun x => forall a b,
            Py.encodable (text a x) = Py.encodable (text b x)) l ->
  forall first,
    Py.encodable (items_text level first l)
    = Py.encodable (items_text level' first l).
Proof.
  induction 1 as [|y l Hy _ IHl]; intros first; [reflexivity|].
  cbn [items_text]. rewrite !encodable_cons, !encodable_app.
  rewrite !encodable_newline_indent, (Hy level level'), (IHl false).
  destruct first; reflexivity.
Qed.

Lemma encodable_members level level' d :
  Forall (fun kv => forall a b,
            Py.encodable (text a (snd kv)) = Py.encodable (text b (snd kv))) d ->
  forall first,
    Py.encodable (members_text level first d)
    = Py.encodable (members_text level' first d).
Proof.
  induction 1 as [|[k y] d Hy _ IHd]; intros first; [reflexivity|].
  cbn [snd] in Hy. cbn [members_text]. rewrite !encodable_app.
  rewrite (Hy level level'), (IHd false).
  destruct first; [reflexivity|].
  rewrite !encodable_cons, !encodable_newline_indent. reflexivity.
Qed.

(** Whether the text of a value can be encoded does not depend on how
    deep the value is indented. *)
Lemma encodable_text_level v :
  forall level level',
    Py.encodable (text level v) = Py.encodable (text level' v).
Proof.
  induction v as [| | | | |l IH|d IH] using json_ind; intros level level';
    try reflexivity.
  - destruct l as [|x l]; [reflexivity|].
    rewrite !text_list, !encodable_app, !encodable_newline_indent.
    rewrite (encodable_items (fun _ => True) (S level) (S level') _ IH true).
    reflexivity.
  - destruct d as [|kv d]; [reflexivity|].
    rewrite !text_dict, !encodable_cons, !encodable_app.
    rewrite !encodable_newline_indent.
    rewrite (encodable_members (S level) (S level') _ IH true).
    reflexivity.
Qed.

Lemma encodable_of_N n : Py.encodable (Str.of_N n) = true.
Proof.
  unfold Str.of_N, Py.encodable.
  pose proof (of_uint_digits (N.to_uint n)) as H.
  rewrite forallb_forall in *. intros c Hc. specialize (H c Hc).
  unfold Decoder.is_digit in H. apply andb_prop in H. destruct H as [_ H].
  apply N.leb_le in H. unfold Py.is_surrogate.
  destruct (N.leb_spec 0xD800 c); [lia | reflexivity].
Qed.

(** The object of a listing. *)
Definition listing_object (registrations : list json) : json :=
  JDict [(py "success", JBool true);
         (py "count", JInt (Z.of_nat (length registrations)));
         (py "data", JList registrations)].

Lemma listing_encodable registrations :
  Py.encodable (Encoder.dumps (JList registrations)) = true ->
  Py.encodable (Encoder.dumps (listing_object registrations)) = true.
Proof.
  intros H. rewrite dumps_text in *. unfold listing_object.
  rewrite text_dict. cbn [members_text].
  rewrite (encodable_text_level _ 0%nat 1%nat) in H.
  replace (text 1 (JInt (Z.of_nat (length registrations))))
    with (Str.of_N (N.of_nat (length registrations))).
  2:{ unfold text; cbn [Encoder.scalar]. unfold Str.of_Z.
      destruct (length registrations) as [|n]; [reflexivity|].
      cbn [Z.of_nat Z.to_N]. f_equal; lia. }
  rewrite !encodable_cons, !encodable_app, !encodable_cons.
  rewrite !encodable_newline_indent, encodable_of_N, H.
  vm_compute. reflexivity.
Qed.

(** X26: what the server saved, the listing can show.  After a save
    that returned, an authorized listing whose read can open the file
    is always answered: status 200, the count and the saved list
    itself. *)
Theorem saved_store_is_listed
  (rt : runtime) (o o' : oracle) (req : request) (data : list json)
  (fs fs' : filesystem) :
  save_registrations o data fs = (Ok tt, fs') ->
  Forall unique_keys data -> Forall floats_read_back data ->
  open_read_fails o' = false ->
  path req = py "/api" -> _check_admin_token rt req = true ->
  do_GET rt o' req fs' = (Sent (json_answer (listing_object data) 200), fs').
Proof.
  intros Hs Hu Hf Ho Hp Ht.
  pose proof (read_after_save o o' data fs fs' Hs Ho Hu Hf) as Hr.
  apply save_registrations_ok in Hs. destruct Hs as [_ Henc].
  unfold do_GET. rewrite Hp, Ht, Hr. cbn [negb].
  change (JDict [(py "success", JBool true);
                 (py "count", JInt (Z.of_nat (length data)));
                 (py "data", JList data)]) with (listing_object data).
  rewrite (send_json_encodable _ 200 (listing_encodable data Henc)).
  reflexivity.
Qed.

(** X27: the text of a listing answered with status 200 decodes, with
    [json.loads], to an object with [success] true, the number of loaded
    registrations as [count] and the loaded registrations themselves, in
    their order, as [data]. *)
Theorem listing_decodes
  (rt : runtime) (o : oracle) (req : request) (fs fs' : filesystem)
  (r : response) (registrations : list json) :
  path req = py "/api" ->
  read_registrations o fs = Ok registrations ->
  Forall floats_read_back registrations ->
  do_GET rt o req fs = (Sent r, fs') -> status r = 200 ->
  exists text,
    body r = Text text
    /\ Decoder.loads text = Some (listing_object registrations).
Proof.
  intros Hp Hr Hf H Hs. unfold do_GET in H. rewrite Hp, Hr in H.
  cbn [Str.eqb] in H.
  destruct (negb (_check_admin_token rt req)).
  - apply (f_equal fst) in H; cbn [fst] in H.
    apply send_json_status in H. rewrite Hs in H. discriminate H.
  - apply (f_equal fst) in H; cbn [fst] in H.
    apply send_json_sent in H. subst r.
    eexists. split; [reflexivity|].
    apply loads_dumps.
    + cbn [unique_keys map fst snd fold_right]. split.
      * apply distinct_NoDup. vm_compute; reflexivity.
      * repeat split. apply all_Forall.
        exact (read_registrations_unique_keys _ _ _ Hr).
    + cbn [floats_read_back snd fold_right]. repeat split.
      apply all_Forall. exact Hf.
Qed.

(** ** Which entries the report can show *)

(** A cell takes the text: what it keeps of it, its first 32767
    characters, holds no character it refuses. *)
Definition cell_takes (s : pystr) : bool :=
  negb (existsb Xlsx.illegal (firstn Xlsx.cell_limit s)).

Lemma bind_value_text s :
  Xlsx.bind_value (JStr s)
  = if cell_takes s then Ok (JStr (firstn Xlsx.cell_limit s))
    else Raise IllegalCharacterError.
Proof.
  unfold Xlsx.bind_value, cell_takes.
  destruct (existsb Xlsx.illegal _); reflexivity.
Qed.

Lemma existsb_firstn {A : Type} (f : A -> bool) (n : nat) (l : list A) :
  existsb f l = false -> existsb f (firstn n l) = false.
Proof.
  revert n; induction l as [|x l IH]; intros [|n] H; try reflexivity.
  cbn [firstn existsb] in *. apply orb_false_elim in H. destruct H as [Hx Hl].
  rewrite Hx, (IH n Hl). reflexivity.
Qed.

Lemma cell_takes_clean s : existsb Xlsx.illegal s = false -> cell_takes s = true.
Proof.
  intros H. unfold cell_takes.
  rewrite (existsb_firstn _ Xlsx.cell_limit s H). reflexivity.
Qed.

Lemma digits_clean s :
  forallb Decoder.is_digit s = true -> existsb Xlsx.illegal s = false.
Proof.
  induction s as [|c s IH]; intros H; [reflexivity|].
  cbn [forallb existsb] in *. apply andb_prop in H. destruct H as [Hc Hs].
  rewrite (IH Hs), orb_false_r.
  unfold Decoder.is_digit in Hc. apply andb_prop in Hc. destruct Hc as [Hc _].
  apply N.leb_le in Hc. unfold Xlsx.illegal.
  destruct (N.leb_spec c 8); [lia|].
  destruct (N.eqb_spec c 11); [lia|].
  destruct (N.eqb_spec c 12); [lia|].
  destruct (N.leb_spec c 31); [lia|]. rewrite andb_false_r. reflexivity.
Qed.

Lemma zfill_clean width n :
  existsb Xlsx.illegal (Str.zfill width (Str.of_N n)) = false.
Proof.
  unfold Str.zfill. rewrite existsb_app.
  rewrite (digits_clean (Str.of_N n)) by apply of_uint_digits.
  rewrite orb_false_r.
  induction (width - length (Str.of_N n))%nat as [|k IH]; [reflexivity|].
  cbn [repeat existsb]. rewrite IH. reflexivity.
Qed.

Lemma strftime_clean t : existsb Xlsx.illegal (strftime t) = false.
Proof.
  unfold strftime. rewrite !existsb_app, !zfill_clean.
  rewrite (digits_clean (Str.of_N (year t))) by apply of_uint_digits.
  reflexivity.
Qed.

Lemma join_clean sep parts :
  existsb Xlsx.illegal sep = false ->
  Forall (fun p => existsb Xlsx.illegal p = false) parts ->
  existsb Xlsx.illegal (Str.join sep parts) = false.
Proof.
  intros Hsep. induction 1 as [|p parts Hp Hparts IH]; [reflexivity|].
  cbn [Str.join]. destruct parts as [|q parts]; [exact Hp|].
  rewrite !existsb_app, Hp, Hsep, IH. reflexivity.
Qed.

(** The strings of the catalogue among the candidates. *)
Definition catalogue_parts (candidates : list json) : list pystr :=
  flat_map (fun v => match v with
                     | JStr s => if Str.mem s VALID_DISTANCES then [s] else []
                     | _ => []
                     end) candidates.

Lemma strings_of_filtered candidates :
  Py.strings (filter in_catalogue candidates) = Ok (catalogue_parts candidates)
  /\ Forall (fun p => In p VALID_DISTANCES) (catalogue_parts candidates).
Proof.
  induction candidates as [|v cands [IH1 IH2]]; [split; [reflexivity|constructor]|].
  cbn [filter catalogue_parts flat_map].
  destruct v; cbn [in_catalogue]; try (split; assumption).
  destruct (Str.mem s VALID_DISTANCES) eqn:Em; [|split; assumption].
  cbn [Py.strings app]. fold (catalogue_parts cands). rewrite IH1. split.
  - reflexivity.
  - constructor; [apply Str.mem_In; exact Em | exact IH2].
Qed.

Lemma member_takes (l : list pystr) s :
  forallb cell_takes l = true -> In s l -> cell_takes s = true.
Proof. intros H Hs. rewrite forallb_forall in H. exact (H s Hs). Qed.

Lemma member_clean (l : list pystr) s :
  forallb (fun p => negb (existsb Xlsx.illegal p)) l = true -> In s l ->
  existsb Xlsx.illegal s = false.
Proof.
  intros H Hs. rewrite forallb_forall in H.
  apply negb_true_iff. exact (H s Hs).
Qed.

(** What the report needs of the nine free-text fields of an entry. *)
Definition free_text_fits (entry : json) : bool :=
  forallb (fun f => match Py.getitem entry f with
                    | Ok (JStr s) => cell_takes s
                    | _ => false
                    end) free_text.

(** The columns and the free-text fields of an object of strings with
    the keys of an entry. *)
Lemma entry_columns (i ts s1 s2 s3 s4 g s5 s6 s7 s8 b s9 : pystr)
  (distances : list json) :
  let e := [(py "id", JStr i); (py "timestamp", JStr ts);
            (py "surname", JStr s1); (py "firstname", JStr s2);
            (py "patronymic", JStr s3); (py "birthdate", JStr s4);
            (py "gender", JStr g); (py "country", JStr s5);
            (py "city", JStr s6); (py "rank", JStr s7);
            (py "team", JStr s8); (py "boat_class", JStr b);
            (py "phone", JStr s9); (py "distances", JList distances)] in
  map (field e) text_columns
  = [JStr ts; JStr s1; JStr s2; JStr s3; JStr s4; JStr g; JStr s5; JStr s6;
     JStr s7; JStr s8; JStr b; JStr s9]
  /\ map (Py.getitem (JDict e)) free_text
     = [Ok (JStr s1); Ok (JStr s2); Ok (JStr s3); Ok (JStr s4);
        Ok (JStr s5); Ok (JStr s6); Ok (JStr s7); Ok (JStr s8);
        Ok (JStr s9)].
Proof. split; vm_compute; reflexivity. Qed.

Lemma forallb_through {A B : Type} (f : A -> B) (p : B -> bool) (l : list A) :
  forallb (fun x => p (f x)) l = forallb p (map f l).
Proof.
  induction l as [|x l IH]; [reflexivity|].
  cbn [forallb map]. rewrite IH. reflexivity.
Qed.

Lemma entry_of_row_fits rt o d candidates :
  checks (JDict d) = Ok None ->
  let entry := JDict (entry_of rt o d (filter in_catalogue candidates)) in
  row_fits entry = free_text_fits entry.
Proof.
  intros Hc. destruct (checks_passed d Hc) as (Hreq & Hgin & Hbin).
  destruct (Hreq (py "gender")) as (g & Hg & _); [vm_compute; tauto|].
  destruct (Hreq (py "boat_class")) as (b & Hb & _); [vm_compute; tauto|].
  unfold text_of in Hgin, Hbin. rewrite Hg in Hgin. rewrite Hb in Hbin.
  apply Str.mem_In in Hgin, Hbin.
  assert (Fg : field d (py "gender") = JStr g)
    by (unfold field; rewrite Hg; reflexivity).
  assert (Fb : field d (py "boat_class") = JStr b)
    by (unfold field; rewrite Hb; reflexivity).
  destruct (strings_of_filtered candidates) as [Hparts Hcat].
  cbv zeta. unfold row_fits.
  rewrite (row_data_values 1 _ (catalogue_parts candidates))
    by (unfold distance_parts; exact Hparts).
  cbn [bind]. unfold row_values, free_text_fits, entry_of.
  rewrite Fg, Fb.
  rewrite (forallb_through
             (Py.getitem _)
             (fun x => match x with
                       | Ok (JStr s) => cell_takes s
                       | _ => false
                       end) free_text).
  match goal with
  | |- context [map (field ?e) text_columns] =>
      match e with
      | [(_, JStr ?i); (_, JStr ?ts); (_, JStr ?s1); (_, JStr ?s2);
         (_, JStr ?s3); (_, JStr ?s4); (_, JStr ?g'); (_, JStr ?s5);
         (_, JStr ?s6); (_, JStr ?s7); (_, JStr ?s8); (_, JStr ?b');
         (_, JStr ?s9); (_, JList ?ds)] =>
          destruct (entry_columns i ts s1 s2 s3 s4 g' s5 s6 s7 s8 b' s9 ds)
            as [Hcols Hfree]
      end
  end.
  cbv zeta in Hcols, Hfree. rewrite Hcols, Hfree.
  assert (Hts : cell_takes (strftime (now o)) = true)
    by (apply cell_takes_clean, strftime_clean).
  assert (Hgt : cell_takes g = true)
    by (apply (member_takes VALID_GENDERS);
        [vm_compute; reflexivity | exact Hgin]).
  assert (Hbt : cell_takes b = true)
    by (apply (member_takes VALID_BOATS);
        [vm_compute; reflexivity | exact Hbin]).
  assert (Hjt : cell_takes (Str.join (py ", ") (catalogue_parts candidates))
                = true).
  { apply cell_takes_clean, join_clean; [reflexivity|].
    revert Hcat. apply Forall_impl. intros p Hp.
    apply (member_clean VALID_DISTANCES);
      [vm_compute; reflexivity | exact Hp]. }
  cbn [app map_each forallb].
  change (Xlsx.bind_value (JInt (Z.of_N 1))) with (Ok (JInt (Z.of_N 1))).
  rewrite !bind_value_text, Hts, Hgt, Hbt, Hjt. cbn [bind].
  repeat match goal with
         | |- context [cell_takes (sanitize rt ?v)] =>
             destruct (cell_takes (sanitize rt v)); cbn [bind andb];
             [|reflexivity]
         end.
  reflexivity.
Qed.

(** X28: the row of an entry built for an accepted payload is taken by
    the cells of the report exactly when its nine free-text fields are:
    each must hold, within its first 32767 characters, none of the
    control characters a cell refuses.  The number, the timestamp, the
    gender, the boat class and the joined distances never stand in the
    way. *)
Theorem accepted_entry_exportable
  (rt : runtime) (o : oracle) (raw : pystr) (entry : json) :
  validate rt o raw = Ok (Accept entry) ->
  row_fits entry = free_text_fits entry.
Proof.
  intros H.
  destruct (validate_accept_entry rt o raw entry H)
    as (d & given & cands & _ & Hc & _ & _ & ->).
  exact (entry_of_row_fits rt o d cands Hc).
Qed.

(** ** The further properties at concrete inputs *)

(** A submission with an empty body is answered 400 with a flagged
    object. *)
Lemma answers_carry_success_flag_witness :
  exists r,
    fst (handle Sample.rt POST (Sample.quiet 0) (Sample.submit [])
           Sample.no_files) = Sent r
    /\ status r = 400 /\ flagged r.
Proof.
  destruct (handle Sample.rt POST (Sample.quiet 0) (Sample.submit [])
              Sample.no_files) as [out fs'] eqn:E.
  pose proof E as E'. vm_compute in E'. injection E' as Hout _. subst out.
  match type of E with
  | _ = (Sent ?x, _) => exists x
  end.
  destruct (answers_carry_success_flag _ _ _ _ _ _ _ E) as [_ [Hw|Hf]].
  - destruct Hw as (ws & Hb & _). discriminate Hb.
  - split; [reflexivity|]. split; [reflexivity | exact Hf].
Defined.

(** A payload without a team is rejected in the same way when the store
    is damaged and cannot even be opened. *)
Lemma rejection_ignores_store_witness :
  let payload := Sample.text "{'surname': 'A', 'firstname': 'B'}" in
  let faulty := {| uuid4 := 1; now := Sample.noon; open_read_fails := true;
                   makedirs_fails := true; open_write_fails := true;
                   disk_room := Some 0%nat |} in
  exists r,
    do_POST Sample.rt faulty (Sample.submit payload) (Sample.stored (py "{"))
    = (Sent r, Sample.stored (py "{"))
    /\ status r = 400.
Proof.
  cbv zeta. eexists. split.
  - apply (rejection_ignores_store Sample.rt Sample.rt (Sample.quiet 0));
      [reflexivity | vm_compute; reflexivity].
  - reflexivity.
Defined.

(** After an accepted submission there is still no [.env] file. *)
Lemma only_the_store_is_written_witness :
  snd (serve Sample.rt
         [(POST, Sample.quiet 7, Sample.submit Sample.ivanov)]
         Sample.no_files) (py ".env") = None.
Proof.
  rewrite only_the_store_is_written; [reflexivity|].
  vm_compute; discriminate.
Defined.

(** A submission without a body leaves the files as they were. *)
Lemma files_change_only_on_accepted_submission_witness :
  snd (handle Sample.rt POST (Sample.quiet 0) (Sample.submit [])
         (Sample.stored (py "[]")))
  = Sample.stored (py "[]").
Proof.
  destruct (handle Sample.rt POST (Sample.quiet 0) (Sample.submit [])
              (Sample.stored (py "[]"))) as [out fs'] eqn:E.
  destruct (files_change_only_on_accepted_submission _ _ _ _ _ _ _ E)
    as [H|(_ & _ & _ & entry & regs & Hv & _)].
  - exact H.
  - vm_compute in Hv. discriminate Hv.
Defined.

(** The first submission to an empty store. *)
Lemma accepted_submission_is_stored_witness :
  do_POST Sample.rt (Sample.quiet 7) (Sample.submit Sample.ivanov)
    Sample.no_files
  = (Sent (json_answer (JDict [(py "success", JBool true);
                               (py "id", JStr (py "reg_000000000000"))])
             200),
     Sample.stored (Encoder.dumps (JList [Witness.ivanov_entry 7]))).
Proof.
  apply (accepted_submission_is_stored Sample.rt (Sample.quiet 7)
           (Sample.submit Sample.ivanov) Sample.no_files
           (Witness.ivanov_entry 7) []);
    first [exact Witness.validate_ivanov | exact I
          | vm_compute; reflexivity].
Defined.

(** Saving one entry and loading it again. *)
Lemma save_then_read_witness :
  read_registrations (Sample.quiet 1)
    (snd (save_registrations (Sample.quiet 0) [Witness.ivanov_entry 7]
            Sample.no_files))
  = Ok [Witness.ivanov_entry 7].
Proof.
  destruct (save_registrations (Sample.quiet 0) [Witness.ivanov_entry 7]
              Sample.no_files) as [res fs'] eqn:E.
  assert (Hres : res = Ok tt).
  { pose proof (f_equal fst E) as H. cbn [fst] in H. rewrite <- H.
    vm_compute; reflexivity. }
  subst res. cbn [snd].
  apply (save_then_read (Sample.quiet 0) (Sample.quiet 1)
           [Witness.ivanov_entry 7] Sample.no_files fs' E eq_refl).
  - constructor; [|constructor]. cbn [unique_keys Witness.ivanov_entry].
    split; [apply distinct_NoDup; vm_compute; reflexivity|].
    cbn [map snd fold_right unique_keys]. repeat split; constructor.
  - constructor; [|constructor].
    apply float_free_reads_back; vm_compute; reflexivity.
Defined.

(** A surname without markup is stored as it is. *)
Lemma plain_text_stored_verbatim_witness :
  sanitize Sample.rt (JStr (py "Иванов")) = py "Иванов".
Proof.
  apply plain_text_stored_verbatim; [reflexivity|].
  intros c Hc Hm. vm_compute in Hc, Hm.
  repeat (destruct Hc as [<-|Hc];
          [repeat (destruct Hm as [Hm|Hm]; [discriminate Hm|]); exact Hm|]).
  exact Hc.
Defined.

(** The entry of [Sample.ivanov] passes the checks. *)
Lemma stored_entry_passes_checks_witness :
  checks (Witness.ivanov_entry 7) = Ok None.
Proof.
  exact (proj1 (stored_entry_passes_checks Sample.rt (Sample.quiet 7)
                  Sample.ivanov (Witness.ivanov_entry 7)
                  Witness.validate_ivanov)).
Defined.

(** The report of one registration is filtered over two rows. *)
Lemma report_settings_witness :
  exists ws,
    make_xlsx [Witness.ivanov_entry 7] = Ok ws
    /\ Xlsx.auto_filter_ref ws = Some (py "A1:N2").
Proof.
  destruct (make_xlsx [Witness.ivanov_entry 7]) as [ws|e] eqn:E;
    [|vm_compute in E; discriminate E].
  exists ws. split; [reflexivity|].
  destruct (report_settings [Witness.ivanov_entry 7] ws E) as (_ & _ & H & _).
  exact H.
Defined.

(** In the report of two registrations the gender of the second one is
    centred and shaded. *)
Lemma report_styles_witness :
  exists ws cell,
    make_xlsx [Witness.ivanov_entry 7; Witness.ivanov_entry 8] = Ok ws
    /\ Xlsx.cells ws 3 7 = Some cell
    /\ Xlsx.alignment cell = center_align
    /\ Xlsx.fill cell = Some even_fill.
Proof.
  destruct (make_xlsx [Witness.ivanov_entry 7; Witness.ivanov_entry 8])
    as [ws|e] eqn:E; [|vm_compute in E; discriminate E].
  destruct (Xlsx.cells ws 3 7) as [cell|] eqn:Ec.
  - exists ws, cell. split; [reflexivity|]. split; [exact Ec|].
    destruct (report_styles _ ws E 3 7 cell Ec)
      as [[H _]|(_ & _ & _ & Ha & Hf)]; [discriminate H|].
    split; [exact Ha | exact Hf].
  - exfalso. pose proof E as E'. vm_compute in E'.
    injection E' as E'. rewrite <- E' in Ec. vm_compute in Ec.
    discriminate Ec.
Defined.

(** A listing without a token, an accepted submission and a rejected
    one: the store holds the one accepted entry. *)
Lemma store_is_log_of_accepted_witness :
  let listing := {| path := py "/api"; admin_token := None; raw := [] |} in
  read_registrations (Sample.quiet 1)
    (snd (serve Sample.rt
            [(GET, Sample.quiet 0, listing);
             (POST, Sample.quiet 7, Sample.submit Sample.ivanov);
             (POST, Sample.quiet 8, Sample.submit (py "{}"))]
            Sample.no_files))
  = Ok [Witness.ivanov_entry 7].
Proof.
  cbv zeta. rewrite store_is_log_of_accepted.
  - vm_compute; reflexivity.
  - reflexivity.
  - match goal with
    | |- Forall2 _ _ ?outs =>
        let v := eval vm_compute in outs in
        replace outs with v by (vm_compute; reflexivity)
    end.
    constructor; [intros H; exfalso; apply H; reflexivity|].
    constructor; [intros _; eexists; reflexivity|].
    constructor; [intros H; exfalso; apply H; vm_compute; reflexivity|].
    constructor.
  - reflexivity.
Defined.

(** A submission is treated the same with a wrong token. *)
Lemma token_read_on_admin_routes_only_witness :
  handle Sample.rt POST (Sample.quiet 7)
    (with_token (Sample.submit Sample.ivanov) (Some (py "guess")))
    Sample.no_files
  = handle Sample.rt POST (Sample.quiet 7) (Sample.submit Sample.ivanov)
      Sample.no_files.
Proof.
  apply token_read_on_admin_routes_only.
  - intros [H _]; discriminate H.
  - intros [_ H]; vm_compute in H; discriminate H.
Defined.

(** The timestamp of [Sample.noon]. *)
Lemma timestamp_format_witness :
  strftime Sample.noon = py "2026-03-07 12:00:05"
  /\ length (strftime Sample.noon) = 19%nat.
Proof.
  split; [reflexivity|].
  apply (timestamp_format Sample.noon).
  unfold calendar, Sample.noon; cbn [year month day hour minute second]. lia.
Defined.

(** A [.env] file that names the token twice and the port once, loaded
    into an environment that already holds the port. *)
Lemma load_env_first_definition_wins_witness :
  let content :=
    py "# settings
ADMIN_TOKEN = s3cret
ADMIN_TOKEN=other
PORT=9000
" in
  let fs := write_file Sample.no_files (py ".env") content in
  let env := fun k => if Str.eqb k (py "PORT") then Some (py "8080")
                      else None in
  exists env',
    load_env (Sample.quiet 0) fs env = Ok env'
    /\ env' (py "ADMIN_TOKEN") = Some (py "s3cret")
    /\ env' (py "PORT") = Some (py "8080")
    /\ env' (py "HOME") = None.
Proof.
  cbv zeta.
  match goal with
  | |- exists _, load_env ?o ?fs ?env = _ /\ _ =>
      destruct (load_env o fs env) as [env'|e] eqn:E;
        [|vm_compute in E; discriminate E];
      exists env'; split; [reflexivity|];
      pose proof (load_env_first_definition_wins o fs env env' _
                    ltac:(vm_compute; reflexivity) E) as H
  end.
  rewrite !H. repeat split; vm_compute; reflexivity.
Defined.

(** With the token in [.env] only, a request is authorized exactly
    when it carries that token. *)
Lemma token_resolution_witness :
  let content := py "ADMIN_TOKEN=s3cret" in
  let fs := write_file Sample.no_files (py ".env") content in
  let rt := {| ADMIN_TOKEN := py "s3cret";
               isprintable := isprintable Sample.rt |} in
  let req := {| path := py "/api"; admin_token := Some (py "s3cret");
                raw := [] |} in
  _check_admin_token rt req = true.
Proof.
  cbv zeta.
  match goal with
  | |- _check_admin_token ?rt ?req = true =>
      destruct (load_env (Sample.quiet 0)
                  (write_file Sample.no_files (py ".env")
                     (py "ADMIN_TOKEN=s3cret"))
                  (fun _ => None)) as [env'|e] eqn:E;
        [|vm_compute in E; discriminate E];
      assert (Hrt : ADMIN_TOKEN rt = configured_token env')
        by (pose proof E as E'; vm_compute in E'; injection E' as <-;
            vm_compute; reflexivity);
      destruct (token_resolution _ _ _ _ rt req E Hrt) as [_ H]
  end.
  apply H. vm_compute; reflexivity.
Defined.

(** A line without a name stops the start-up. *)
Lemma env_line_failure_witness :
  load_line (fun _ => None) (py "=value") = Raise OSError.
Proof.
  apply env_line_failure; [vm_compute; reflexivity|].
  exists [], (py "value"). split; [vm_compute; reflexivity|].
  split; [reflexivity|]. right. split; [reflexivity|].
  split; [reflexivity|]. vm_compute. intuition discriminate.
Defined.

(** The report of the one stored registration has two rows, and the
    last cell of the second holds its distances. *)
Lemma report_shape_witness :
  exists ws,
    make_xlsx [Witness.ivanov_entry 7] = Ok ws
    /\ Xlsx.max_row ws = 2
    /\ cell_value ws 2 14 = Some (JStr (py "200 м")).
Proof.
  destruct (make_xlsx [Witness.ivanov_entry 7]) as [ws|e] eqn:E;
    [|vm_compute in E; discriminate E].
  exists ws. split; [reflexivity|].
  destruct (report_shape [Witness.ivanov_entry 7] ws E)
    as (Hrows & _ & _ & _ & Hdata & _).
  split; [exact Hrows|].
  destruct (Hdata 0%nat _ eq_refl) as (d & parts & Hd & Hp & _ & _ & Hlast).
  injection Hd as Hd; subst d.
  vm_compute in Hp; injection Hp as Hp; subst parts.
  etransitivity; [exact Hlast|]. vm_compute; reflexivity.
Defined.

(** The entry of [Sample.ivanov] can be shown in the report. *)
Lemma accepted_entry_exportable_witness :
  row_fits (Witness.ivanov_entry 7) = true.
Proof.
  rewrite (accepted_entry_exportable Sample.rt (Sample.quiet 7)
             Sample.ivanov (Witness.ivanov_entry 7) Witness.validate_ivanov).
  vm_compute; reflexivity.
Defined.

(** The listing of a store with one entry. *)
Lemma listing_decodes_witness :
  let listing := {| path := py "/api"; admin_token := Some (py "changeme");
                    raw := [] |} in
  let fs := Sample.stored (Encoder.dumps (JList [Witness.ivanov_entry 7])) in
  exists text,
    fst (do_GET Sample.rt (Sample.quiet 0) listing fs)
    = Sent (json_answer (listing_object [Witness.ivanov_entry 7]) 200)
    /\ Encoder.dumps (listing_object [Witness.ivanov_entry 7]) = text
    /\ Decoder.loads text = Some (listing_object [Witness.ivanov_entry 7]).
Proof.
  cbv zeta.
  set (listing := {| path := py "/api"; admin_token := Some (py "changeme");
                     raw := [] |}).
  set (fs := Sample.stored (Encoder.dumps (JList [Witness.ivanov_entry 7]))).
  destruct (do_GET Sample.rt (Sample.quiet 0) listing fs) as [out fs'] eqn:E.
  assert (Hout : out = Sent (json_answer
                               (listing_object [Witness.ivanov_entry 7]) 200)).
  { pose proof (f_equal fst E) as H. cbn [fst] in H. rewrite <- H.
    vm_compute; reflexivity. }
  subst out.
  destruct (listing_decodes Sample.rt (Sample.quiet 0) listing fs fs' _
              [Witness.ivanov_entry 7] eq_refl
              ltac:(vm_compute; reflexivity)
              ltac:(constructor; [|constructor];
                    apply float_free_reads_back; vm_compute; reflexivity)
              E eq_refl) as (text & Hb & Hl).
  exists text. cbn [fst]. split; [reflexivity|].
  cbn [body json_answer] in Hb. injection Hb as Hb.
  split; [exact Hb | exact Hl].
Defined.

(** One entry is saved; the listing shows it. *)
Lemma saved_store_is_listed_witness :
  let listing := {| path := py "/api"; admin_token := Some (py "changeme");
                    raw := [] |} in
  fst (do_GET Sample.rt (Sample.quiet 1) listing
         (snd (save_registrations (Sample.quiet 0) [Witness.ivanov_entry 7]
                 Sample.no_files)))
  = Sent (json_answer (listing_object [Witness.ivanov_entry 7]) 200).
Proof.
  cbv zeta.
  destruct (save_registrations (Sample.quiet 0) [Witness.ivanov_entry 7]
              Sample.no_files) as [res fs'] eqn:E.
  assert (Hres : res = Ok tt).
  { pose proof (f_equal fst E) as H. cbn [fst] in H. rewrite <- H.
    vm_compute; reflexivity. }
  subst res. cbn [snd].
  rewrite (saved_store_is_listed Sample.rt (Sample.quiet 0) (Sample.quiet 1)
             _ [Witness.ivanov_entry 7] Sample.no_files fs' E).
  - reflexivity.
  - constructor; [|constructor]. cbn [unique_keys Witness.ivanov_entry].
    split; [apply distinct_NoDup; vm_compute; reflexivity|].
    cbn [map snd fold_right unique_keys]. repeat split; constructor.
  - constructor; [|constructor].
    apply float_free_reads_back; vm_compute; reflexivity.
  - reflexivity.
  - reflexivity.
  - reflexivity.
Defined.
